(** * Pro-Lite PDF Viewer: the tab controller of [pdf_viewer.py]

    A shallow embedding of the original logic of [PDFPageItem], [PDFTab] and
    [ProPDFViewer.save_overwrite]: page layout, the zoom state, the
    pointer-to-selection mapping, erasing, copying and per-page rendering;
    and of the slots of [ProPDFViewer] that act on a tab: saving a copy,
    the page label, the colour of the Highlight tool and the view mode.

    Python floats are IEEE 754 binary64 numbers; they are modelled by the
    standard library's executable specification [SpecFloat] at precision 53
    and maximal exponent 1024, so sums, differences, products, quotients
    and comparisons are those of the interpreter.  The PDF engine (fitz),
    the GUI toolkit (Qt) and the C library are collaborators: what the code
    observes of them is either data of the model (a page's quads, its
    annotations, the rubber band's geometry) or a method of the class
    [Backend]. *)

From Stdlib Require Import ZArith Lia Bool String Ascii.
From Stdlib Require Import Floats.SpecFloat.
From stdpp Require Import base option list strings pretty.

Local Open Scope Z_scope.

(** ** Binary64 arithmetic *)

Module F64.

Definition float := spec_float.

Definition prec : Z := 53.
Definition emax : Z := 1024.

Definition add : float -> float -> float := SFadd prec emax.
Definition sub : float -> float -> float := SFsub prec emax.
Definition mul : float -> float -> float := SFmul prec emax.
Definition div : float -> float -> float := SFdiv prec emax.
Definition compare : float -> float -> option comparison := SFcompare.
Definition ltb : float -> float -> bool := SFltb.
Definition leb : float -> float -> bool := SFleb.

(** [float(z)] for an integer [z] (exact below 2^53, rounded above). *)
Definition of_Z (z : Z) : float := binary_normalize prec emax z 0 false.

Definition zero : float := S754_zero false.
Definition inf : float := S754_infinity false.
Definition nan : float := S754_nan.

(** The literals of the source. [0.2] is the binary64 number nearest to
    1/5, which is what the correctly rounded division yields. *)
Definition f0_2 : float := S754_finite false 7205759403792794 (-55).
Definition fm0_2 : float := S754_finite true 7205759403792794 (-55).
Definition f5_0 : float := S754_finite false 5629499534213120 (-50).
Definition f1_0 : float := S754_finite false 4503599627370496 (-52).
Definition f2_0 : float := S754_finite false 4503599627370496 (-51).

Definition is_nan (x : float) : bool :=
  match x with S754_nan => true | _ => false end.

Definition is_finite (x : float) : bool :=
  match x with S754_zero _ | S754_finite _ _ _ => true | _ => false end.

Definition is_zero (x : float) : bool :=
  match x with S754_zero _ => true | _ => false end.

Definition opp : float -> float := SFopp.

End F64.

Import F64.

(** ** Exceptions and results *)

(** The exceptions the modelled code can meet. [EngineError] stands for
    whatever the PDF engine raises (a subclass of [Exception]). *)
Inductive exn : Type :=
  | ZeroDivisionError
  | OverflowError
  | RuntimeError
  | AttributeError
  | IndexError
  | TypeError
  | EngineError (msg : string).

Inductive result (A : Type) : Type :=
  | Ret (a : A)
  | Raise (e : exn).
Arguments Ret {A} a.
Arguments Raise {A} e.

(** Sequencing: the first exception raised ends the computation. The
    instances give the notation [x ← r; k]. *)
#[export] Instance result_ret : MRet result := fun A a => Ret a.
#[export] Instance result_bind : MBind result := fun A B k r =>
  match r with
  | Ret a => k a
  | Raise e => Raise e
  end.

(** [a / b] on floats: Python raises on a zero divisor. *)
Definition py_truediv (a b : float) : result float :=
  if is_zero b then Raise ZeroDivisionError else Ret (div a b).

(** [max(a, b)] and [min(a, b)]: the first argument unless the second is
    strictly better. *)
Definition py_max (a b : float) : float := if ltb a b then b else a.
Definition py_min (a b : float) : float := if ltb b a then b else a.

(** ** Geometry of the engine and of the toolkit *)

(** [fitz.Point], [fitz.Rect] and [fitz.Quad], in page-local units. *)
Record Point := { pt_x : float; pt_y : float }.
Record Rect := { x0 : float; y0 : float; x1 : float; y1 : float }.
Record Quad := { ul : Point; ur : Point; ll : Point; lr : Point }.

Definition min4 (a b c d : float) : float := py_min (py_min (py_min a b) c) d.
Definition max4 (a b c d : float) : float := py_max (py_max (py_max a b) c) d.

(** [q.rect]: the bounding rectangle of the four corners. *)
Definition quad_rect (q : Quad) : Rect :=
  {| x0 := min4 (pt_x (ul q)) (pt_x (ur q)) (pt_x (lr q)) (pt_x (ll q));
     y0 := min4 (pt_y (ul q)) (pt_y (ur q)) (pt_y (lr q)) (pt_y (ll q));
     x1 := max4 (pt_x (ul q)) (pt_x (ur q)) (pt_x (lr q)) (pt_x (ll q));
     y1 := max4 (pt_y (ul q)) (pt_y (ur q)) (pt_y (lr q)) (pt_y (ll q)) |}.

(** [QPoint] and [QRect] hold integers; a [QRect] stores its two corners,
    both inclusive, so that its width is [x2 - x1 + 1]. *)
Record QPoint := { qp_x : Z; qp_y : Z }.
Record QRect := { qr_x1 : Z; qr_y1 : Z; qr_x2 : Z; qr_y2 : Z }.
Record QPointF := { qpf_x : float; qpf_y : float }.
Record QRectF := { qrf_x : float; qrf_y : float; qrf_w : float; qrf_h : float }.

Definition qpoint_null : QPoint := {| qp_x := 0; qp_y := 0 |}.
Definition qpoint_isNull (p : QPoint) : bool := (qp_x p =? 0) && (qp_y p =? 0).

Definition qrect_width (r : QRect) : Z := qr_x2 r - qr_x1 r + 1.
Definition qrect_height (r : QRect) : Z := qr_y2 r - qr_y1 r + 1.

(** [QRect(p, QSize())]: the default size is (-1, -1). *)
Definition qrect_of_point (p : QPoint) : QRect :=
  {| qr_x1 := qp_x p; qr_y1 := qp_y p;
     qr_x2 := qp_x p + (-1) - 1; qr_y2 := qp_y p + (-1) - 1 |}.

(** [widget.setGeometry(r)] for a widget without a minimal size, as the
    rubber band is, and a rectangle below the maximal size of a widget:
    the corner stays, and a negative width or height counts as zero.
    The result is what [widget.geometry()] returns afterwards. *)
Definition setGeometry (r : QRect) : QRect :=
  {| qr_x1 := qr_x1 r; qr_y1 := qr_y1 r;
     qr_x2 := qr_x1 r + Z.max 0 (qrect_width r) - 1;
     qr_y2 := qr_y1 r + Z.max 0 (qrect_height r) - 1 |}.

(** [QRect(p1, p2)]: the corners as they are given. *)
Definition qrect_of_points (p1 p2 : QPoint) : QRect :=
  {| qr_x1 := qp_x p1; qr_y1 := qp_y p1; qr_x2 := qp_x p2; qr_y2 := qp_y p2 |}.

(** [r.normalized()]: corners in the wrong order are swapped and turned
    from exclusive into inclusive ones. *)
Definition qrect_normalized (r : QRect) : QRect :=
  let '(a1, a2) :=
    if qr_x2 r <? qr_x1 r then (qr_x2 r + 1, qr_x1 r - 1)
    else (qr_x1 r, qr_x2 r) in
  let '(b1, b2) :=
    if qr_y2 r <? qr_y1 r then (qr_y2 r + 1, qr_y1 r - 1)
    else (qr_y1 r, qr_y2 r) in
  {| qr_x1 := a1; qr_y1 := b1; qr_x2 := a2; qr_y2 := b2 |}.

Definition qrectf_empty : QRectF :=
  {| qrf_x := zero; qrf_y := zero; qrf_w := zero; qrf_h := zero |}.
Definition qrectf_top (r : QRectF) : float := qrf_y r.
Definition qrectf_bottom (r : QRectF) : float := add (qrf_y r) (qrf_h r).
Definition qrectf_right (r : QRectF) : float := add (qrf_x r) (qrf_w r).
Definition qrectf_translated (r : QRectF) (dx dy : float) : QRectF :=
  {| qrf_x := add (qrf_x r) dx; qrf_y := add (qrf_y r) dy;
     qrf_w := qrf_w r; qrf_h := qrf_h r |}.

(** ** The engine's pages *)

Definition Color : Type := float * float * float.

(** A selected element: a text quad, or the rectangle of a box selection. *)
Inductive Clip : Type :=
  | AQuad (q : Quad)
  | ARect (r : Rect).

(** The argument of [add_highlight_annot]: a list of quads or one rectangle. *)
Inductive HighlightArg : Type :=
  | HQuads (qs : list Clip)
  | HRect (r : Rect).

(** An annotation of a page: its rectangle, [annot.type[0]] (8 is a
    highlight) and the stroke colour once [set_colors] has run. *)
Record Annot := {
  annot_rect : Rect;
  annot_type : Z;
  annot_stroke : option Color
}.

Definition HIGHLIGHT : Z := 8.

(** What [get_pixmap] returns. *)
Record Pixmap := {
  samples : list Byte.byte;
  pix_width : Z;
  pix_height : Z;
  pix_stride : Z;
  pix_alpha : bool
}.

(** A page handle: the answers of the engine for this page, and the page's
    annotations in insertion order ([first_annot], then [next]).
    Rasterizing depends on the annotations present. *)
Record PageObj := {
  rect_width : float;
  get_pixmap : list Annot -> float -> result Pixmap;
  get_text_quads : option Rect -> result (list Quad);
  get_text_text : Rect -> result string;
  annots : list Annot
}.

Definition set_annots (p : PageObj) (l : list Annot) : PageObj :=
  {| rect_width := rect_width p; get_pixmap := get_pixmap p;
     get_text_quads := get_text_quads p; get_text_text := get_text_text p;
     annots := l |}.

(** The parts of the collaborators that the code calls as functions:
    the containment tests of both geometries, the intersection of scene
    rectangles, the engine's construction of a highlight annotation from
    quads or a rectangle (which may raise), and the C library's
    [pow(a, 2.0)] for a finite [a] that is not zero (close to the square,
    not always its nearest binary64 number). *)
Class Backend := {
  rect_contains : Rect -> Point -> bool;
  qrectf_contains : QRectF -> QPointF -> bool;
  qrectf_intersected : QRectF -> QRectF -> QRectF;
  make_highlight : HighlightArg -> result Annot;
  libm_pow2 : float -> float
}.

(** ** PDFPageItem *)

Inductive ImageFormat := Format_RGBA8888 | Format_RGB888.

(** The pixmap an item shows: the image data and its device pixel ratio. *)
Record QPixmap := {
  img_samples : list Byte.byte;
  img_width : Z;
  img_height : Z;
  img_stride : Z;
  img_format : ImageFormat;
  img_dpr : float
}.

(** An item of the scene. Its page object is page [page_num] of the tab's
    document (the item and the document share it); [pixmap] is [None] for
    the null pixmap of a fresh item. *)
Record PDFPageItem := {
  page_num : nat;
  pixmap : option QPixmap;
  pos : QPointF;
  in_scene : bool
}.

Definition PDFPageItem_init (i : nat) : PDFPageItem :=
  {| page_num := i; pixmap := None;
     pos := {| qpf_x := zero; qpf_y := zero |}; in_scene := false |}.

Definition setPixmap (it : PDFPageItem) (pm : QPixmap) : PDFPageItem :=
  {| page_num := page_num it; pixmap := Some pm; pos := pos it;
     in_scene := in_scene it |}.

Definition setPos (it : PDFPageItem) (x y : float) : PDFPageItem :=
  {| page_num := page_num it; pixmap := pixmap it;
     pos := {| qpf_x := x; qpf_y := y |}; in_scene := in_scene it |}.

Definition addItem (it : PDFPageItem) : PDFPageItem :=
  {| page_num := page_num it; pixmap := pixmap it; pos := pos it;
     in_scene := true |}.

(** [item.boundingRect()]: the pixmap's size over its device pixel ratio,
    empty for the null pixmap. *)
Definition boundingRect (it : PDFPageItem) : QRectF :=
  match pixmap it with
  | None => qrectf_empty
  | Some pm =>
      {| qrf_x := zero; qrf_y := zero;
         qrf_w := div (of_Z (img_width pm)) (img_dpr pm);
         qrf_h := div (of_Z (img_height pm)) (img_dpr pm) |}
  end.

Definition sceneBoundingRect (it : PDFPageItem) : QRectF :=
  qrectf_translated (boundingRect it) (qpf_x (pos it)) (qpf_y (pos it)).

Definition mapFromScene (it : PDFPageItem) (p : QPointF) : QPointF :=
  {| qpf_x := sub (qpf_x p) (qpf_x (pos it));
     qpf_y := sub (qpf_y p) (qpf_y (pos it)) |}.

Definition exn_str (e : exn) : string :=
  match e with
  | ZeroDivisionError => "float division by zero"
  | OverflowError => "(34, 'Numerical result out of range')"
  | RuntimeError => "wrapped C/C++ object has been deleted"
  | AttributeError => "object has no such attribute"
  | IndexError => "page not in document"
  | TypeError => "object of type 'NoneType' has no len()"
  | EngineError msg => msg
  end.

(** [update_render]: the new item and what was printed. *)
Definition update_render (p : PageObj) (it : PDFPageItem) (scale dpr : float)
  : PDFPageItem * list string :=
  match get_pixmap p (annots p) (mul scale dpr) with
  | Ret pix =>
      match samples pix with
      | [] => (it, [])
      | _ :: _ =>
          let fmt := if pix_alpha pix then Format_RGBA8888 else Format_RGB888 in
          (setPixmap it {| img_samples := samples pix;
                           img_width := pix_width pix;
                           img_height := pix_height pix;
                           img_stride := pix_stride pix;
                           img_format := fmt;
                           img_dpr := dpr |}, [])
      end
  | Raise e =>
      (it, ["Render Error on page " +:+ pretty (page_num it) +:+ ": "
              +:+ exn_str e])
  end.

(** ** PDFTab: the state of one open document *)

Inductive ViewMode := Single | Dual.
Inductive ToolMode := Browse | Select | Highlight | Erase.

(** What the tab emits to the main window. *)
Inductive Signal :=
  | zoom_changed (s : float)
  | page_changed (text : string).

(** A reference to an item of the scene. [scene.clear()] deletes the items
    of the scene: a reference taken before it is stale, and calling a
    method of the item through it raises [RuntimeError]; the attributes
    [page_num] and [page_obj] of the Python object stay readable. *)
Record ItemRef := {
  ref_generation : nat;
  ref_index : nat;
  ref_page_num : nat
}.

(** What the code reads from the view widget: its size, the mapping from
    viewport to scene coordinates (it depends on the scroll position),
    where [mapRectToScene r] is [view.mapToScene(r).boundingRect()], and
    the device pixel ratio. *)
Record Viewport := {
  view_width : Z;
  view_height : Z;
  mapToScene : QPoint -> QPointF;
  mapRectToScene : QRect -> QRectF;
  devicePixelRatio : float
}.

(** The attributes of [PDFTab], the state of its rubber band and overlay,
    and what it writes to the outside: signals, printed lines and the
    clipboard. The rubber band keeps the geometry that [setGeometry]
    stored, also between gestures and while it is hidden. *)
Record PDFTab := {
  doc : option (list PageObj);
  current_path : option string;
  scale : float;
  view_mode : ViewMode;
  tool_mode : ToolMode;
  highlight_color : Color;
  page_items : list PDFPageItem;
  start_selection_page : option ItemRef;
  page_quads_cache : list Quad;
  sel_start_index : Z;
  sel_end_index : Z;
  selected_quads : list Clip;
  use_linear_selection : bool;
  view : Viewport;
  rubberband_geometry : QRect;
  rubberband_visible : bool;
  origin_point : QPoint;
  selection_overlay : list (list QPointF);
  scene_generation : nat;
  signals : list Signal;
  stdout : list string;
  clipboard : string
}.

Definition set_doc (v : option (list PageObj)) (t : PDFTab) : PDFTab :=
  {| doc := v; current_path := current_path t; scale := scale t; view_mode
     := view_mode t; tool_mode := tool_mode t; highlight_color :=
     highlight_color t; page_items := page_items t; start_selection_page :=
     start_selection_page t; page_quads_cache := page_quads_cache t;
     sel_start_index := sel_start_index t; sel_end_index := sel_end_index t;
     selected_quads := selected_quads t; use_linear_selection :=
     use_linear_selection t; view := view t; rubberband_geometry :=
     rubberband_geometry t; rubberband_visible := rubberband_visible t;
     origin_point := origin_point t; selection_overlay := selection_overlay
     t; scene_generation := scene_generation t; signals := signals t; stdout
     := stdout t; clipboard := clipboard t |}.

Definition set_scale (v : float) (t : PDFTab) : PDFTab :=
  {| doc := doc t; current_path := current_path t; scale := v; view_mode :=
     view_mode t; tool_mode := tool_mode t; highlight_color :=
     highlight_color t; page_items := page_items t; start_selection_page :=
     start_selection_page t; page_quads_cache := page_quads_cache t;
     sel_start_index := sel_start_index t; sel_end_index := sel_end_index t;
     selected_quads := selected_quads t; use_linear_selection :=
     use_linear_selection t; view := view t; rubberband_geometry :=
     rubberband_geometry t; rubberband_visible := rubberband_visible t;
     origin_point := origin_point t; selection_overlay := selection_overlay
     t; scene_generation := scene_generation t; signals := signals t; stdout
     := stdout t; clipboard := clipboard t |}.

Definition set_view_mode (v : ViewMode) (t : PDFTab) : PDFTab :=
  {| doc := doc t; current_path := current_path t; scale := scale t;
     view_mode := v; tool_mode := tool_mode t; highlight_color :=
     highlight_color t; page_items := page_items t; start_selection_page :=
     start_selection_page t; page_quads_cache := page_quads_cache t;
     sel_start_index := sel_start_index t; sel_end_index := sel_end_index t;
     selected_quads := selected_quads t; use_linear_selection :=
     use_linear_selection t; view := view t; rubberband_geometry :=
     rubberband_geometry t; rubberband_visible := rubberband_visible t;
     origin_point := origin_point t; selection_overlay := selection_overlay
     t; scene_generation := scene_generation t; signals := signals t; stdout
     := stdout t; clipboard := clipboard t |}.

Definition set_tool_mode (v : ToolMode) (t : PDFTab) : PDFTab :=
  {| doc := doc t; current_path := current_path t; scale := scale t;
     view_mode := view_mode t; tool_mode := v; highlight_color :=
     highlight_color t; page_items := page_items t; start_selection_page :=
     start_selection_page t; page_quads_cache := page_quads_cache t;
     sel_start_index := sel_start_index t; sel_end_index := sel_end_index t;
     selected_quads := selected_quads t; use_linear_selection :=
     use_linear_selection t; view := view t; rubberband_geometry :=
     rubberband_geometry t; rubberband_visible := rubberband_visible t;
     origin_point := origin_point t; selection_overlay := selection_overlay
     t; scene_generation := scene_generation t; signals := signals t; stdout
     := stdout t; clipboard := clipboard t |}.

Definition set_page_items (v : list PDFPageItem) (t : PDFTab) : PDFTab :=
  {| doc := doc t; current_path := current_path t; scale := scale t;
     view_mode := view_mode t; tool_mode := tool_mode t; highlight_color :=
     highlight_color t; page_items := v; start_selection_page :=
     start_selection_page t; page_quads_cache := page_quads_cache t;
     sel_start_index := sel_start_index t; sel_end_index := sel_end_index t;
     selected_quads := selected_quads t; use_linear_selection :=
     use_linear_selection t; view := view t; rubberband_geometry :=
     rubberband_geometry t; rubberband_visible := rubberband_visible t;
     origin_point := origin_point t; selection_overlay := selection_overlay
     t; scene_generation := scene_generation t; signals := signals t; stdout
     := stdout t; clipboard := clipboard t |}.

Definition set_start_selection_page (v : option ItemRef) (t : PDFTab) : PDFTab :=
  {| doc := doc t; current_path := current_path t; scale := scale t;
     view_mode := view_mode t; tool_mode := tool_mode t; highlight_color :=
     highlight_color t; page_items := page_items t; start_selection_page :=
     v; page_quads_cache := page_quads_cache t; sel_start_index :=
     sel_start_index t; sel_end_index := sel_end_index t; selected_quads :=
     selected_quads t; use_linear_selection := use_linear_selection t; view
     := view t; rubberband_geometry := rubberband_geometry t;
     rubberband_visible := rubberband_visible t; origin_point :=
     origin_point t; selection_overlay := selection_overlay t;
     scene_generation := scene_generation t; signals := signals t; stdout :=
     stdout t; clipboard := clipboard t |}.

Definition set_page_quads_cache (v : list Quad) (t : PDFTab) : PDFTab :=
  {| doc := doc t; current_path := current_path t; scale := scale t;
     view_mode := view_mode t; tool_mode := tool_mode t; highlight_color :=
     highlight_color t; page_items := page_items t; start_selection_page :=
     start_selection_page t; page_quads_cache := v; sel_start_index :=
     sel_start_index t; sel_end_index := sel_end_index t; selected_quads :=
     selected_quads t; use_linear_selection := use_linear_selection t; view
     := view t; rubberband_geometry := rubberband_geometry t;
     rubberband_visible := rubberband_visible t; origin_point :=
     origin_point t; selection_overlay := selection_overlay t;
     scene_generation := scene_generation t; signals := signals t; stdout :=
     stdout t; clipboard := clipboard t |}.

Definition set_sel_start_index (v : Z) (t : PDFTab) : PDFTab :=
  {| doc := doc t; current_path := current_path t; scale := scale t;
     view_mode := view_mode t; tool_mode := tool_mode t; highlight_color :=
     highlight_color t; page_items := page_items t; start_selection_page :=
     start_selection_page t; page_quads_cache := page_quads_cache t;
     sel_start_index := v; sel_end_index := sel_end_index t; selected_quads
     := selected_quads t; use_linear_selection := use_linear_selection t;
     view := view t; rubberband_geometry := rubberband_geometry t;
     rubberband_visible := rubberband_visible t; origin_point :=
     origin_point t; selection_overlay := selection_overlay t;
     scene_generation := scene_generation t; signals := signals t; stdout :=
     stdout t; clipboard := clipboard t |}.

Definition set_sel_end_index (v : Z) (t : PDFTab) : PDFTab :=
  {| doc := doc t; current_path := current_path t; scale := scale t;
     view_mode := view_mode t; tool_mode := tool_mode t; highlight_color :=
     highlight_color t; page_items := page_items t; start_selection_page :=
     start_selection_page t; page_quads_cache := page_quads_cache t;
     sel_start_index := sel_start_index t; sel_end_index := v;
     selected_quads := selected_quads t; use_linear_selection :=
     use_linear_selection t; view := view t; rubberband_geometry :=
     rubberband_geometry t; rubberband_visible := rubberband_visible t;
     origin_point := origin_point t; selection_overlay := selection_overlay
     t; scene_generation := scene_generation t; signals := signals t; stdout
     := stdout t; clipboard := clipboard t |}.

Definition set_selected_quads (v : list Clip) (t : PDFTab) : PDFTab :=
  {| doc := doc t; current_path := current_path t; scale := scale t;
     view_mode := view_mode t; tool_mode := tool_mode t; highlight_color :=
     highlight_color t; page_items := page_items t; start_selection_page :=
     start_selection_page t; page_quads_cache := page_quads_cache t;
     sel_start_index := sel_start_index t; sel_end_index := sel_end_index t;
     selected_quads := v; use_linear_selection := use_linear_selection t;
     view := view t; rubberband_geometry := rubberband_geometry t;
     rubberband_visible := rubberband_visible t; origin_point :=
     origin_point t; selection_overlay := selection_overlay t;
     scene_generation := scene_generation t; signals := signals t; stdout :=
     stdout t; clipboard := clipboard t |}.

Definition set_use_linear_selection (v : bool) (t : PDFTab) : PDFTab :=
  {| doc := doc t; current_path := current_path t; scale := scale t;
     view_mode := view_mode t; tool_mode := tool_mode t; highlight_color :=
     highlight_color t; page_items := page_items t; start_selection_page :=
     start_selection_page t; page_quads_cache := page_quads_cache t;
     sel_start_index := sel_start_index t; sel_end_index := sel_end_index t;
     selected_quads := selected_quads t; use_linear_selection := v; view :=
     view t; rubberband_geometry := rubberband_geometry t;
     rubberband_visible := rubberband_visible t; origin_point :=
     origin_point t; selection_overlay := selection_overlay t;
     scene_generation := scene_generation t; signals := signals t; stdout :=
     stdout t; clipboard := clipboard t |}.

Definition set_rubberband_geometry (v : QRect) (t : PDFTab) : PDFTab :=
  {| doc := doc t; current_path := current_path t; scale := scale t;
     view_mode := view_mode t; tool_mode := tool_mode t; highlight_color :=
     highlight_color t; page_items := page_items t; start_selection_page :=
     start_selection_page t; page_quads_cache := page_quads_cache t;
     sel_start_index := sel_start_index t; sel_end_index := sel_end_index t;
     selected_quads := selected_quads t; use_linear_selection :=
     use_linear_selection t; view := view t; rubberband_geometry := v;
     rubberband_visible := rubberband_visible t; origin_point :=
     origin_point t; selection_overlay := selection_overlay t;
     scene_generation := scene_generation t; signals := signals t; stdout :=
     stdout t; clipboard := clipboard t |}.

Definition set_rubberband_visible (v : bool) (t : PDFTab) : PDFTab :=
  {| doc := doc t; current_path := current_path t; scale := scale t;
     view_mode := view_mode t; tool_mode := tool_mode t; highlight_color :=
     highlight_color t; page_items := page_items t; start_selection_page :=
     start_selection_page t; page_quads_cache := page_quads_cache t;
     sel_start_index := sel_start_index t; sel_end_index := sel_end_index t;
     selected_quads := selected_quads t; use_linear_selection :=
     use_linear_selection t; view := view t; rubberband_geometry :=
     rubberband_geometry t; rubberband_visible := v; origin_point :=
     origin_point t; selection_overlay := selection_overlay t;
     scene_generation := scene_generation t; signals := signals t; stdout :=
     stdout t; clipboard := clipboard t |}.

Definition set_origin_point (v : QPoint) (t : PDFTab) : PDFTab :=
  {| doc := doc t; current_path := current_path t; scale := scale t;
     view_mode := view_mode t; tool_mode := tool_mode t; highlight_color :=
     highlight_color t; page_items := page_items t; start_selection_page :=
     start_selection_page t; page_quads_cache := page_quads_cache t;
     sel_start_index := sel_start_index t; sel_end_index := sel_end_index t;
     selected_quads := selected_quads t; use_linear_selection :=
     use_linear_selection t; view := view t; rubberband_geometry :=
     rubberband_geometry t; rubberband_visible := rubberband_visible t;
     origin_point := v; selection_overlay := selection_overlay t;
     scene_generation := scene_generation t; signals := signals t; stdout :=
     stdout t; clipboard := clipboard t |}.

Definition set_selection_overlay (v : list (list QPointF)) (t : PDFTab) : PDFTab :=
  {| doc := doc t; current_path := current_path t; scale := scale t;
     view_mode := view_mode t; tool_mode := tool_mode t; highlight_color :=
     highlight_color t; page_items := page_items t; start_selection_page :=
     start_selection_page t; page_quads_cache := page_quads_cache t;
     sel_start_index := sel_start_index t; sel_end_index := sel_end_index t;
     selected_quads := selected_quads t; use_linear_selection :=
     use_linear_selection t; view := view t; rubberband_geometry :=
     rubberband_geometry t; rubberband_visible := rubberband_visible t;
     origin_point := origin_point t; selection_overlay := v;
     scene_generation := scene_generation t; signals := signals t; stdout :=
     stdout t; clipboard := clipboard t |}.

Definition set_scene_generation (v : nat) (t : PDFTab) : PDFTab :=
  {| doc := doc t; current_path := current_path t; scale := scale t;
     view_mode := view_mode t; tool_mode := tool_mode t; highlight_color :=
     highlight_color t; page_items := page_items t; start_selection_page :=
     start_selection_page t; page_quads_cache := page_quads_cache t;
     sel_start_index := sel_start_index t; sel_end_index := sel_end_index t;
     selected_quads := selected_quads t; use_linear_selection :=
     use_linear_selection t; view := view t; rubberband_geometry :=
     rubberband_geometry t; rubberband_visible := rubberband_visible t;
     origin_point := origin_point t; selection_overlay := selection_overlay
     t; scene_generation := v; signals := signals t; stdout := stdout t;
     clipboard := clipboard t |}.

Definition set_signals (v : list Signal) (t : PDFTab) : PDFTab :=
  {| doc := doc t; current_path := current_path t; scale := scale t;
     view_mode := view_mode t; tool_mode := tool_mode t; highlight_color :=
     highlight_color t; page_items := page_items t; start_selection_page :=
     start_selection_page t; page_quads_cache := page_quads_cache t;
     sel_start_index := sel_start_index t; sel_end_index := sel_end_index t;
     selected_quads := selected_quads t; use_linear_selection :=
     use_linear_selection t; view := view t; rubberband_geometry :=
     rubberband_geometry t; rubberband_visible := rubberband_visible t;
     origin_point := origin_point t; selection_overlay := selection_overlay
     t; scene_generation := scene_generation t; signals := v; stdout :=
     stdout t; clipboard := clipboard t |}.

Definition set_stdout (v : list string) (t : PDFTab) : PDFTab :=
  {| doc := doc t; current_path := current_path t; scale := scale t;
     view_mode := view_mode t; tool_mode := tool_mode t; highlight_color :=
     highlight_color t; page_items := page_items t; start_selection_page :=
     start_selection_page t; page_quads_cache := page_quads_cache t;
     sel_start_index := sel_start_index t; sel_end_index := sel_end_index t;
     selected_quads := selected_quads t; use_linear_selection :=
     use_linear_selection t; view := view t; rubberband_geometry :=
     rubberband_geometry t; rubberband_visible := rubberband_visible t;
     origin_point := origin_point t; selection_overlay := selection_overlay
     t; scene_generation := scene_generation t; signals := signals t; stdout
     := v; clipboard := clipboard t |}.

Definition set_clipboard (v : string) (t : PDFTab) : PDFTab :=
  {| doc := doc t; current_path := current_path t; scale := scale t;
     view_mode := view_mode t; tool_mode := tool_mode t; highlight_color :=
     highlight_color t; page_items := page_items t; start_selection_page :=
     start_selection_page t; page_quads_cache := page_quads_cache t;
     sel_start_index := sel_start_index t; sel_end_index := sel_end_index t;
     selected_quads := selected_quads t; use_linear_selection :=
     use_linear_selection t; view := view t; rubberband_geometry :=
     rubberband_geometry t; rubberband_visible := rubberband_visible t;
     origin_point := origin_point t; selection_overlay := selection_overlay
     t; scene_generation := scene_generation t; signals := signals t; stdout
     := stdout t; clipboard := v |}.

Definition set_current_path (v : option string) (t : PDFTab) : PDFTab :=
  {| doc := doc t; current_path := v; scale := scale t; view_mode :=
     view_mode t; tool_mode := tool_mode t; highlight_color :=
     highlight_color t; page_items := page_items t; start_selection_page :=
     start_selection_page t; page_quads_cache := page_quads_cache t;
     sel_start_index := sel_start_index t; sel_end_index := sel_end_index t;
     selected_quads := selected_quads t; use_linear_selection :=
     use_linear_selection t; view := view t; rubberband_geometry :=
     rubberband_geometry t; rubberband_visible := rubberband_visible t;
     origin_point := origin_point t; selection_overlay := selection_overlay
     t; scene_generation := scene_generation t; signals := signals t; stdout
     := stdout t; clipboard := clipboard t |}.

(** [PDFTab.__init__]. The geometry of the fresh rubber band is the
    toolkit's choice. *)
Definition PDFTab_init (v : Viewport) (rb : QRect) : PDFTab :=
  {| doc := None; current_path := None; scale := f1_0; view_mode := Single;
     tool_mode := Browse; highlight_color := (f1_0, f1_0, zero);
     page_items := []; start_selection_page := None; page_quads_cache := [];
     sel_start_index := -1; sel_end_index := -1; selected_quads := [];
     use_linear_selection := false; view := v; rubberband_geometry := rb;
     rubberband_visible := false; origin_point := qpoint_null;
     selection_overlay := []; scene_generation := 0%nat; signals := [];
     stdout := []; clipboard := "" |}.

(** [not self.doc]: no document, or a document without pages. *)
Definition doc_falsy (d : option (list PageObj)) : bool :=
  match d with
  | None | Some [] => true
  | Some (_ :: _) => false
  end.

(** ** Layout: [render_pages] *)

Definition padding : float := of_Z 20.
Definition x_offset : float := of_Z 0.

(** The variables of the loop of [render_pages]: the items appended so
    far, [y_offset], [next_x] (unbound in Python until the first page of a
    row has been placed) and the lines printed by the renderer. *)
Record RenderLoop := {
  rl_items : list PDFPageItem;
  rl_y_offset : float;
  rl_next_x : float;
  rl_out : list string
}.

Definition item_w (it : PDFPageItem) : float := qrf_w (boundingRect it).
Definition item_h (it : PDFPageItem) : float := qrf_h (boundingRect it).

(** The body of the loop for page [i]: the item is created, rendered,
    added to the scene, appended and positioned. In single mode the
    divisor of [(view_w - item_w) / 2] is the literal 2. In dual mode an
    odd [i] reads [page_items[i-1]], which the previous turn appended. *)
Definition render_step (mode : ViewMode) (vw : Z) (scale dpr : float)
    (i : nat) (page : PageObj) (st : RenderLoop) : RenderLoop :=
  let '(item, out) := update_render page (PDFPageItem_init i) scale dpr in
  let item := addItem item in
  match mode with
  | Single =>
      let view_w := if 0 <? vw then vw else 800 in
      let pos_x :=
        if ltb (item_w item) (of_Z view_w)
        then div (sub (of_Z view_w) (item_w item)) f2_0
        else of_Z 0 in
      {| rl_items := rl_items st ++ [setPos item pos_x (rl_y_offset st)];
         rl_y_offset := add (rl_y_offset st) (add (item_h item) padding);
         rl_next_x := rl_next_x st;
         rl_out := rl_out st ++ out |}
  | Dual =>
      if (i mod 2 =? 0)%nat then
        {| rl_items := rl_items st ++ [setPos item x_offset (rl_y_offset st)];
           rl_y_offset := rl_y_offset st;
           rl_next_x := add (add x_offset (item_w item)) padding;
           rl_out := rl_out st ++ out |}
      else
        let prev_h := from_option item_h zero (rl_items st !! (i - 1)%nat) in
        {| rl_items :=
             rl_items st ++ [setPos item (rl_next_x st) (rl_y_offset st)];
           rl_y_offset :=
             add (rl_y_offset st) (add (py_max (item_h item) prev_h) padding);
           rl_next_x := rl_next_x st;
           rl_out := rl_out st ++ out |}
  end.

(** [for i, page in enumerate(self.doc)], from index [i] on. *)
Fixpoint render_loop (mode : ViewMode) (vw : Z) (scale dpr : float)
    (i : nat) (pages : list PageObj) (st : RenderLoop) : RenderLoop :=
  match pages with
  | [] => st
  | page :: rest =>
      render_loop mode vw scale dpr (S i) rest
        (render_step mode vw scale dpr i page st)
  end.

Definition render_init : RenderLoop :=
  {| rl_items := []; rl_y_offset := of_Z 0; rl_next_x := of_Z 0;
     rl_out := [] |}.

(** [render_pages]: the scene is cleared (every earlier item reference
    becomes stale), the overlay is recreated empty, every page is laid
    out, and [zoom_changed] is emitted. *)
Definition render_pages (t : PDFTab) : PDFTab :=
  if doc_falsy (doc t) then t else
  let st := render_loop (view_mode t) (view_width (view t)) (scale t)
              (devicePixelRatio (view t)) 0 (default [] (doc t)) render_init in
  set_signals (signals t ++ [zoom_changed (scale t)])
    (set_stdout (stdout t ++ rl_out st)
       (set_page_items (rl_items st)
          (set_selection_overlay []
             (set_scene_generation (S (scene_generation t)) t)))).

(** ** Zoom *)

Definition zoom_view (change : float) (t : PDFTab) : PDFTab :=
  let s := add (scale t) change in
  let s := if ltb s f0_2 then f0_2 else s in
  let s := if ltb f5_0 s then f5_0 else s in
  render_pages (set_scale s t).

(** [fit_width]. The divisor is positive, so the division cannot raise. *)
Definition fit_width (t : PDFTab) : PDFTab :=
  match doc t with
  | Some (page0 :: _) =>
      let view_w := view_width (view t) - 30 in
      let page_w_points := rect_width page0 in
      if ltb (of_Z 0) page_w_points
      then render_pages (set_scale (div (of_Z view_w) page_w_points) t)
      else t
  | _ => t
  end.

(** The two zoom actions of the toolbar and of the shortcuts call
    [zoom_view] with [0.2] and [-0.2]. *)
Inductive ZoomStep := ZoomIn | ZoomOut.

Definition zoom_change (z : ZoomStep) : float :=
  match z with
  | ZoomIn => f0_2
  | ZoomOut => fm0_2
  end.

Fixpoint zoom_steps (zs : list ZoomStep) (t : PDFTab) : PDFTab :=
  match zs with
  | [] => t
  | z :: rest => zoom_steps rest (zoom_view (zoom_change z) t)
  end.

(** ** Current page *)

(** The scan of [check_current_page]: the first item in the scene whose
    scene rectangle has [top <= center_y <= bottom]. *)
Fixpoint find_current (center_y : float) (items : list PDFPageItem)
  : option PDFPageItem :=
  match items with
  | [] => None
  | item :: rest =>
      if negb (in_scene item) then find_current center_y rest
      else
        let rect := sceneBoundingRect item in
        if leb (qrectf_top rect) center_y && leb center_y (qrectf_bottom rect)
        then Some item
        else find_current center_y rest
  end.

Definition center_y (t : PDFTab) : float :=
  qpf_y (mapToScene (view t) {| qp_x := 0; qp_y := view_height (view t) / 2 |}).

Definition page_label (item : PDFPageItem) (d : list PageObj) : string :=
  pretty (page_num item + 1)%nat +:+ " / " +:+ pretty (length d).

(** [check_current_page]. With no document [len(self.doc)] raises, and the
    outer [except] swallows it. *)
Definition check_current_page (t : PDFTab) : PDFTab :=
  match page_items t with
  | [] => t
  | _ :: _ =>
      match find_current (center_y t) (page_items t), doc t with
      | Some item, Some d =>
          set_signals (signals t ++ [page_changed (page_label item d)]) t
      | _, _ => t
      end
  end.

Definition load_document (d : option (list PageObj)) (path : option string)
    (t : PDFTab) : PDFTab :=
  check_current_page (render_pages (set_current_path path (set_doc d t))).

(** ** Jumping to a page *)

(** [jump_to_page]: the item that is handed to [view.centerOn], if there
    is one. The index is tested against both bounds before it is used. *)
Definition jump_to_page (page_num_1_based : Z) (t : PDFTab)
  : option PDFPageItem :=
  match page_items t with
  | [] => None
  | _ :: _ =>
      let idx := page_num_1_based - 1 in
      if (0 <=? idx) && (idx <? Z.of_nat (length (page_items t)))
      then page_items t !! Z.to_nat idx
      else None
  end.


(** ** Selection: the closest quad *)

Section Selection.

Context `{BE : !Backend}.

(** [a ** 2] on floats: NaN, the infinities and the zeros have their
    squares without the C library; otherwise the result is the library's,
    and Python raises [OverflowError] when it is infinite. *)
Definition py_pow2 (a : float) : result float :=
  match a with
  | S754_finite _ _ _ =>
      let r := libm_pow2 a in
      if is_finite r || is_nan r then Ret r else Raise OverflowError
  | _ => Ret (mul a a)
  end.

(** The squared distance from the centre of [q] to [(x, y)]; the divisor
    of the centre is the literal 2. *)
Definition quad_dist (q : Quad) (x y : float) : result float :=
  let cx := div (add (pt_x (ul q)) (pt_x (lr q))) f2_0 in
  let cy := div (add (pt_y (ul q)) (pt_y (lr q))) f2_0 in
  dx2 ← py_pow2 (sub cx x);
  dy2 ← py_pow2 (sub cy y);
  mret (add dx2 dy2).

(** The loop of [find_closest_quad_index] from index [i] on. *)
Fixpoint closest_loop (x y : float) (i : Z) (quads : list Quad)
    (best_dist : float) (best_idx : Z) : result Z :=
  match quads with
  | [] => mret best_idx
  | q :: rest =>
      if rect_contains (quad_rect q) {| pt_x := x; pt_y := y |} then mret i
      else
        dist ← quad_dist q x y;
        if ltb dist best_dist
        then closest_loop x y (i + 1) rest dist i
        else closest_loop x y (i + 1) rest best_dist best_idx
  end.

Definition find_closest_quad_index (page_quads_cache : list Quad)
    (x y : float) : result Z :=
  match page_quads_cache with
  | [] => mret (-1)
  | _ :: _ => closest_loop x y 0 page_quads_cache inf (-1)
  end.

(** ** Items, references and pages *)

Definition current_ref (t : PDFTab) (idx : nat) (item : PDFPageItem)
  : ItemRef :=
  {| ref_generation := scene_generation t; ref_index := idx;
     ref_page_num := page_num item |}.

(** Calling a method of the C++ item behind a reference. *)
Definition deref (t : PDFTab) (r : ItemRef) : result PDFPageItem :=
  if (ref_generation r =? scene_generation t)%nat then
    match page_items t !! ref_index r with
    | Some item => mret item
    | None => Raise RuntimeError
    end
  else Raise RuntimeError.

(** [item.page_obj] for an item of page number [i]: the item was built
    from page [i] of the document and shares it. *)
Definition page_obj (t : PDFTab) (i : nat) : result PageObj :=
  match doc t with
  | Some d =>
      match d !! i with
      | Some p => mret p
      | None => Raise IndexError
      end
  | None => Raise TypeError
  end.

Definition set_page (i : nat) (p : PageObj) (t : PDFTab) : PDFTab :=
  set_doc (option_map (fun d => <[i := p]> d) (doc t)) t.

(** [item.update_render(...)] through a reference. On a deleted item the
    engine still rasterizes, [setPixmap] raises, and the handler of
    [update_render] prints the error. *)
Definition update_render_ref (r : ItemRef) (t : PDFTab) : PDFTab :=
  match page_obj t (ref_page_num r) with
  | Raise _ => t
  | Ret p =>
      match deref t r with
      | Ret item =>
          let '(item', out) :=
            update_render p item (scale t) (devicePixelRatio (view t)) in
          set_stdout (stdout t ++ out)
            (set_page_items (<[ref_index r := item']> (page_items t)) t)
      | Raise e =>
          let '(item', out) :=
            update_render p (PDFPageItem_init (ref_page_num r)) (scale t)
              (devicePixelRatio (view t)) in
          match pixmap item' with
          | Some _ =>
              set_stdout
                (stdout t ++ ["Render Error on page "
                                +:+ pretty (ref_page_num r) +:+ ": "
                                +:+ exn_str e]) t
          | None => set_stdout (stdout t ++ out) t
          end
      end
  end.

(** The first item in the scene whose scene rectangle contains the point,
    with its index. *)
Fixpoint item_at (scene_pos : QPointF) (i : nat) (items : list PDFPageItem)
  : option (nat * PDFPageItem) :=
  match items with
  | [] => None
  | item :: rest =>
      if in_scene item && qrectf_contains (sceneBoundingRect item) scene_pos
      then Some (i, item)
      else item_at scene_pos (S i) rest
  end.

(** The page-local point under a scene position: both divisions by the
    scale, the one of [x] first. *)
Definition local_point (t : PDFTab) (item : PDFPageItem) (scene_pos : QPointF)
  : result Point :=
  let local_pos := mapFromScene item scene_pos in
  x ← py_truediv (qpf_x local_pos) (scale t);
  y ← py_truediv (qpf_y local_pos) (scale t);
  mret {| pt_x := x; pt_y := y |}.

(** ** Selection: press, move, release *)

(** The part of [handle_selection_press] that runs for the page under the
    pointer. An exception of the quad lookup or of the search for the
    start index falls back to the box selection. *)
Definition press_on_item (idx : nat) (item : PDFPageItem) (scene_pos : QPointF)
    (t : PDFTab) : PDFTab :=
  let t := set_start_selection_page (Some (current_ref t idx item)) t in
  let t :=
    match p ← page_obj t (page_num item); get_text_quads p None with
    | Raise _ => set_use_linear_selection false t
    | Ret quads =>
        let t := set_page_quads_cache quads t in
        match quads with
        | [] => t
        | _ :: _ =>
            let t := set_use_linear_selection true t in
            match pt ← local_point t item scene_pos;
                  find_closest_quad_index (page_quads_cache t)
                    (pt_x pt) (pt_y pt) with
            | Ret i => set_sel_start_index i t
            | Raise _ => set_use_linear_selection false t
            end
        end
    end in
  if use_linear_selection t then t
  else set_rubberband_visible true
         (set_rubberband_geometry
            (setGeometry (qrect_of_point (origin_point t))) t).

Definition handle_selection_press (p : QPoint) (t : PDFTab) : PDFTab :=
  let t := set_use_linear_selection false
             (set_page_quads_cache []
                (set_selected_quads []
                   (set_selection_overlay [] (set_origin_point p t)))) in
  let scene_pos := mapToScene (view t) (origin_point t) in
  match item_at scene_pos 0 (page_items t) with
  | Some (idx, item) => press_on_item idx item scene_pos t
  | None => t
  end.

(** [l[i1 : i2 + 1]] for indices that are not negative. *)
Definition py_slice {A : Type} (l : list A) (i1 i2 : Z) : list A :=
  take (Z.to_nat (i2 + 1) - Z.to_nat i1)%nat (drop (Z.to_nat i1) l).

Definition scaled (t : PDFTab) (item : PDFPageItem) (p : Point) : QPointF :=
  {| qpf_x := add (mul (pt_x p) (scale t)) (qpf_x (pos item));
     qpf_y := add (mul (pt_y p) (scale t)) (qpf_y (pos item)) |}.

(** The polygon of one selected element in scene coordinates; a rectangle
    has no corners to read. *)
Definition clip_polygon (t : PDFTab) (item : PDFPageItem) (c : Clip)
  : result (list QPointF) :=
  match c with
  | AQuad q =>
      mret [scaled t item (ul q); scaled t item (ur q);
            scaled t item (lr q); scaled t item (ll q)]
  | ARect _ => Raise AttributeError
  end.

Fixpoint clip_polygons (t : PDFTab) (item : PDFPageItem) (cs : list Clip)
  : result (list (list QPointF)) :=
  match cs with
  | [] => mret []
  | c :: rest =>
      poly ← clip_polygon t item c;
      polys ← clip_polygons t item rest;
      mret (poly :: polys)
  end.

(** [draw_selection_visuals]: any exception leaves the overlay as it is. *)
Definition draw_selection_visuals (t : PDFTab) : PDFTab :=
  match selected_quads t with
  | [] => set_selection_overlay [] t
  | _ :: _ =>
      match start_selection_page t with
      | None => t
      | Some r =>
          match item ← deref t r; clip_polygons t item (selected_quads t) with
          | Ret path => set_selection_overlay path t
          | Raise _ => t
          end
      end
  end.

(** [handle_selection_move]. Only [RuntimeError] is handled: another
    exception of the search leaves the handler. *)
Definition handle_selection_move (p : QPoint) (t : PDFTab) : result PDFTab :=
  match start_selection_page t with
  | Some r =>
      if qpoint_isNull (origin_point t) then mret t
      else if use_linear_selection t
              && bool_decide (page_quads_cache t ≠ []) then
        let scene_pos := mapToScene (view t) p in
        match deref t r with
        | Raise _ => mret (set_start_selection_page None t)
        | Ret item =>
            pt ← local_point t item scene_pos;
            i ← find_closest_quad_index (page_quads_cache t)
                  (pt_x pt) (pt_y pt);
            let t := set_sel_end_index i t in
            if negb (sel_start_index t =? -1) && negb (sel_end_index t =? -1)
            then
              let i1 := Z.min (sel_start_index t) (sel_end_index t) in
              let i2 := Z.max (sel_start_index t) (sel_end_index t) in
              mret (draw_selection_visuals
                      (set_selected_quads
                         (AQuad <$> py_slice (page_quads_cache t) i1 i2) t))
            else mret t
        end
      else
        mret (set_rubberband_geometry
                (setGeometry
                   (qrect_normalized (qrect_of_points (origin_point t) p)))
                t)
  | None => mret t
  end.

(** [page.add_highlight_annot(arg)] followed by [set_colors] and
    [update]: the new annotation is the last of the page. *)
Definition add_highlight_annot (arg : HighlightArg) (c : Color) (p : PageObj)
  : result PageObj :=
  a ← make_highlight arg;
  mret (set_annots p
          (annots p ++ [{| annot_rect := annot_rect a;
                           annot_type := annot_type a;
                           annot_stroke := Some c |}])).

Definition highlight_selection (color_rgb : Color) (t : PDFTab) : PDFTab :=
  match selected_quads t, start_selection_page t with
  | _ :: _, Some r =>
      match p ← page_obj t (ref_page_num r);
            add_highlight_annot (HQuads (selected_quads t)) color_rgb p with
      | Ret p' =>
          set_selected_quads []
            (set_selection_overlay []
               (update_render_ref r (set_page (ref_page_num r) p' t)))
      | Raise _ => t
      end
  | _, _ => t
  end.

(** The rectangle of a box selection in page-local units. *)
Definition box_pdf_rect (rect_screen : QRect) (r : ItemRef) (t : PDFTab)
  : result Rect :=
  let rect_scene := mapRectToScene (view t) rect_screen in
  item ← deref t r;
  let intersection := qrectf_intersected rect_scene (sceneBoundingRect item) in
  let local := qrectf_translated intersection
                 (opp (qpf_x (pos item))) (opp (qpf_y (pos item))) in
  a ← py_truediv (qrf_x local) (scale t);
  b ← py_truediv (qrf_y local) (scale t);
  c ← py_truediv (qrectf_right local) (scale t);
  d ← py_truediv (qrectf_bottom local) (scale t);
  mret {| x0 := a; y0 := b; x1 := c; y1 := d |}.

Definition process_box_highlight (rect_screen : QRect) (t : PDFTab) : PDFTab :=
  match start_selection_page t with
  | None => t
  | Some r =>
      match pdf_rect ← box_pdf_rect rect_screen r t;
            p ← page_obj t (ref_page_num r);
            let arg :=
              match get_text_quads p (Some pdf_rect) with
              | Ret (q :: qs) => HQuads (AQuad <$> (q :: qs))
              | _ => HRect pdf_rect
              end in
            add_highlight_annot arg (highlight_color t) p with
      | Ret p' => update_render_ref r (set_page (ref_page_num r) p' t)
      | Raise _ => t
      end
  end.

(** ** Copying *)

(** [str.isspace] on the characters below 256. *)
Definition py_isspace (c : ascii) : bool :=
  let n := nat_of_ascii c in
  ((9 <=? n) && (n <=? 13) || (28 <=? n) && (n <=? 32)
   || (n =? 133) || (n =? 160))%nat.

Fixpoint lstrip (s : string) : string :=
  match s with
  | String c rest => if py_isspace c then lstrip rest else s
  | EmptyString => EmptyString
  end.

Fixpoint rstrip (s : string) : string :=
  match s with
  | String c rest =>
      match rstrip rest with
      | EmptyString => if py_isspace c then EmptyString else String c EmptyString
      | r => String c r
      end
  | EmptyString => EmptyString
  end.

Definition py_strip (s : string) : string := rstrip (lstrip s).

(** The loop of [copy_selection] over quads: an element whose text cannot
    be read is skipped. *)
Fixpoint concat_text (p : result PageObj) (cs : list Clip)
    (full_text : string) : string :=
  match cs with
  | [] => full_text
  | c :: rest =>
      let r := match c with
               | AQuad q => p ← p; get_text_text p (quad_rect q)
               | ARect _ => Raise AttributeError
               end in
      concat_text p rest
        (match r with Ret s => full_text +:+ s | Raise _ => full_text end)
  end.

(** [copy_selection]. A selection that starts with a rectangle is a box
    selection: its text is read in one call, whose exception ends the
    operation. *)
Definition copy_selection (t : PDFTab) : PDFTab :=
  match selected_quads t, start_selection_page t with
  | c :: rest, Some r =>
      let full_text :=
        match c with
        | ARect rect => p ← page_obj t (ref_page_num r); get_text_text p rect
        | AQuad _ =>
            mret (concat_text (page_obj t (ref_page_num r)) (c :: rest) "")
        end in
      match full_text with
      | Ret full_text =>
          set_selection_overlay [] (set_clipboard (py_strip full_text) t)
      | Raise _ => t
      end
  | _, _ => t
  end.

(** ** The context menu of the Select tool *)

Inductive MenuAction :=
  | CopyText
  | HighlightWith (rgb : Color).

(** [show_context_menu]: [menu.exec] returns once the user has picked an
    entry or dismissed the menu. *)
Definition show_context_menu (choice : option MenuAction) (t : PDFTab)
  : PDFTab :=
  match choice with
  | Some CopyText => copy_selection t
  | Some (HighlightWith rgb) => highlight_selection rgb t
  | None => t
  end.

Definition process_box_menu (rect_screen : QRect) (choice : option MenuAction)
    (t : PDFTab) : PDFTab :=
  match start_selection_page t with
  | None => t
  | Some r =>
      match box_pdf_rect rect_screen r t with
      | Raise _ => t
      | Ret pdf_rect =>
          let t := set_selected_quads [ARect pdf_rect] t in
          let t :=
            match p ← page_obj t (ref_page_num r);
                  get_text_quads p (Some pdf_rect) with
            | Ret (q :: qs) => set_selected_quads (AQuad <$> (q :: qs)) t
            | _ => t
            end in
          show_context_menu choice t
      end
  end.

Definition handle_selection_release (choice : option MenuAction) (t : PDFTab)
  : PDFTab :=
  let linear :=
    use_linear_selection t && bool_decide (selected_quads t ≠ []) in
  let t :=
    match tool_mode t with
    | Highlight =>
        if linear then highlight_selection (highlight_color t) t
        else
          let rect := rubberband_geometry t in
          if 5 <? qrect_width rect then process_box_highlight rect t else t
    | _ =>
        if linear then show_context_menu choice t
        else
          let rect := rubberband_geometry t in
          if 5 <? qrect_width rect then process_box_menu rect choice t else t
    end in
  set_start_selection_page None
    (set_origin_point qpoint_null (set_rubberband_visible false t)).

(** ** Erasing *)

(** The [while annot:] loop: the index of the first annotation whose
    rectangle contains the point and whose type is a highlight. *)
Fixpoint first_erasable (point : Point) (i : nat) (l : list Annot)
  : option nat :=
  match l with
  | [] => None
  | annot :: rest =>
      if rect_contains (annot_rect annot) point && (annot_type annot =? HIGHLIGHT)
      then Some i
      else first_erasable point (S i) rest
  end.

(** [page.delete_annot(annot)] for the annotation at index [k]. *)
Definition delete_annot (k : nat) (p : PageObj) : PageObj :=
  set_annots p (delete k (annots p)).

(** The loop of [process_eraser] from item [i] on: an exception in the
    body of one item moves on to the next item. *)
Fixpoint eraser_loop (scene_pos : QPointF) (i : nat)
    (items : list PDFPageItem) (t : PDFTab) : PDFTab :=
  match items with
  | [] => t
  | item :: rest =>
      if in_scene item && qrectf_contains (sceneBoundingRect item) scene_pos
      then
        match point ← local_point t item scene_pos;
              p ← page_obj t (page_num item);
              mret (point, p) with
        | Raise _ => eraser_loop scene_pos (S i) rest t
        | Ret (point, p) =>
            match first_erasable point 0 (annots p) with
            | Some k =>
                update_render_ref (current_ref t i item)
                  (set_page (page_num item) (delete_annot k p) t)
            | None => t
            end
        end
      else eraser_loop scene_pos (S i) rest t
  end.

Definition process_eraser (screen_pos : QPoint) (t : PDFTab) : PDFTab :=
  eraser_loop (mapToScene (view t) screen_pos) 0 (page_items t) t.

(** ** Tools and events *)

(** [set_tool] (the drag mode and the cursor of the view are not part of
    the state). *)
Definition set_tool (mode : ToolMode) (t : PDFTab) : PDFTab :=
  let t := set_tool_mode mode t in
  match mode with
  | Browse =>
      set_rubberband_visible false
        (set_selected_quads [] (set_selection_overlay [] t))
  | Erase => set_rubberband_visible false t
  | _ => t
  end.

(** The mouse events of the viewport. A release carries what the user
    picks in the context menu, should the handler open it. *)
Inductive Event :=
  | MouseButtonPress (p : QPoint)
  | MouseMove (p : QPoint)
  | MouseButtonRelease (choice : option MenuAction).

(** [eventFilter] for an event of the viewport: what the tab's own
    handlers do to the tab. With the Browse tool, without a document, and
    for a move or a release with the Erase tool the source consumes
    nothing and hands the event on to the view ([super().eventFilter]);
    what the view then does with it (the Browse tool's hand drag scrolls
    it) is not part of this function. *)
Definition eventFilter (ev : Event) (t : PDFTab) : result PDFTab :=
  match tool_mode t with
  | Browse => mret t
  | mode =>
      if doc_falsy (doc t) then mret t
      else
        match ev, mode with
        | MouseButtonPress p, Erase => mret (process_eraser p t)
        | MouseButtonPress p, _ => mret (handle_selection_press p t)
        | MouseMove p, Erase => mret t
        | MouseMove p, _ => handle_selection_move p t
        | MouseButtonRelease _, Erase => mret t
        | MouseButtonRelease choice, _ =>
            mret (handle_selection_release choice t)
        end
  end.

(** A sequence of events; an exception that leaves a handler ends the
    application. *)
Fixpoint run_events (evs : list Event) (t : PDFTab) : result PDFTab :=
  match evs with
  | [] => mret t
  | ev :: rest => t' ← eventFilter ev t; run_events rest t'
  end.

End Selection.

(** ** Saving *)

(** What the main window does to the outside while saving, in order. *)
Inductive SaveEffect :=
  | getSaveFileName
  | doc_save (path : string)
  | doc_saveIncr
  | information (title text : string)
  | critical (title text : string)
  | setTabText (text : string).

(** What saving reads from the outside: [os.path.isfile] and
    [os.path.basename], the answer of the file dialog (the empty string
    when it is cancelled), and the outcome of the engine's [save] and
    [saveIncr]. *)
Record SaveWorld := {
  isfile : string -> bool;
  basename : string -> string;
  chosen_path : string;
  save_result : string -> result unit;
  saveIncr_result : result unit
}.

(** [not tab.current_path]: no path, or the empty string. *)
Definition path_falsy (p : option string) : bool :=
  match p with
  | None | Some EmptyString => true
  | Some (String _ _) => false
  end.

(** [save_as_new] for the current widget of the tab bar ([None] when it
    is not a [PDFTab]). *)
Definition save_as_new (w : SaveWorld) (tab : option PDFTab)
  : option PDFTab * list SaveEffect :=
  match tab with
  | None => (None, [])
  | Some t =>
      match chosen_path w with
      | EmptyString => (Some t, [getSaveFileName])
      | String _ _ as path =>
          match save_result w path with
          | Ret _ =>
              if path_falsy (current_path t)
              then (Some (set_current_path (Some path) t),
                    [getSaveFileName; doc_save path;
                     information "Saved" "Copy saved.";
                     setTabText (basename w path)])
              else (Some t,
                    [getSaveFileName; doc_save path;
                     information "Saved" "Copy saved."])
          | Raise e =>
              (Some t,
               [getSaveFileName; doc_save path; critical "Error" (exn_str e)])
          end
      end
  end.

(** [save_overwrite]. *)
Definition save_overwrite (w : SaveWorld) (tab : option PDFTab)
  : option PDFTab * list SaveEffect :=
  match tab with
  | None => (None, [])
  | Some t =>
      if path_falsy (current_path t)
         || negb (isfile w (default EmptyString (current_path t)))
      then save_as_new w (Some t)
      else
        match saveIncr_result w with
        | Ret _ =>
            (Some t,
             [doc_saveIncr; information "Saved" "Saved to original file."])
        | Raise e => (Some t, [doc_saveIncr; critical "Error" (exn_str e)])
        end
  end.

(** ** The main window: the page label and the view mode *)

Module ProPDFViewer.

(** The widgets of the toolbar that show the page: the input field, whether
    it has the keyboard focus, and the label of the page count. *)
Record Toolbar := {
  page_input : string;
  page_input_hasFocus : bool;
  page_total_lbl : string
}.

(** [text.split(sep)] for a separator of one character. *)
Fixpoint py_split (sep : ascii) (text : string) : list string :=
  match text with
  | EmptyString => [EmptyString]
  | String c rest =>
      if Ascii.eqb c sep then EmptyString :: py_split sep rest
      else
        match py_split sep rest with
        | part :: parts => String c part :: parts
        | [] => [String c EmptyString]
        end
  end.

(** [update_page_label], the slot of the signal [page_changed]. *)
Definition update_page_label (text : string) (tb : Toolbar) : Toolbar :=
  match py_split "/" text with
  | [a; b] =>
      {| page_input :=
           if page_input_hasFocus tb then page_input tb else py_strip a;
         page_input_hasFocus := page_input_hasFocus tb;
         page_total_lbl := " / " +:+ py_strip b |}
  | _ => tb
  end.

(** [set_view_mode] for the current widget of the tab bar. *)
Definition set_view_mode (mode : ViewMode) (tab : option PDFTab)
  : option PDFTab :=
  match tab with
  | Some t => Some (render_pages (set_view_mode mode t))
  | None => None
  end.

(** The literals 0.5, 0.4 and 0.7 of the colour table: the binary64
    numbers nearest to 1/2, 2/5 and 7/10. *)
Definition f0_5 : float := S754_finite false 4503599627370496 (-53).
Definition f0_4 : float := S754_finite false 7205759403792794 (-54).
Definition f0_7 : float := S754_finite false 6305039478318694 (-53).

Definition yellow : Color := (f1_0, f1_0, zero).

(** The dictionary of [update_color_wrapper], in the order of its
    literal; the keys are distinct. *)
Definition color_map : list (string * Color) :=
  [("Yellow", yellow); ("Green", (zero, f1_0, zero));
   ("Red", (f1_0, zero, zero)); ("Blue", (zero, zero, f1_0));
   ("Orange", (f1_0, f0_5, zero)); ("Pink", (f1_0, f0_4, f0_7));
   ("Cyan", (zero, f1_0, f1_0)); ("Purple", (f0_5, zero, f0_5))].

(** [m.get(key, dflt)]. *)
Definition dict_get (m : list (string * Color)) (key : string) (dflt : Color)
  : Color :=
  from_option snd dflt (find (fun kv => String.eqb (fst kv) key) m).

Definition set_highlight_color (v : Color) (t : PDFTab) : PDFTab :=
  {| doc := doc t; current_path := current_path t; scale := scale t;
     view_mode := view_mode t; tool_mode := tool_mode t;
     highlight_color := v; page_items := page_items t;
     start_selection_page := start_selection_page t;
     page_quads_cache := page_quads_cache t;
     sel_start_index := sel_start_index t; sel_end_index := sel_end_index t;
     selected_quads := selected_quads t;
     use_linear_selection := use_linear_selection t; view := view t;
     rubberband_geometry := rubberband_geometry t;
     rubberband_visible := rubberband_visible t;
     origin_point := origin_point t;
     selection_overlay := selection_overlay t;
     scene_generation := scene_generation t; signals := signals t;
     stdout := stdout t; clipboard := clipboard t |}.

(** [update_color_wrapper] for the text of the colour box and the current
    widget of the tab bar. *)
Definition update_color_wrapper (currentText : string) (tab : option PDFTab)
  : option PDFTab :=
  let rgb := dict_get color_map currentText yellow in
  match tab with
  | Some t =>
      let t := set_highlight_color rgb t in
      Some (match tool_mode t with
            | Highlight => set_tool Highlight t
            | _ => t
            end)
  | None => None
  end.

(** [set_tool_wrapper] (the label of the mode is not part of the state). *)
Definition set_tool_wrapper (mode : ToolMode) (currentText : string)
    (tab : option PDFTab) : option PDFTab :=
  match tab with
  | Some t =>
      let t := set_tool mode t in
      match mode with
      | Highlight => update_color_wrapper currentText (Some t)
      | _ => Some t
      end
  | None => None
  end.

End ProPDFViewer.


(** ** A reference backend and sample documents *)

(** One concrete choice for the collaborators, used to run the model on
    examples: closed containment tests, the usual intersection, a
    highlight whose rectangle bounds its argument, and a power function
    that rounds the square to nearest. *)
Module Sample.

Definition rect_contains_closed (r : Rect) (p : Point) : bool :=
  leb (x0 r) (pt_x p) && leb (pt_x p) (x1 r)
  && leb (y0 r) (pt_y p) && leb (pt_y p) (y1 r).

Definition qrectf_contains_closed (r : QRectF) (p : QPointF) : bool :=
  ltb zero (qrf_w r) && ltb zero (qrf_h r)
  && leb (qrf_x r) (qpf_x p) && leb (qpf_x p) (qrectf_right r)
  && leb (qrf_y r) (qpf_y p) && leb (qpf_y p) (qrectf_bottom r).

Definition qrectf_intersected_std (a b : QRectF) : QRectF :=
  let l := py_max (qrf_x a) (qrf_x b) in
  let r := py_min (qrectf_right a) (qrectf_right b) in
  let u := py_max (qrf_y a) (qrf_y b) in
  let d := py_min (qrectf_bottom a) (qrectf_bottom b) in
  if ltb r l || ltb d u then qrectf_empty
  else {| qrf_x := l; qrf_y := u; qrf_w := sub r l; qrf_h := sub d u |}.

Definition clip_rect (c : Clip) : Rect :=
  match c with
  | AQuad q => quad_rect q
  | ARect r => r
  end.

Definition rect_union (a b : Rect) : Rect :=
  {| x0 := py_min (x0 a) (x0 b); y0 := py_min (y0 a) (y0 b);
     x1 := py_max (x1 a) (x1 b); y1 := py_max (y1 a) (y1 b) |}.

Definition make_highlight_bounding (arg : HighlightArg) : result Annot :=
  match arg with
  | HQuads [] => Raise (EngineError "bad quads entry")
  | HQuads (c :: cs) =>
      Ret {| annot_rect := foldl rect_union (clip_rect c) (clip_rect <$> cs);
             annot_type := HIGHLIGHT; annot_stroke := None |}
  | HRect r =>
      Ret {| annot_rect := r; annot_type := HIGHLIGHT; annot_stroke := None |}
  end.

#[global] Instance backend : Backend :=
  {| rect_contains := rect_contains_closed;
     qrectf_contains := qrectf_contains_closed;
     qrectf_intersected := qrectf_intersected_std;
     make_highlight := make_highlight_bounding;
     libm_pow2 := fun a => mul a a |}.

Definition point (x y : Z) : Point := {| pt_x := of_Z x; pt_y := of_Z y |}.

(** An axis-parallel quad with corners [(a, b)] and [(c, d)]. *)
Definition quad (a b c d : Z) : Quad :=
  {| ul := point a b; ur := point c b; ll := point a d; lr := point c d |}.

(** A quad shrunk to the point [(v, v)] for [v] = 3 * 2^510, about
    1.0e154: the square of [v] is a binary64 number, twice the square is
    not. *)
Definition far_quad : Quad :=
  quad (3 * 2 ^ 510) (3 * 2 ^ 510) (3 * 2 ^ 510) (3 * 2 ^ 510).

(** A quad shrunk to the point [(v, v)] for [v] = 2^600, about 4.1e180:
    the square of [v] is out of range. *)
Definition farther_quad : Quad :=
  quad (2 ^ 600) (2 ^ 600) (2 ^ 600) (2 ^ 600).

Definition rect (a b c d : Z) : Rect :=
  {| x0 := of_Z a; y0 := of_Z b; x1 := of_Z c; y1 := of_Z d |}.

Definition pixmap (w h : Z) : Pixmap :=
  {| samples := [Byte.xff; Byte.xff; Byte.xff]; pix_width := w;
     pix_height := h; pix_stride := 3 * w; pix_alpha := false |}.

(** A page of text with two words, rendered as a [w] by [h] image. *)
Definition text_page (w h : Z) (l : list Annot) : PageObj :=
  {| rect_width := of_Z w;
     get_pixmap := fun _ _ => Ret (pixmap w h);
     get_text_quads := fun _ => Ret [quad 10 10 40 20; quad 50 10 80 20];
     get_text_text := fun r =>
       if rect_contains_closed r (point 20 15) then Ret "Hello "
       else if rect_contains_closed r (point 60 15) then Ret "world "
       else Ret "";
     annots := l |}.

(** A scanned page: an image without text. *)
Definition scanned_page (w h : Z) : PageObj :=
  {| rect_width := of_Z w;
     get_pixmap := fun _ _ => Ret (pixmap w h);
     get_text_quads := fun _ => Ret [];
     get_text_text := fun _ => Ret "";
     annots := [] |}.

(** A page the engine cannot rasterize. *)
Definition corrupt_page : PageObj :=
  {| rect_width := of_Z 100;
     get_pixmap := fun _ _ => Raise (EngineError "cannot decode page");
     get_text_quads := fun _ => Raise (EngineError "cannot decode page");
     get_text_text := fun _ => Raise (EngineError "cannot decode page");
     annots := [] |}.

(** A page the engine rasterizes to nothing. *)
Definition blank_page : PageObj :=
  {| rect_width := of_Z 100;
     get_pixmap := fun _ _ =>
       Ret {| samples := []; pix_width := 0; pix_height := 0;
              pix_stride := 0; pix_alpha := false |};
     get_text_quads := fun _ => Ret [];
     get_text_text := fun _ => Ret "";
     annots := [] |}.

(** A view of [w] by [h] pixels scrolled down by [scroll] pixels, on a
    display of pixel ratio 1. *)
Definition viewport (w h scroll : Z) : Viewport :=
  {| view_width := w; view_height := h;
     mapToScene := fun p =>
       {| qpf_x := of_Z (qp_x p); qpf_y := of_Z (qp_y p + scroll) |};
     mapRectToScene := fun r =>
       {| qrf_x := of_Z (qr_x1 r); qrf_y := of_Z (qr_y1 r + scroll);
          qrf_w := of_Z (qrect_width r); qrf_h := of_Z (qrect_height r) |};
     devicePixelRatio := f1_0 |}.

(** A note over the whole page, and a highlight over the first word. *)
Definition note : Annot :=
  {| annot_rect := rect 0 0 100 100; annot_type := 0; annot_stroke := None |}.

Definition highlight : Annot :=
  {| annot_rect := rect 10 10 40 20; annot_type := HIGHLIGHT;
     annot_stroke := Some (f1_0, f1_0, zero) |}.

(** The geometry of a rubber band that has not been used: 100 by 30. *)
Definition rubberband0 : QRect :=
  {| qr_x1 := 0; qr_y1 := 0; qr_x2 := 99; qr_y2 := 29 |}.

(** A fresh tab showing the document [d]. *)
Definition tab (w h scroll : Z) (d : list PageObj) : PDFTab :=
  load_document (Some d) (Some "sample.pdf")
    (PDFTab_init (viewport w h scroll) rubberband0).

(** The annotated page in a tab; the page is laid out at (350, 0). *)
Definition annotated_page : PageObj := text_page 100 100 [note; highlight].

Definition annotated_tab : PDFTab := tab 800 600 0 [annotated_page].

Definition first_item (t : PDFTab) : PDFPageItem :=
  default (PDFPageItem_init 0) (page_items t !! 0%nat).

End Sample.

(** ** Notions used in the statements *)

(** The interval [0.2, 5.0] of scales. *)
Definition in_range (s : float) : Prop :=
  leb f0_2 s = true /\ leb s f5_0 = true.

(** The scale that [zoom_view] stores, and the scale after a run of zoom
    steps: both depend on the scale alone. *)
Definition zoom_scale (s change : float) : float :=
  let s := add s change in
  let s := if ltb s f0_2 then f0_2 else s in
  if ltb f5_0 s then f5_0 else s.

Fixpoint zoom_scales (zs : list ZoomStep) (s : float) : float :=
  match zs with
  | [] => s
  | z :: rest => zoom_scales rest (zoom_scale s (zoom_change z))
  end.

(** The item of page [i] once rendered and added to the scene, before it
    is positioned, and what rendering it printed. *)
Definition rendered (scale dpr : float) (i : nat) (page : PageObj)
  : PDFPageItem :=
  addItem (fst (update_render page (PDFPageItem_init i) scale dpr)).

Definition printed (scale dpr : float) (i : nat) (page : PageObj)
  : list string :=
  snd (update_render page (PDFPageItem_init i) scale dpr).

(** [dual_rows y items n]: [items] form [n] rows from the offset [y] down.
    A row is a page at [x_offset] and, if there is one, its partner at the
    same height to the right of it, at the first page's width plus the
    padding; the next row starts below by the larger of the two heights
    plus the padding. Only the last row can hold a single page. *)
Inductive dual_rows : float -> list PDFPageItem -> nat -> Prop :=
  | dual_rows_nil (y : float) : dual_rows y [] 0
  | dual_rows_single (y : float) (a : PDFPageItem) :
      pos a = {| qpf_x := x_offset; qpf_y := y |} ->
      dual_rows y [a] 1
  | dual_rows_pair (y : float) (a b : PDFPageItem) (rest : list PDFPageItem)
        (n : nat) :
      pos a = {| qpf_x := x_offset; qpf_y := y |} ->
      pos b = {| qpf_x := add (add x_offset (item_w a)) padding; qpf_y := y |} ->
      dual_rows (add y (add (py_max (item_h b) (item_h a)) padding)) rest n ->
      dual_rows y (a :: b :: rest) (S n).

(** An item of the scene whose scene rectangle straddles the height [c]. *)
Definition straddles (c : float) (item : PDFPageItem) : bool :=
  in_scene item
  && leb (qrectf_top (sceneBoundingRect item)) c
  && leb c (qrectf_bottom (sceneBoundingRect item)).

Section BackendNotions.

Context `{BE : !Backend}.

(** The containment test of [find_closest_quad_index] for one quad. *)
Definition quad_contains (q : Quad) (x y : float) : bool :=
  rect_contains (quad_rect q) {| pt_x := x; pt_y := y |}.

(** The squared centre distance as a number (NaN if computing it raises). *)
Definition sq_dist (q : Quad) (x y : float) : float :=
  match quad_dist q x y with
  | Ret d => d
  | Raise _ => nan
  end.

(** Every squared centre distance is computed without an exception and is
    finite, that is below [float('inf')]. *)
Definition finite_dists (quads : list Quad) (x y : float) : bool :=
  forallb (fun q => match quad_dist q x y with
                    | Ret d => ltb d inf
                    | Raise _ => false
                    end) quads.

(** Index [k] is the first quad whose bounding rectangle contains the
    point. *)
Definition first_containing (quads : list Quad) (x y : float) (k : nat)
  : Prop :=
  exists q, quads !! k = Some q
    /\ quad_contains q x y = true
    /\ forall j q', (j < k)%nat -> quads !! j = Some q' ->
         quad_contains q' x y = false.

Definition none_contains (quads : list Quad) (x y : float) : Prop :=
  forall q, q ∈ quads -> quad_contains q x y = false.

(** Index [k] is the first quad at the least squared centre distance: no
    quad is nearer, and every earlier quad is farther. *)
Definition nearest (quads : list Quad) (x y : float) (k : nat) : Prop :=
  exists q, quads !! k = Some q
    /\ forall j q', quads !! j = Some q' ->
         leb (sq_dist q x y) (sq_dist q' x y) = true
         /\ ((j < k)%nat -> ltb (sq_dist q x y) (sq_dist q' x y) = true).

(** What the loop of [find_closest_quad_index] holds after the quads
    [pre]: nothing yet, or the nearest of them and its distance. *)
Definition best_so_far (pre : list Quad) (x y : float) (best_dist : float)
    (best_idx : Z) : Prop :=
  (pre = [] /\ best_dist = inf /\ best_idx = -1)
  \/ (exists k q, best_idx = Z.of_nat k /\ pre !! k = Some q
        /\ best_dist = sq_dist q x y /\ nearest pre x y k).

(** The test of the eraser for one annotation: its rectangle contains
    the point and it is a highlight. *)
Definition erasable (point : Point) (a : Annot) : bool :=
  rect_contains (annot_rect a) point && (annot_type a =? HIGHLIGHT).

(** The test of the loops over the items for one item. *)
Definition item_hit (scene_pos : QPointF) (item : PDFPageItem) : bool :=
  in_scene item && qrectf_contains (sceneBoundingRect item) scene_pos.

End BackendNotions.

(** A string of whitespace only, and the last character of a string. *)
Fixpoint all_spaces (s : string) : bool :=
  match s with
  | EmptyString => true
  | String c rest => py_isspace c && all_spaces rest
  end.

Fixpoint last_char (s : string) : option ascii :=
  match s with
  | EmptyString => None
  | String c EmptyString => Some c
  | String _ rest => last_char rest
  end.



(** The geometry of the rubber band after the pointer has moved through
    [moves] in the box sub-mode: the rectangle from the origin to the last
    position, if a page was pressed at a point other than the null point;
    otherwise the moves leave it alone. *)
Definition box_geometry (t : PDFTab) (moves : list QPoint) : QRect :=
  match start_selection_page t, last moves with
  | Some _, Some q =>
      if qpoint_isNull (origin_point t) then rubberband_geometry t
      else qrect_normalized (qrect_of_points (origin_point t) q)
  | _, _ => rubberband_geometry t
  end.

(** A press, moves of the pointer, and a release. *)
Definition gesture (press : QPoint) (moves : list QPoint)
    (choice : option MenuAction) : list Event :=
  MouseButtonPress press :: (MouseMove <$> moves)
    ++ [MouseButtonRelease choice].

(** [single_column view_w y items]: [items] are stacked from the offset
    [y] down. Each one is centred in a view [view_w] wide if it is
    narrower than the view and at x = 0 otherwise, and the next one starts
    below it by its height plus the padding. *)
Inductive single_column (view_w : Z) : float -> list PDFPageItem -> Prop :=
  | single_column_nil (y : float) : single_column view_w y []
  | single_column_cons (y : float) (a : PDFPageItem)
        (rest : list PDFPageItem) :
      pos a = {| qpf_x := if ltb (item_w a) (of_Z view_w)
                          then div (sub (of_Z view_w) (item_w a)) f2_0
                          else of_Z 0;
                 qpf_y := y |} ->
      single_column view_w (add y (add (item_h a) padding)) rest ->
      single_column view_w y (a :: rest).

(** The annotations of every page of a document. *)
Definition doc_annots (d : option (list PageObj)) : option (list (list Annot)) :=
  (fun pages : list PageObj => annots <$> pages) <$> d.

(** A string of decimal digits. *)
Definition is_digit (c : ascii) : bool :=
  let n := nat_of_ascii c in ((48 <=? n) && (n <=? 57))%nat.

Fixpoint all_digits (s : string) : bool :=
  match s with
  | EmptyString => true
  | String c rest => is_digit c && all_digits rest
  end.


(** [with_new_annot d pn a d']: the document [d'] is [d] with the
    annotation [a] added at the end of page [pn]; [without_annot d pn k a
    d']: it is [d] without the annotation [a], which was the one at index
    [k] of page [pn]. Nothing else differs. *)
Definition with_new_annot (d : option (list PageObj)) (pn : nat) (a : Annot)
    (d' : option (list PageObj)) : Prop :=
  exists pages p,
    d = Some pages /\ pages !! pn = Some p
    /\ d' = Some (<[pn := set_annots p (annots p ++ [a])]> pages).

Definition without_annot (d : option (list PageObj)) (pn k : nat) (a : Annot)
    (d' : option (list PageObj)) : Prop :=
  exists pages p,
    d = Some pages /\ pages !! pn = Some p /\ annots p !! k = Some a
    /\ d' = Some (<[pn := set_annots p (delete k (annots p))]> pages).


(** * Properties

    First the facts about binary64 numbers that the proofs need, then one
    section per claim of the specification:
    - C3, C4: the scale under [zoom_view] and [fit_width];
    - C9: [update_render] and the rendering loop;
    - C6: the rows of the dual layout;
    - C5: what [check_current_page] reports;
    - C1: [find_closest_quad_index];
    - C7: [process_eraser];
    - C8: [copy_selection];
    - C2: the gestures of the Highlight tool;
    - C10: [save_overwrite]. *)

(** ** Facts about the comparison of binary64 numbers *)

Lemma literal_0_2 : div (of_Z 1) (of_Z 5) = f0_2.
Proof. reflexivity. Qed.

Lemma literal_5_0 : of_Z 5 = f5_0.
Proof. reflexivity. Qed.

Lemma literal_1_0 : of_Z 1 = f1_0.
Proof. reflexivity. Qed.

Lemma literal_2_0 : of_Z 2 = f2_0.
Proof. reflexivity. Qed.

Lemma literal_m0_2 : SFopp f0_2 = fm0_2.
Proof. reflexivity. Qed.

Lemma compare_None (a b : float) :
  compare a b = None <-> is_nan a = true \/ is_nan b = true.
Proof.
  destruct a as [sa| [|] | |sa ma ea], b as [sb| [|] | |sb mb eb];
    cbn; intuition discriminate.
Qed.

Lemma compare_antisym (a b : float) (c : comparison) :
  compare a b = Some c -> compare b a = Some (CompOpp c).
Proof.
  destruct a as [sa| [|] | |[|] ma ea], b as [sb| [|] | |[|] mb eb];
    cbn; try discriminate; intros [= <-]; try reflexivity;
    try (destruct sa; reflexivity); try (destruct sb; reflexivity);
    rewrite (Z.compare_antisym ea eb);
    fold (Pos.compare ma mb); fold (Pos.compare mb ma);
    rewrite (Pos.compare_antisym ma mb);
    destruct (ea ?= eb); cbn; try reflexivity;
    destruct (ma ?= mb)%positive; reflexivity.
Qed.

Lemma ltb_compare (a b : float) : ltb a b = true <-> compare a b = Some Lt.
Proof.
  unfold ltb, SFltb, compare.
  destruct (SFcompare a b) as [[| |]|]; intuition congruence.
Qed.

Lemma leb_compare (a b : float) :
  leb a b = true <-> compare a b = Some Lt \/ compare a b = Some Eq.
Proof.
  unfold leb, SFleb, compare.
  destruct (SFcompare a b) as [[| |]|]; intuition congruence.
Qed.

Lemma ltb_not_nan (a b : float) :
  ltb a b = true -> is_nan a = false /\ is_nan b = false.
Proof.
  rewrite ltb_compare. destruct a, b; cbn; try discriminate; auto.
Qed.

Lemma ltb_irrefl (a : float) : ltb a a = false.
Proof.
  unfold ltb, SFltb.
  destruct a as [sa| [|] | |[|] ma ea]; cbn; try reflexivity;
    rewrite Z.compare_refl; fold (Pos.compare ma ma);
    rewrite Pos.compare_refl; reflexivity.
Qed.

(** The comparison is lexicographic on sign, exponent and mantissa, hence
    transitive on every triple of numbers, canonical or not. *)
Lemma ltb_trans (a b c : float) :
  ltb a b = true -> ltb b c = true -> ltb a c = true.
Proof.
  rewrite !ltb_compare.
  destruct a as [sa| [|] | |[|] ma ea], b as [sb| [|] | |[|] mb eb],
           c as [sc| [|] | |[|] mc ec];
    cbn; try discriminate; try reflexivity;
    try (destruct sa; discriminate); try (destruct sb; discriminate);
    try (destruct sc; discriminate);
    fold (Pos.compare ma mb); fold (Pos.compare mb mc);
    fold (Pos.compare ma mc);
    destruct (Z.compare_spec ea eb), (Z.compare_spec eb ec),
             (Z.compare_spec ea ec);
    destruct (Pos.compare_spec ma mb), (Pos.compare_spec mb mc),
             (Pos.compare_spec ma mc);
    cbn; try discriminate; try reflexivity; lia.
Qed.

(** Among numbers that are not NaN, "not less" is "greater or equal". *)
Lemma ltb_false_leb (a b : float) :
  is_nan a = false -> is_nan b = false -> ltb a b = false -> leb b a = true.
Proof.
  intros Ha Hb Hlt. apply leb_compare.
  destruct (compare a b) as [c|] eqn:E.
  - apply compare_antisym in E.
    destruct c; cbn in E; auto.
    exfalso. apply compare_antisym in E. cbn in E.
    apply ltb_compare in E. congruence.
  - apply compare_None in E. destruct E; congruence.
Qed.

Lemma leb_refl (a : float) : is_nan a = false -> leb a a = true.
Proof.
  intros H. apply ltb_false_leb; auto using ltb_irrefl.
Qed.

Lemma ltb_leb_trans (a b c : float) :
  ltb a b = true -> leb b c = true -> ltb a c = true.
Proof.
  rewrite leb_compare, !ltb_compare. intros Hab [Hbc|Hbc].
  - apply ltb_compare. apply (ltb_trans a b c); apply ltb_compare; assumption.
  - revert Hab Hbc.
    destruct a as [sa| [|] | |[|] ma ea], b as [sb| [|] | |[|] mb eb],
             c as [sc| [|] | |[|] mc ec];
      cbn; try discriminate; try reflexivity;
      try (destruct sa; discriminate); try (destruct sb; discriminate);
      try (destruct sc; discriminate);
      fold (Pos.compare ma mb); fold (Pos.compare mb mc);
      fold (Pos.compare ma mc);
      destruct (Z.compare_spec ea eb), (Z.compare_spec eb ec),
               (Z.compare_spec ea ec);
      destruct (Pos.compare_spec ma mb), (Pos.compare_spec mb mc),
               (Pos.compare_spec ma mc);
      cbn; try discriminate; try reflexivity; lia.
Qed.

Lemma leb_not_nan (a b : float) :
  leb a b = true -> is_nan a = false /\ is_nan b = false.
Proof.
  rewrite leb_compare. destruct a, b; cbn; intros [?|?]; try discriminate; auto.
Qed.


(** ** Rounding never invents a NaN *)

Lemma shr_1_nonneg (mrs : shr_record) :
  0 <= shr_m mrs -> 0 <= shr_m (shr_1 mrs).
Proof.
  destruct mrs as [m r s]; cbn.
  destruct m as [|[p|p|]|[p|p|]]; cbn; lia.
Qed.

Lemma iter_pos_shr_1_nonneg (p : positive) (mrs : shr_record) :
  0 <= shr_m mrs -> 0 <= shr_m (SpecFloat.iter_pos shr_1 p mrs).
Proof.
  revert mrs. induction p as [p IH|p IH|]; intros mrs H; cbn.
  - apply IH, IH, shr_1_nonneg, H.
  - apply IH, IH, H.
  - apply shr_1_nonneg, H.
Qed.

Lemma shr_nonneg (mrs : shr_record) (e n : Z) :
  0 <= shr_m mrs -> 0 <= shr_m (fst (shr mrs e n)).
Proof.
  intros H. destruct n; cbn; auto using iter_pos_shr_1_nonneg.
Qed.

Lemma shr_fexp_nonneg (m e : Z) (l : location) :
  0 <= m -> 0 <= shr_m (fst (shr_fexp prec emax m e l)).
Proof.
  intros H. unfold shr_fexp. apply shr_nonneg.
  destruct l as [|[| |]]; exact H.
Qed.

Lemma round_nearest_even_nonneg (m : Z) (l : location) :
  0 <= m -> 0 <= round_nearest_even m l.
Proof.
  intros H. destruct l as [|[| |]]; cbn; try lia.
  destruct (Z.even m); lia.
Qed.

Lemma binary_round_aux_not_nan (sx : bool) (mx ex : Z) (lx : location) :
  0 <= mx -> is_nan (binary_round_aux prec emax sx mx ex lx) = false.
Proof.
  intros H. unfold binary_round_aux.
  pose proof (shr_fexp_nonneg mx ex lx H) as H1.
  destruct (shr_fexp prec emax mx ex lx) as [mrs' e']. cbn in H1.
  pose proof (shr_fexp_nonneg
                (round_nearest_even (shr_m mrs') (loc_of_shr_record mrs'))
                e' loc_Exact
                (round_nearest_even_nonneg _ _ H1)) as H2.
  destruct (shr_fexp prec emax _ e' loc_Exact) as [mrs'' e'']. cbn in H2.
  destruct (shr_m mrs'') as [|p|p]; [reflexivity| |lia].
  destruct (e'' <=? emax - prec); reflexivity.
Qed.

Lemma binary_normalize_not_nan (m e : Z) (sz : bool) :
  is_nan (binary_normalize prec emax m e sz) = false.
Proof.
  destruct m as [|p|p]; cbn; [reflexivity| |];
    unfold binary_round;
    destruct (shl_align p e _) as [mz ez];
    apply binary_round_aux_not_nan; lia.
Qed.

(** The sum of two finite numbers is a number (possibly an infinity). *)
Lemma add_finite_not_nan (a b : float) :
  is_finite a = true -> is_finite b = true -> is_nan (add a b) = false.
Proof.
  destruct a as [[|]| | |sa ma ea], b as [[|]| | |sb mb eb];
    cbn; try discriminate; try reflexivity.
  intros _ _. apply binary_normalize_not_nan.
Qed.

Lemma of_Z_not_nan (z : Z) : is_nan (of_Z z) = false.
Proof. apply binary_normalize_not_nan. Qed.


(** ** C3 and C4: the zoom state *)

Lemma render_pages_scale (t : PDFTab) : scale (render_pages t) = scale t.
Proof. unfold render_pages. destruct (doc_falsy (doc t)); reflexivity. Qed.

Lemma zoom_view_scale (change : float) (t : PDFTab) :
  scale (zoom_view change t) = zoom_scale (scale t) change.
Proof. unfold zoom_view. rewrite render_pages_scale. reflexivity. Qed.

Lemma in_range_finite (s : float) : in_range s -> is_finite s = true.
Proof.
  intros [H1 H2]. destruct s as [|[|]| |]; try reflexivity; discriminate.
Qed.

(** Whatever is added, a sum that is a number is clamped into the range. *)
Lemma zoom_scale_in_range (s change : float) :
  is_nan (add s change) = false -> in_range (zoom_scale s change).
Proof.
  intros Hn. unfold zoom_scale.
  destruct (ltb (add s change) f0_2) eqn:E1.
  - split; reflexivity.
  - destruct (ltb f5_0 (add s change)) eqn:E2.
    + split; reflexivity.
    + split; apply ltb_false_leb; auto.
Qed.

Lemma zoom_change_finite (z : ZoomStep) : is_finite (zoom_change z) = true.
Proof. destruct z; reflexivity. Qed.

Lemma zoom_step_in_range (z : ZoomStep) (t : PDFTab) :
  in_range (scale t) -> in_range (scale (zoom_view (zoom_change z) t)).
Proof.
  intros H. rewrite zoom_view_scale. apply zoom_scale_in_range.
  apply add_finite_not_nan; auto using in_range_finite, zoom_change_finite.
Qed.

Lemma zoom_steps_scale_in_range (zs : list ZoomStep) (t : PDFTab) :
  in_range (scale t) -> in_range (scale (zoom_steps zs t)).
Proof.
  revert t. induction zs as [|z zs IH]; intros t H; cbn; [exact H|].
  apply IH, zoom_step_in_range, H.
Qed.

Lemma zoom_steps_scale (zs : list ZoomStep) (t : PDFTab) :
  scale (zoom_steps zs t) = zoom_scales zs (scale t).
Proof.
  revert t. induction zs as [|z zs IH]; intros t; cbn; [reflexivity|].
  rewrite IH, zoom_view_scale. reflexivity.
Qed.

(** C4. From a scale in [0.2, 5.0], after every step of every finite
    sequence of zoom-in and zoom-out steps the scale is in [0.2, 5.0];
    and from 0.2, twenty-four zoom-in steps give exactly 5.0. *)
Theorem zoom_steps_stay_in_range (t : PDFTab) (zs : list ZoomStep) :
  in_range (scale t) ->
  (forall k : nat, in_range (scale (zoom_steps (take k zs) t)))
  /\ (scale t = f0_2 ->
      scale (zoom_steps (replicate 24 ZoomIn) t) = f5_0).
Proof.
  intros H. split.
  - intros k. apply zoom_steps_scale_in_range, H.
  - intros E. rewrite zoom_steps_scale, E. vm_compute. reflexivity.
Qed.

(** Without the clamp the sum of the twenty-four steps is above 5.0. *)
Example zoom_sum_overshoots :
  ltb f5_0 (Nat.iter 24 (fun s => add s f0_2) f0_2) = true.
Proof. vm_compute. reflexivity. Qed.

(** A tab at the scale 0.2: in range, and at 5.0 after the twenty-four
    steps. *)
Lemma zoom_steps_stay_in_range_witness :
  let t := set_scale f0_2 (Sample.tab 800 600 0 [Sample.text_page 100 100 []]) in
  in_range (scale t)
  /\ (forall k : nat,
        in_range (scale (zoom_steps (take k [ZoomOut; ZoomIn; ZoomIn]) t)))
  /\ scale (zoom_steps (replicate 24 ZoomIn) t) = f5_0.
Proof.
  intros t.
  assert (H : in_range (scale t)) by (split; reflexivity).
  split; [exact H|].
  destruct (zoom_steps_stay_in_range t [ZoomOut; ZoomIn; ZoomIn] H)
    as [Hall Htop].
  split; [exact Hall|apply Htop; reflexivity].
Defined.

(** C3. [fit_width] stores the quotient as it is: in a view 1230 pixels
    wide, a first page 100 points wide gets the scale 12.0, which is
    above 5.0, although the tab started at 1.0. *)
Theorem fit_width_leaves_range :
  let t := Sample.tab 1230 600 0 [Sample.text_page 100 100 []] in
  scale t = f1_0
  /\ scale (fit_width t) = of_Z 12
  /\ ltb f5_0 (scale (fit_width t)) = true.
Proof. vm_compute. repeat split; reflexivity. Qed.

(** ** C9: rendering one page *)

Lemma update_render_fields (p : PageObj) (it : PDFPageItem) (scale dpr : float) :
  page_num (fst (update_render p it scale dpr)) = page_num it
  /\ pos (fst (update_render p it scale dpr)) = pos it
  /\ in_scene (fst (update_render p it scale dpr)) = in_scene it.
Proof.
  unfold update_render.
  destruct (get_pixmap p (annots p) (mul scale dpr)) as [pix|e]; cbn; auto.
  destruct (samples pix); cbn; auto.
Qed.

Lemma render_step_items (mode : ViewMode) (vw : Z) (scale dpr : float)
    (i : nat) (page : PageObj) (st : RenderLoop) :
  exists x y,
    rl_items (render_step mode vw scale dpr i page st)
    = rl_items st ++ [setPos (rendered scale dpr i page) x y]
    /\ rl_out (render_step mode vw scale dpr i page st)
       = rl_out st ++ printed scale dpr i page.
Proof.
  unfold render_step, rendered, printed.
  destruct (update_render page (PDFPageItem_init i) scale dpr) as [item out].
  cbn [fst snd]. destruct mode.
  - eexists _, _. cbn. split; reflexivity.
  - destruct (i mod 2 =? 0)%nat; eexists _, _; cbn; split; reflexivity.
Qed.

(** The loop appends one item per page, in order: the item of page [j]
    carries the number [j] and the pixmap that rendering page [j] alone
    produces, and the printed lines are those of each page in turn. *)
Lemma render_loop_items (mode : ViewMode) (vw : Z) (scale dpr : float)
    (pages : list PageObj) (i : nat) (st : RenderLoop) :
  exists new,
    rl_items (render_loop mode vw scale dpr i pages st) = rl_items st ++ new
    /\ length new = length pages
    /\ (forall k page, pages !! k = Some page ->
          exists it, new !! k = Some it
            /\ page_num it = (i + k)%nat
            /\ in_scene it = true
            /\ pixmap it = pixmap (rendered scale dpr (i + k) page))
    /\ rl_out (render_loop mode vw scale dpr i pages st)
       = rl_out st ++ concat (imap (fun k => printed scale dpr (i + k)) pages).
Proof.
  revert i st. induction pages as [|page rest IH]; intros i st; cbn.
  - exists []. rewrite !app_nil_r. repeat split; auto.
    intros k page Hk. discriminate.
  - destruct (render_step_items mode vw scale dpr i page st)
      as (x & y & Hitems & Hout).
    destruct (IH (S i) (render_step mode vw scale dpr i page st))
      as (new & Hnew & Hlen & Hpix & Hlog).
    exists (setPos (rendered scale dpr i page) x y :: new).
    rewrite Hnew, Hitems, Hlog, Hout, <- !app_assoc. cbn.
    split; [reflexivity|]. split; [congruence|]. split.
    + intros [|k] pg Hk; cbn in Hk.
      * injection Hk as <-. eexists. split; [reflexivity|].
        rewrite Nat.add_0_r. split; [|split; reflexivity].
        unfold rendered. cbn. apply update_render_fields.
      * destruct (Hpix k pg Hk) as (it & H1 & H2 & H3 & H4).
        exists it. rewrite Nat.add_succ_r. auto.
    + rewrite Nat.add_0_r. do 3 f_equal.
      apply imap_ext. intros k pg _. cbn. rewrite Nat.add_succ_r. reflexivity.
Qed.

(** C9. A page for which the engine returns no pixel data keeps its
    bitmap and prints nothing; an exception of the engine is caught,
    leaves the bitmap as it is and prints one line naming the page; and in
    the loop over the document every page gets the item, the bitmap and
    the printed lines of its own rendering, whatever happens to the other
    pages. *)
Theorem update_render_failures_are_local :
  (forall p it scale dpr pix,
     get_pixmap p (annots p) (mul scale dpr) = Ret pix ->
     samples pix = [] ->
     update_render p it scale dpr = (it, []))
  /\ (forall p it scale dpr e,
        get_pixmap p (annots p) (mul scale dpr) = Raise e ->
        update_render p it scale dpr
        = (it, ["Render Error on page " +:+ pretty (page_num it) +:+ ": "
                  +:+ exn_str e]))
  /\ (forall mode vw scale dpr pages,
        let res := render_loop mode vw scale dpr 0 pages render_init in
        length (rl_items res) = length pages
        /\ (forall j page, pages !! j = Some page ->
              exists it, rl_items res !! j = Some it
                /\ page_num it = j
                /\ pixmap it
                   = pixmap (fst (update_render page (PDFPageItem_init j)
                                    scale dpr)))
        /\ rl_out res
           = concat (imap (fun j page =>
                             snd (update_render page (PDFPageItem_init j)
                                    scale dpr)) pages)).
Proof.
  split; [|split].
  - intros p it scale dpr pix H1 H2. unfold update_render.
    rewrite H1, H2. reflexivity.
  - intros p it scale dpr e H. unfold update_render. rewrite H. reflexivity.
  - intros mode vw scale dpr pages res.
    destruct (render_loop_items mode vw scale dpr pages 0 render_init)
      as (new & Hnew & Hlen & Hpix & Hlog).
    subst res. rewrite Hnew, Hlog. cbn. split; [exact Hlen|]. split.
    + intros j page Hj. destruct (Hpix j page Hj) as (it & H1 & H2 & _ & H3).
      exists it. cbn in H2, H3. auto.
    + reflexivity.
Qed.

(** A corrupt page and a page without pixel data between two good pages:
    the good pages get their bitmaps, the other two stay blank, and one
    line is printed, for page 1. *)
Example render_around_failures :
  let res := render_loop Single 800 f1_0 f1_0 0
               [Sample.text_page 100 100 []; Sample.corrupt_page;
                Sample.blank_page; Sample.text_page 100 100 []] render_init in
  (fun it => bool_decide (pixmap it <> None)) <$> rl_items res
  = [true; false; false; true]
  /\ rl_out res = ["Render Error on page 1: cannot decode page"].
Proof. vm_compute. split; reflexivity. Qed.

(** ** C6: the layout of the dual view *)

Lemma pair_induction {A : Type} (P : list A -> Prop) :
  P [] -> (forall a, P [a]) -> (forall a b l, P l -> P (a :: b :: l)) ->
  forall l, P l.
Proof.
  intros H0 H1 H2 l.
  assert (H : P l /\ forall a, P (a :: l)); [|apply H].
  induction l as [|b l [IH1 IH2]]; split; auto.
Qed.

Lemma render_step_dual_even (vw : Z) (scale dpr : float) (i : nat)
    (page : PageObj) (st : RenderLoop) :
  (i mod 2 = 0)%nat ->
  render_step Dual vw scale dpr i page st
  = {| rl_items :=
         rl_items st
         ++ [setPos (rendered scale dpr i page) x_offset (rl_y_offset st)];
       rl_y_offset := rl_y_offset st;
       rl_next_x := add (add x_offset (item_w (rendered scale dpr i page)))
                      padding;
       rl_out := rl_out st ++ printed scale dpr i page |}.
Proof.
  intros Hi. unfold render_step, rendered, printed.
  destruct (update_render page (PDFPageItem_init i) scale dpr) as [item out].
  rewrite Hi. reflexivity.
Qed.

Lemma render_step_dual_odd (vw : Z) (scale dpr : float) (i : nat)
    (page : PageObj) (st : RenderLoop) (prev : PDFPageItem) :
  (i mod 2 = 1)%nat ->
  rl_items st !! (i - 1)%nat = Some prev ->
  render_step Dual vw scale dpr i page st
  = {| rl_items :=
         rl_items st
         ++ [setPos (rendered scale dpr i page) (rl_next_x st)
               (rl_y_offset st)];
       rl_y_offset :=
         add (rl_y_offset st)
           (add (py_max (item_h (rendered scale dpr i page)) (item_h prev))
              padding);
       rl_next_x := rl_next_x st;
       rl_out := rl_out st ++ printed scale dpr i page |}.
Proof.
  intros Hi Hprev. unfold render_step, rendered, printed.
  destruct (update_render page (PDFPageItem_init i) scale dpr) as [item out].
  rewrite Hi, Hprev. reflexivity.
Qed.

(** From an even index on, the loop lays the remaining pages out in rows;
    after an odd number of pages [y_offset] is still the offset of the
    last row. *)
Lemma render_loop_dual_rows (vw : Z) (scale dpr : float)
    (pages : list PageObj) :
  forall (i : nat) (st : RenderLoop),
    (i mod 2 = 0)%nat -> length (rl_items st) = i ->
    exists new,
      rl_items (render_loop Dual vw scale dpr i pages st) = rl_items st ++ new
      /\ dual_rows (rl_y_offset st) new ((length pages + 1) / 2)
      /\ (Nat.odd (length pages) = true ->
          exists a, last new = Some a
            /\ pos a = {| qpf_x := x_offset;
                          qpf_y := rl_y_offset
                                     (render_loop Dual vw scale dpr i pages st) |}).
Proof.
  induction pages as [|p0|p0 p1 rest IH] using pair_induction;
    intros i st Hi Hlen.
  - exists []. cbn. rewrite app_nil_r. repeat split; [constructor|discriminate].
  - cbn [render_loop]. rewrite render_step_dual_even by exact Hi.
    eexists. cbn. split; [reflexivity|]. split.
    + constructor. reflexivity.
    + intros _. eexists. split; reflexivity.
  - cbn [render_loop].
    rewrite (render_step_dual_even vw scale dpr i p0 st Hi).
    set (a := setPos (rendered scale dpr i p0) x_offset (rl_y_offset st)).
    assert (Hi1 : (S i mod 2 = 1)%nat).
    { replace (S i) with (1 + i)%nat by lia.
      rewrite <- Nat.Div0.add_mod_idemp_r, Hi. reflexivity. }
    rewrite (render_step_dual_odd vw scale dpr (S i) p1 _ a Hi1).
    2:{ cbn. rewrite Nat.sub_0_r, lookup_app_r by lia.
        rewrite Hlen, Nat.sub_diag. reflexivity. }
    match goal with
    | |- context [render_loop Dual vw scale dpr (S (S i)) rest ?st2] =>
        set (s2 := st2)
    end.
    set (b := setPos (rendered scale dpr (S i) p1)
                (add (add x_offset (item_w (rendered scale dpr i p0))) padding)
                (rl_y_offset st)).
    assert (Hs2 : rl_items s2 = rl_items st ++ [a; b]).
    { subst s2. cbn. rewrite <- app_assoc. reflexivity. }
    destruct (IH (S (S i)) s2) as (new & Hnew & Hrows & Hlast).
    { replace (S (S i)) with (2 + i)%nat by lia.
      rewrite <- Nat.Div0.add_mod_idemp_l. exact Hi. }
    { rewrite Hs2, length_app. cbn. lia. }
    exists (a :: b :: new). rewrite Hnew, Hs2, <- app_assoc.
    split; [reflexivity|]. split.
    + replace ((length (p0 :: p1 :: rest) + 1) / 2)%nat
        with (S ((length rest + 1) / 2)).
      2:{ cbn [length].
          replace (S (S (length rest)) + 1)%nat
            with (length rest + 1 + 1 * 2)%nat by lia.
          rewrite Nat.div_add by lia. lia. }
      constructor; [reflexivity|reflexivity|exact Hrows].
    + cbn [length Nat.odd]. intros Hodd.
      destruct (Hlast Hodd) as (z & Hz & Hpos).
      exists z. split; [|exact Hpos].
      destruct new as [|n0 new']; [discriminate|]. exact Hz.
Qed.

Lemma dual_rows_even_x (y : float) (items : list PDFPageItem) (n : nat) :
  dual_rows y items n ->
  forall r a, items !! (2 * r)%nat = Some a -> qpf_x (pos a) = x_offset.
Proof.
  induction 1 as [y|y a Ha|y a b rest n Ha Hb Hrest IH]; intros r c Hc.
  - discriminate.
  - destruct r as [|r]; cbn in Hc; [|destruct (r + S (r + 0))%nat; discriminate].
    injection Hc as <-. rewrite Ha. reflexivity.
  - destruct r as [|r].
    + injection Hc as <-. rewrite Ha. reflexivity.
    + replace (2 * S r)%nat with (S (S (2 * r))) in Hc by lia.
      apply (IH r c Hc).
Qed.

Lemma dual_rows_first_y (y : float) (items : list PDFPageItem) (n : nat) :
  dual_rows y items n ->
  forall a, items !! 0%nat = Some a -> qpf_y (pos a) = y.
Proof.
  destruct 1 as [y|y a Ha|y a b rest n Ha Hb Hrest]; intros c Hc;
    try discriminate; injection Hc as <-; rewrite Ha; reflexivity.
Qed.

Lemma dual_rows_partner (y : float) (items : list PDFPageItem) (n : nat) :
  dual_rows y items n ->
  forall r a b,
    items !! (2 * r)%nat = Some a -> items !! (2 * r + 1)%nat = Some b ->
    pos b = {| qpf_x := add (add x_offset (item_w a)) padding;
               qpf_y := qpf_y (pos a) |}.
Proof.
  induction 1 as [y|y a Ha|y a b rest n Ha Hb Hrest IH]; intros r c d Hc Hd.
  - discriminate.
  - destruct r as [|r]; cbn in Hd; [discriminate|].
    destruct (r + S (r + 0) + 1)%nat; discriminate.
  - destruct r as [|r].
    + injection Hc as <-. injection Hd as <-. rewrite Hb, Ha. reflexivity.
    + replace (2 * S r)%nat with (S (S (2 * r))) in Hc by lia.
      replace (2 * S r + 1)%nat with (S (S (2 * r + 1))) in Hd by lia.
      apply (IH r c d Hc Hd).
Qed.

Lemma dual_rows_next_y (y : float) (items : list PDFPageItem) (n : nat) :
  dual_rows y items n ->
  forall r a b c,
    items !! (2 * r)%nat = Some a -> items !! (2 * r + 1)%nat = Some b ->
    items !! (2 * r + 2)%nat = Some c ->
    qpf_y (pos c)
    = add (qpf_y (pos a)) (add (py_max (item_h b) (item_h a)) padding).
Proof.
  induction 1 as [y|y a Ha|y a b rest n Ha Hb Hrest IH];
    intros r c d e Hc Hd He.
  - discriminate.
  - destruct r as [|r]; cbn in Hd; [discriminate|].
    destruct (r + S (r + 0) + 1)%nat; discriminate.
  - destruct r as [|r].
    + injection Hc as <-. injection Hd as <-. cbn in He.
      rewrite (dual_rows_first_y _ _ _ Hrest e He), Ha. reflexivity.
    + replace (2 * S r)%nat with (S (S (2 * r))) in Hc by lia.
      replace (2 * S r + 1)%nat with (S (S (2 * r + 1))) in Hd by lia.
      replace (2 * S r + 2)%nat with (S (S (2 * r + 2))) in He by lia.
      apply (IH r c d e Hc Hd He).
Qed.

Lemma render_pages_items (t : PDFTab) (pages : list PageObj) :
  doc t = Some pages -> pages <> [] ->
  page_items (render_pages t)
  = rl_items (render_loop (view_mode t) (view_width (view t)) (scale t)
                (devicePixelRatio (view t)) 0 pages render_init).
Proof.
  intros Hdoc Hne. unfold render_pages. rewrite Hdoc.
  destruct pages as [|p0 rest]; [contradiction|reflexivity].
Qed.

(** C6. The items that the loop of [render_pages] produces in dual mode
    for [N] pages: one item per page; an even-indexed item is at x = 0
    (the first one at y = 0); its odd-indexed partner is at the same
    height, to the right by the even item's width plus the padding; the
    row after them starts lower by the larger of their two heights plus
    the padding; the items form [N / 2] rows of two when [N] is even, and
    when [N] is odd one more row, which holds the last page alone at
    x = 0, and after which [y_offset] has not moved. The items of a tab
    in dual mode are these. *)
Theorem dual_layout_rows (vw : Z) (sc dpr : float) (pages : list PageObj) :
  let res := render_loop Dual vw sc dpr 0 pages render_init in
  let items := rl_items res in
  let N := length pages in
  length items = N
  /\ (forall r a, items !! (2 * r)%nat = Some a -> qpf_x (pos a) = x_offset)
  /\ (forall a, items !! 0%nat = Some a -> qpf_y (pos a) = of_Z 0)
  /\ (forall r a b,
        items !! (2 * r)%nat = Some a -> items !! (2 * r + 1)%nat = Some b ->
        pos b = {| qpf_x := add (add x_offset (item_w a)) padding;
                   qpf_y := qpf_y (pos a) |})
  /\ (forall r a b c,
        items !! (2 * r)%nat = Some a -> items !! (2 * r + 1)%nat = Some b ->
        items !! (2 * r + 2)%nat = Some c ->
        qpf_y (pos c)
        = add (qpf_y (pos a)) (add (py_max (item_h b) (item_h a)) padding))
  /\ (Nat.even N = true -> dual_rows (of_Z 0) items (N / 2))
  /\ (Nat.odd N = true ->
      dual_rows (of_Z 0) items (S (N / 2))
      /\ exists a, last items = Some a
           /\ pos a = {| qpf_x := x_offset; qpf_y := rl_y_offset res |})
  /\ (forall t, view_mode t = Dual -> view_width (view t) = vw ->
        scale t = sc -> devicePixelRatio (view t) = dpr ->
        doc t = Some pages -> pages <> [] ->
        page_items (render_pages t) = items).
Proof.
  intros res items N.
  destruct (render_loop_items Dual vw sc dpr pages 0 render_init)
    as (new0 & Hnew0 & Hlen & _).
  destruct (render_loop_dual_rows vw sc dpr pages 0 render_init)
    as (new & Hnew & Hrows & Hlast); [reflexivity|reflexivity|].
  fold res in Hnew0, Hnew, Hlast. fold items in Hnew0, Hnew.
  cbn in Hnew0, Hnew, Hrows. subst new0. rewrite <- Hnew in *. clear Hnew.
  fold N in Hrows, Hlast, Hlen.
  split; [exact Hlen|].
  split; [exact (dual_rows_even_x _ _ _ Hrows)|].
  split; [exact (dual_rows_first_y _ _ _ Hrows)|].
  split; [exact (dual_rows_partner _ _ _ Hrows)|].
  split; [exact (dual_rows_next_y _ _ _ Hrows)|].
  split; [|split].
  - intros He. replace (N / 2)%nat with ((N + 1) / 2)%nat; [exact Hrows|].
    apply Nat.even_spec in He. destruct He as [k ->].
    replace (2 * k + 1)%nat with (1 + k * 2)%nat by lia.
    rewrite Nat.div_add by lia.
    replace (2 * k)%nat with (0 + k * 2)%nat by lia.
    rewrite Nat.div_add by lia. reflexivity.
  - intros Ho. split; [|exact (Hlast Ho)].
    replace (S (N / 2)) with ((N + 1) / 2)%nat; [exact Hrows|].
    apply Nat.odd_spec in Ho. destruct Ho as [k ->].
    replace (2 * k + 1 + 1)%nat with (0 + (k + 1) * 2)%nat by lia.
    rewrite Nat.div_add by lia.
    replace (2 * k + 1)%nat with (1 + k * 2)%nat by lia.
    rewrite Nat.div_add by lia. cbn. lia.
  - intros t Hm Hw Hs Hd Hdoc Hne.
    rewrite (render_pages_items t pages Hdoc Hne), Hm, Hw, Hs, Hd.
    reflexivity.
Qed.

(** Three pages of 100 by 100, 100 by 140 and 100 by 100 pixels: pages 0
    and 1 share the row at y = 0, page 1 is at x = 120, and page 2 is
    alone at x = 0 and y = 140 + 20. *)
Example dual_layout_three_pages :
  pos <$> page_items
            (render_pages
               (set_view_mode Dual
                  (Sample.tab 800 600 0
                     [Sample.text_page 100 100 []; Sample.text_page 100 140 [];
                      Sample.text_page 100 100 []])))
  = [ {| qpf_x := of_Z 0; qpf_y := of_Z 0 |};
      {| qpf_x := of_Z 120; qpf_y := of_Z 0 |};
      {| qpf_x := of_Z 0; qpf_y := of_Z 160 |} ].
Proof. vm_compute. reflexivity. Qed.

(** ** C5: the current page *)

Lemma find_current_step (c : float) (item : PDFPageItem)
    (rest : list PDFPageItem) :
  find_current c (item :: rest)
  = if straddles c item then Some item else find_current c rest.
Proof.
  cbn. unfold straddles. destruct (in_scene item); cbn; [|reflexivity].
  destruct (leb _ c && leb c _); reflexivity.
Qed.

Lemma find_current_first (c : float) (items : list PDFPageItem) (i : nat)
    (item : PDFPageItem) :
  items !! i = Some item ->
  straddles c item = true ->
  forallb (fun o => negb (straddles c o)) (take i items) = true ->
  find_current c items = Some item.
Proof.
  revert i. induction items as [|o rest IH]; intros i Hi Hs Hbefore.
  - discriminate.
  - rewrite find_current_step. destruct i as [|i].
    + injection Hi as ->. rewrite Hs. reflexivity.
    + cbn in Hi, Hbefore. apply andb_prop in Hbefore as [Ho Hrest].
      apply negb_true_iff in Ho. rewrite Ho. eauto.
Qed.

Lemma find_current_none (c : float) (items : list PDFPageItem) :
  forallb (fun o => negb (straddles c o)) items = true ->
  find_current c items = None.
Proof.
  induction items as [|o rest IH]; intros H; [reflexivity|].
  rewrite find_current_step. cbn in H. apply andb_prop in H as [Ho Hrest].
  apply negb_true_iff in Ho. rewrite Ho. auto.
Qed.

(** Nothing is reported while the centre of the view is in the padding
    between two pages: two pages 100 pixels high lie at heights 0 to 100
    and 120 to 220, and the centre of a view 220 pixels high is at 110. *)
Lemma no_current_page_in_padding :
  let t := Sample.tab 800 220 0
             [Sample.text_page 100 100 []; Sample.text_page 100 100 []] in
  length (page_items t) = 2%nat
  /\ center_y t = of_Z 110
  /\ forallb (fun o => negb (straddles (center_y t) o)) (page_items t) = true
  /\ check_current_page t = t
  /\ signals t = [zoom_changed f1_0].
Proof.
  intros t.
  assert (H : forallb (fun o => negb (straddles (center_y t) o)) (page_items t)
              = true) by (vm_compute; reflexivity).
  split; [reflexivity|]. split; [reflexivity|]. split; [exact H|].
  split; [|reflexivity].
  unfold check_current_page. rewrite (find_current_none _ _ H).
  destruct (page_items t); reflexivity.
Qed.

(** C5, amended. One call of [check_current_page] on a loaded document
    reports at most one page: if an item of the scene straddles the
    centre of the view, the first such item in page order is reported as
    "number + 1 / number of pages"; if none does, nothing is reported and
    the tab is left as it is. The items of a rendered document are
    numbered in page order and are in the scene. *)
Theorem current_page_report (t : PDFTab) (d : list PageObj) :
  doc t = Some d ->
  (forall i item,
     page_items t !! i = Some item ->
     straddles (center_y t) item = true ->
     forallb (fun o => negb (straddles (center_y t) o))
       (take i (page_items t)) = true ->
     check_current_page t
     = set_signals
         (signals t ++ [page_changed (pretty (page_num item + 1)%nat
                                        +:+ " / " +:+ pretty (length d))]) t)
  /\ (forallb (fun o => negb (straddles (center_y t) o)) (page_items t) = true ->
      check_current_page t = t)
  /\ (d <> [] ->
      forall j item, page_items (render_pages t) !! j = Some item ->
        page_num item = j /\ in_scene item = true).
Proof.
  intros Hdoc. split; [|split].
  - intros i item Hi Hs Hbefore. unfold check_current_page.
    rewrite (find_current_first _ _ i item Hi Hs Hbefore), Hdoc.
    destruct (page_items t); [discriminate|reflexivity].
  - intros Hnone. unfold check_current_page.
    rewrite (find_current_none _ _ Hnone).
    destruct (page_items t); reflexivity.
  - intros Hne j item Hj.
    rewrite (render_pages_items t d Hdoc Hne) in Hj.
    destruct (render_loop_items (view_mode t) (view_width (view t)) (scale t)
                (devicePixelRatio (view t)) d 0 render_init)
      as (new & Hnew & Hlen & Hpix & _).
    rewrite Hnew in Hj. cbn in Hj.
    assert (Hlt : (j < length d)%nat).
    { rewrite <- Hlen. eapply lookup_lt_Some, Hj. }
    destruct (lookup_lt_is_Some_2 d j Hlt) as [page Hpage].
    destruct (Hpix j page Hpage) as (it & H1 & H2 & H3 & _).
    rewrite Hj in H1. injection H1 as ->. auto.
Qed.

(** In a view 300 pixels high the centre is at 150, inside the second of
    the two pages. *)
Lemma current_page_report_witness :
  let t := Sample.tab 800 300 0
             [Sample.text_page 100 100 []; Sample.text_page 100 100 []] in
  doc t = Some [Sample.text_page 100 100 []; Sample.text_page 100 100 []]
  /\ check_current_page t
     = set_signals (signals t ++ [page_changed "2 / 2"]) t.
Proof.
  intros t. split; [reflexivity|].
  destruct (current_page_report t
              [Sample.text_page 100 100 []; Sample.text_page 100 100 []]
              eq_refl) as [H _].
  set (item := default (PDFPageItem_init 0) (page_items t !! 1%nat)).
  assert (E : page_items t !! 1%nat = Some item) by (vm_compute; reflexivity).
  assert (Hs : straddles (center_y t) item = true) by (vm_compute; reflexivity).
  assert (Hb : forallb (fun o => negb (straddles (center_y t) o))
                 (take 1 (page_items t)) = true) by (vm_compute; reflexivity).
  assert (Hn : page_num item = 1%nat) by (vm_compute; reflexivity).
  rewrite (H 1%nat item E Hs Hb), Hn. reflexivity.
Defined.

(** ** C1: the closest quad *)

Section ClosestQuad.

Context `{BE : !Backend}.

Lemma finite_dists_app (l1 l2 : list Quad) (x y : float) :
  finite_dists (l1 ++ l2) x y = finite_dists l1 x y && finite_dists l2 x y.
Proof. apply forallb_app. Qed.

Lemma finite_dist_inv (q : Quad) (rest : list Quad) (x y : float) :
  finite_dists (q :: rest) x y = true ->
  quad_dist q x y = Ret (sq_dist q x y)
  /\ ltb (sq_dist q x y) inf = true
  /\ finite_dists rest x y = true.
Proof.
  cbn. unfold sq_dist. intros H. apply andb_prop in H as [H1 H2].
  destruct (quad_dist q x y) as [d|e]; [auto|discriminate].
Qed.

Lemma nearest_snoc_keep (pre : list Quad) (x y : float) (k : nat) (q qk : Quad) :
  pre !! k = Some qk ->
  nearest pre x y k ->
  leb (sq_dist qk x y) (sq_dist q x y) = true ->
  nearest (pre ++ [q]) x y k.
Proof.
  intros Hk (q0 & Hq0 & Hmin) Hle.
  rewrite Hk in Hq0. injection Hq0 as <-.
  exists qk. split.
  - rewrite lookup_app_l; [exact Hk|]. eapply lookup_lt_Some, Hk.
  - intros j q' Hj. apply lookup_app_Some in Hj as [Hj|[Hge Hj]].
    + apply (Hmin j q' Hj).
    + apply list_lookup_singleton_Some in Hj as [_ <-].
      split; [exact Hle|].
      intros Hlt. apply lookup_lt_Some in Hk. lia.
Qed.

Lemma nearest_snoc_new (pre : list Quad) (x y : float) (q : Quad) :
  is_nan (sq_dist q x y) = false ->
  (forall j q', pre !! j = Some q' ->
     ltb (sq_dist q x y) (sq_dist q' x y) = true) ->
  nearest (pre ++ [q]) x y (length pre).
Proof.
  intros Hn Hlt. exists q. split.
  - rewrite lookup_app_r, Nat.sub_diag by lia. reflexivity.
  - intros j q' Hj. apply lookup_app_Some in Hj as [Hj|[Hge Hj]].
    + pose proof (Hlt j q' Hj) as H1. split; [|intros _; exact H1].
      apply leb_compare. left. apply ltb_compare, H1.
    + apply list_lookup_singleton_Some in Hj as [Hj <-].
      split; [apply leb_refl, Hn|]. intros Hlt'. lia.
Qed.

Lemma none_contains_snoc (pre : list Quad) (x y : float) (q : Quad) :
  none_contains pre x y -> quad_contains q x y = false ->
  none_contains (pre ++ [q]) x y.
Proof.
  intros Hpre Hq q' Hin. apply elem_of_app in Hin as [Hin|Hin]; [auto|].
  apply list_elem_of_singleton in Hin as ->. exact Hq.
Qed.

(** The loop, for distances that are all finite: it returns the first
    containing quad of the rest if there is one, and otherwise the nearest
    of all the quads. *)
Lemma closest_loop_spec (x y : float) (rest : list Quad) :
  forall (pre : list Quad) (best_dist : float) (best_idx : Z),
    finite_dists (pre ++ rest) x y = true ->
    none_contains pre x y ->
    best_so_far pre x y best_dist best_idx ->
    exists idx,
      closest_loop x y (Z.of_nat (length pre)) rest best_dist best_idx = Ret idx
      /\ ((pre ++ rest = [] /\ idx = -1)
          \/ exists k, idx = Z.of_nat k
               /\ (first_containing (pre ++ rest) x y k
                   \/ (none_contains (pre ++ rest) x y
                       /\ nearest (pre ++ rest) x y k))).
Proof.
  induction rest as [|q rest IH]; intros pre best_dist best_idx Hfin Hpre Hbest.
  - cbn. exists best_idx. split; [reflexivity|]. rewrite app_nil_r.
    destruct Hbest as [(-> & _ & ->)|(k & qk & -> & Hk & _ & Hmin)]; [auto|].
    right. exists k. auto.
  - cbn [closest_loop].
    change (rect_contains (quad_rect q) {| pt_x := x; pt_y := y |})
      with (quad_contains q x y).
    destruct (quad_contains q x y) eqn:Hc.
    + eexists. split; [reflexivity|]. right. exists (length pre).
      split; [reflexivity|]. left. exists q.
      split; [rewrite lookup_app_r, Nat.sub_diag by lia; reflexivity|].
      split; [exact Hc|].
      intros j q' Hj Hq'. rewrite lookup_app_l in Hq' by exact Hj.
      apply Hpre. eapply list_elem_of_lookup_2, Hq'.
    + rewrite finite_dists_app in Hfin. apply andb_prop in Hfin as [Hf1 Hf2].
      destruct (finite_dist_inv q rest x y Hf2) as (Hd & Hinf & Hf3).
      rewrite Hd. cbn.
      assert (Hnan : is_nan (sq_dist q x y) = false)
        by apply (ltb_not_nan _ _ Hinf).
      assert (Hfin' : finite_dists ((pre ++ [q]) ++ rest) x y = true).
      { rewrite !finite_dists_app, Hf1, Hf3. cbn. rewrite Hd, Hinf.
        reflexivity. }
      assert (Hlen : Z.of_nat (length pre) + 1
                     = Z.of_nat (length (pre ++ [q]))).
      { rewrite length_app. cbn. lia. }
      rewrite Hlen.
      pose proof (none_contains_snoc pre x y q Hpre Hc) as Hpre'.
      replace (pre ++ q :: rest) with ((pre ++ [q]) ++ rest)
        by (rewrite <- app_assoc; reflexivity).
      destruct (ltb (sq_dist q x y) best_dist) eqn:Hlt.
      * apply IH; [exact Hfin'|exact Hpre'|].
        right. exists (length pre), q.
        split; [reflexivity|].
        split; [rewrite lookup_app_r, Nat.sub_diag by lia; reflexivity|].
        split; [reflexivity|].
        apply nearest_snoc_new; [exact Hnan|].
        intros j q' Hj.
        destruct Hbest as [(-> & _ & _)|(k & qk & _ & Hk & -> & (q0 & Hq0 & Hmin))];
          [discriminate|].
        rewrite Hk in Hq0. injection Hq0 as <-.
        apply (ltb_leb_trans _ _ _ Hlt), (Hmin j q' Hj).
      * apply IH; [exact Hfin'|exact Hpre'|].
        destruct Hbest as [(-> & -> & _)|(k & qk & -> & Hk & -> & Hmin)];
          [congruence|].
        right. exists k, qk.
        split; [reflexivity|].
        split; [rewrite lookup_app_l; [exact Hk|eapply lookup_lt_Some, Hk]|].
        split; [reflexivity|].
        apply (nearest_snoc_keep pre x y k q qk Hk Hmin).
        apply ltb_false_leb; [exact Hnan| |exact Hlt].
        destruct Hmin as (q0 & Hq0 & Hmin).
        rewrite Hk in Hq0. injection Hq0 as <-.
        apply (leb_not_nan _ _ (proj1 (Hmin k qk Hk))).
Qed.

(** C1, amended. For a query point and quads whose squared centre
    distances are all finite binary64 numbers, [find_closest_quad_index]
    returns, for a list that is not empty, the index of the first quad
    whose bounding rectangle contains the point if there is such a quad,
    and otherwise the index of the first quad at the least squared centre
    distance; it returns -1 if and only if the list is empty. *)
Theorem closest_quad_of_finite_distances (quads : list Quad) (x y : float) :
  finite_dists quads x y = true ->
  exists idx,
    find_closest_quad_index quads x y = Ret idx
    /\ (idx = -1 <-> quads = [])
    /\ (quads <> [] ->
        exists k, idx = Z.of_nat k
          /\ (first_containing quads x y k
              \/ (none_contains quads x y /\ nearest quads x y k))).
Proof.
  intros Hfin. destruct quads as [|q rest].
  - exists (-1). repeat split; auto. intros []. reflexivity.
  - destruct (closest_loop_spec x y (q :: rest) [] inf (-1))
      as (idx & Hidx & Hres).
    + exact Hfin.
    + intros q' Hq'. inversion Hq'.
    + left. auto.
    + exists idx. split; [exact Hidx|].
      destruct Hres as [[Hres _]|(k & -> & Hres)]; [discriminate|].
      split; [split; [lia|discriminate]|].
      intros _. exists k. auto.
Qed.

End ClosestQuad.

(** One quad far away, about 1.0e154 units along both axes: the two
    squares are finite, their sum is infinite, no distance is below
    [float('inf')], and the answer for this list of one quad is -1.
    And a quad still farther away, in front of a quad that contains the
    point: its square is out of range, and the search ends with the
    exception instead of the index 1. *)
Lemma closest_quad_none_on_overflow :
  [Sample.far_quad] <> []
  /\ quad_contains Sample.far_quad (of_Z 0) (of_Z 0) = false
  /\ quad_dist Sample.far_quad (of_Z 0) (of_Z 0) = Ret inf
  /\ find_closest_quad_index [Sample.far_quad] (of_Z 0) (of_Z 0) = Ret (-1)
  /\ quad_contains (Sample.quad 10 10 40 20) (of_Z 20) (of_Z 15) = true
  /\ find_closest_quad_index [Sample.farther_quad; Sample.quad 10 10 40 20]
       (of_Z 20) (of_Z 15) = Raise OverflowError.
Proof. split; [discriminate|]. vm_compute. repeat split; reflexivity. Qed.

(** Two words side by side and a point between them, nearer to the first
    one. *)
Lemma closest_quad_of_finite_distances_witness :
  finite_dists [Sample.quad 10 10 40 20; Sample.quad 50 10 80 20]
    (of_Z 44) (of_Z 15) = true
  /\ exists idx,
       find_closest_quad_index
         [Sample.quad 10 10 40 20; Sample.quad 50 10 80 20]
         (of_Z 44) (of_Z 15) = Ret idx
       /\ (idx = -1
           <-> [Sample.quad 10 10 40 20; Sample.quad 50 10 80 20] = [])
       /\ ([Sample.quad 10 10 40 20; Sample.quad 50 10 80 20] <> [] ->
           exists k, idx = Z.of_nat k
             /\ (first_containing
                   [Sample.quad 10 10 40 20; Sample.quad 50 10 80 20]
                   (of_Z 44) (of_Z 15) k
                 \/ (none_contains
                       [Sample.quad 10 10 40 20; Sample.quad 50 10 80 20]
                       (of_Z 44) (of_Z 15)
                     /\ nearest
                          [Sample.quad 10 10 40 20; Sample.quad 50 10 80 20]
                          (of_Z 44) (of_Z 15) k))).
Proof.
  split; [reflexivity|].
  apply closest_quad_of_finite_distances. reflexivity.
Defined.

Example closest_quad_examples :
  find_closest_quad_index [Sample.quad 10 10 40 20; Sample.quad 50 10 80 20]
    (of_Z 44) (of_Z 15) = Ret 0
  /\ find_closest_quad_index [Sample.quad 10 10 40 20; Sample.quad 50 10 80 20]
       (of_Z 60) (of_Z 15) = Ret 1
  /\ find_closest_quad_index [Sample.quad 10 10 40 20; Sample.quad 50 10 80 20]
       (of_Z 300) (of_Z 15) = Ret 1
  /\ find_closest_quad_index [] (of_Z 44) (of_Z 15) = Ret (-1).
Proof. vm_compute. repeat split; reflexivity. Qed.

(** ** C7: the eraser *)

Section Eraser.

Context `{BE : !Backend}.

Lemma item_at_first (scene_pos : QPointF) (items : list PDFPageItem) :
  forall (n i : nat) (item : PDFPageItem),
    items !! i = Some item ->
    item_hit scene_pos item = true ->
    forallb (fun o => negb (item_hit scene_pos o)) (take i items) = true ->
    item_at scene_pos n items = Some ((n + i)%nat, item).
Proof.
  induction items as [|o rest IH]; intros n i item Hi Hhit Hbefore.
  - discriminate.
  - cbn [item_at]. change (in_scene o && qrectf_contains (sceneBoundingRect o)
                             scene_pos) with (item_hit scene_pos o).
    destruct i as [|i].
    + injection Hi as ->. rewrite Hhit, Nat.add_0_r. reflexivity.
    + cbn in Hi, Hbefore. apply andb_prop in Hbefore as [Ho Hrest].
      apply negb_true_iff in Ho. rewrite Ho.
      rewrite (IH (S n) i item Hi Hhit Hrest). do 2 f_equal. lia.
Qed.

Lemma item_at_inv (scene_pos : QPointF) (items : list PDFPageItem) :
  forall (n i : nat) (item : PDFPageItem),
    item_at scene_pos n items = Some (i, item) ->
    (n <= i)%nat
    /\ items !! (i - n)%nat = Some item
    /\ item_hit scene_pos item = true
    /\ forallb (fun o => negb (item_hit scene_pos o)) (take (i - n) items)
       = true.
Proof.
  induction items as [|o rest IH]; intros n i item H.
  - discriminate.
  - cbn [item_at] in H.
    change (in_scene o && qrectf_contains (sceneBoundingRect o) scene_pos)
      with (item_hit scene_pos o) in H.
    destruct (item_hit scene_pos o) eqn:Ho.
    + injection H as <- <-. rewrite Nat.sub_diag. cbn. auto.
    + apply IH in H as (Hle & Hl & Hhit & Hbefore).
      replace (i - n)%nat with (S (i - S n)) by lia. cbn.
      rewrite Ho. cbn. split; [lia|]. auto.
Qed.

Lemma first_erasable_first (point : Point) (l : list Annot) :
  forall (n k : nat) (a : Annot),
    l !! k = Some a ->
    erasable point a = true ->
    forallb (fun b => negb (erasable point b)) (take k l) = true ->
    first_erasable point n l = Some (n + k)%nat.
Proof.
  induction l as [|b rest IH]; intros n k a Hk Ha Hbefore.
  - discriminate.
  - cbn [first_erasable].
    change (rect_contains (annot_rect b) point && (annot_type b =? HIGHLIGHT))
      with (erasable point b).
    destruct k as [|k].
    + injection Hk as ->. rewrite Ha, Nat.add_0_r. reflexivity.
    + cbn in Hk, Hbefore. apply andb_prop in Hbefore as [Hb Hrest].
      apply negb_true_iff in Hb. rewrite Hb.
      rewrite (IH (S n) k a Hk Ha Hrest). f_equal. lia.
Qed.

Lemma first_erasable_none (point : Point) (l : list Annot) (n : nat) :
  forallb (fun b => negb (erasable point b)) l = true ->
  first_erasable point n l = None.
Proof.
  revert n. induction l as [|b rest IH]; intros n H; [reflexivity|].
  cbn [first_erasable].
  change (rect_contains (annot_rect b) point && (annot_type b =? HIGHLIGHT))
    with (erasable point b).
  cbn in H. apply andb_prop in H as [Hb Hrest].
  apply negb_true_iff in Hb. rewrite Hb. auto.
Qed.

(** The loop of the eraser reaches the item under the pointer. *)
Lemma eraser_loop_at (scene_pos : QPointF) (t : PDFTab)
    (items : list PDFPageItem) :
  forall (n i : nat) (item : PDFPageItem),
    item_at scene_pos n items = Some (i, item) ->
    forall (point : Point) (p : PageObj),
      local_point t item scene_pos = Ret point ->
      page_obj t (page_num item) = Ret p ->
      eraser_loop scene_pos n items t
      = match first_erasable point 0 (annots p) with
        | Some k =>
            update_render_ref (current_ref t i item)
              (set_page (page_num item) (delete_annot k p) t)
        | None => t
        end.
Proof.
  induction items as [|o rest IH]; intros n i item Hat point p Hpt Hp.
  - discriminate.
  - cbn [item_at] in Hat. cbn [eraser_loop].
    destruct (in_scene o && qrectf_contains (sceneBoundingRect o) scene_pos).
    + injection Hat as <- <-. rewrite Hpt, Hp. reflexivity.
    + apply (IH (S n) i item Hat point p Hpt Hp).
Qed.

Lemma page_obj_inv (t : PDFTab) (i : nat) (p : PageObj) :
  page_obj t i = Ret p -> exists d, doc t = Some d /\ d !! i = Some p.
Proof.
  unfold page_obj. destruct (doc t) as [d|]; [|discriminate].
  destruct (d !! i) as [p'|] eqn:E; [|discriminate].
  intros [= <-]. eauto.
Qed.

Lemma update_render_ref_doc (r : ItemRef) (t : PDFTab) :
  doc (update_render_ref r t) = doc t.
Proof.
  unfold update_render_ref.
  destruct (page_obj t (ref_page_num r)) as [p|]; [|reflexivity].
  destruct (deref t r) as [item|e].
  - destruct (update_render p item _ _). reflexivity.
  - destruct (update_render p _ _ _) as [item' out].
    destruct (pixmap item'); reflexivity.
Qed.

(** Re-rendering the item [i] of the scene after its page has been
    replaced by [p']. *)
Lemma update_render_ref_current (t : PDFTab) (i : nat) (item : PDFPageItem)
    (p p' : PageObj) :
  page_items t !! i = Some item ->
  page_obj t (page_num item) = Ret p ->
  update_render_ref (current_ref t i item) (set_page (page_num item) p' t)
  = let upd := update_render p' item (scale t) (devicePixelRatio (view t)) in
    set_stdout (stdout t ++ snd upd)
      (set_page_items (<[i := fst upd]> (page_items t))
         (set_page (page_num item) p' t)).
Proof.
  intros Hi Hp. apply page_obj_inv in Hp as (d & Hd & Hl).
  unfold update_render_ref, page_obj, deref, set_page. cbn.
  rewrite Hd. cbn.
  rewrite list_lookup_insert_eq by (eapply lookup_lt_Some, Hl).
  rewrite Nat.eqb_refl, Hi. unfold mret, result_ret.
  destruct (update_render p' item _ _). reflexivity.
Qed.

(** C7. An erase press on a point inside a page (the item [i] is the
    first one under the pointer, [point] is the press point in page-local
    units and [p] the item's page) removes the first annotation of the
    page, in insertion order, whose rectangle contains the point and which
    is a highlight, and re-renders the item; no other annotation and no
    other page changes. If no other annotation of the page is such a
    highlight, a second press at the same point, still inside the
    re-rendered page, changes nothing. A press that hits no such
    annotation changes nothing. In Erase mode a press of the mouse is
    such an erase press. *)
Theorem erase_removes_first_hit (t : PDFTab) (screen_pos : QPoint) (i : nat)
    (item : PDFPageItem) (point : Point) (p : PageObj) :
  let scene_pos := mapToScene (view t) screen_pos in
  let t1 := process_eraser screen_pos t in
  item_at scene_pos 0 (page_items t) = Some (i, item) ->
  local_point t item scene_pos = Ret point ->
  page_obj t (page_num item) = Ret p ->
  (forall k a,
     annots p !! k = Some a ->
     erasable point a = true ->
     forallb (fun b => negb (erasable point b)) (take k (annots p)) = true ->
     let p' := set_annots p (delete k (annots p)) in
     let item' :=
       fst (update_render p' item (scale t) (devicePixelRatio (view t))) in
     doc t1 = (fun d => <[page_num item := p']> d) <$> doc t
     /\ page_items t1 = <[i := item']> (page_items t)
     /\ (item_hit scene_pos item' = true ->
         forallb (fun b => negb (erasable point b)) (delete k (annots p))
         = true ->
         process_eraser screen_pos t1 = t1))
  /\ (forallb (fun b => negb (erasable point b)) (annots p) = true -> t1 = t)
  /\ (tool_mode t = Erase -> doc_falsy (doc t) = false ->
      eventFilter (MouseButtonPress screen_pos) t = Ret t1).
Proof.
  intros scene_pos t1 Hat Hpt Hp.
  assert (Ht1 : t1 = match first_erasable point 0 (annots p) with
                     | Some k =>
                         update_render_ref (current_ref t i item)
                           (set_page (page_num item) (delete_annot k p) t)
                     | None => t
                     end)
    by apply (eraser_loop_at scene_pos t _ 0 i item Hat point p Hpt Hp).
  destruct (item_at_inv _ _ _ _ _ Hat) as (_ & Hi & Hhit & Hbefore).
  rewrite Nat.sub_0_r in Hi, Hbefore.
  split; [|split].
  - intros k a Hk Ha Hfirst p' item'.
    rewrite (first_erasable_first point _ 0 k a Hk Ha Hfirst) in Ht1.
    cbn [Nat.add] in Ht1. fold p' in Ht1. change (delete_annot k p) with p' in Ht1.
    rewrite (update_render_ref_current t i item p p' Hi Hp) in Ht1.
    cbn zeta in Ht1. fold item' in Ht1.
    split; [rewrite Ht1; reflexivity|].
    split; [rewrite Ht1; reflexivity|].
    intros Hhit' Hnone.
    assert (Hfields := update_render_fields p' item (scale t)
                         (devicePixelRatio (view t))).
    fold item' in Hfields. destruct Hfields as (Hnum & Hpos & Hin).
    assert (Hat1 : item_at scene_pos 0 (page_items t1) = Some (i, item')).
    { rewrite Ht1. cbn.
      apply (item_at_first scene_pos _ 0 i item').
      - apply list_lookup_insert_eq. eapply lookup_lt_Some, Hi.
      - exact Hhit'.
      - rewrite take_insert_ge by lia. exact Hbefore. }
    assert (Hpt1 : local_point t1 item' scene_pos = Ret point).
    { rewrite <- Hpt, Ht1. unfold local_point, mapFromScene. cbn.
      rewrite Hpos. reflexivity. }
    assert (Hp1 : page_obj t1 (page_num item') = Ret p').
    { apply page_obj_inv in Hp as (d & Hd & Hl).
      rewrite Hnum, Ht1. unfold page_obj, set_page. cbn. rewrite Hd. cbn.
      rewrite list_lookup_insert_eq by (eapply lookup_lt_Some, Hl).
      reflexivity. }
    unfold process_eraser.
    replace (mapToScene (view t1) screen_pos) with scene_pos
      by (rewrite Ht1; reflexivity).
    rewrite (eraser_loop_at scene_pos t1 _ 0 i item' Hat1 point p' Hpt1 Hp1).
    rewrite (first_erasable_none point (annots p') 0 Hnone). reflexivity.
  - intros Hnone. rewrite Ht1, (first_erasable_none point _ 0 Hnone).
    reflexivity.
  - intros Hmode Hdoc. unfold eventFilter. rewrite Hmode, Hdoc. reflexivity.
Qed.

End Eraser.

(** A press at (370, 15) of the viewport is the point (20, 15) of the
    page: inside the note and inside the highlight. The highlight goes,
    the note stays, and a second press changes nothing. *)
Lemma erase_removes_first_hit_witness :
  let t := set_tool Erase Sample.annotated_tab in
  let press := {| qp_x := 370; qp_y := 15 |} in
  item_at (mapToScene (view t) press) 0 (page_items t)
  = Some (0%nat, Sample.first_item t)
  /\ local_point t (Sample.first_item t) (mapToScene (view t) press)
     = Ret (Sample.point 20 15)
  /\ page_obj t (page_num (Sample.first_item t)) = Ret Sample.annotated_page
  /\ (fun d : list PageObj => annots <$> d) <$> doc (process_eraser press t)
     = Some [[Sample.note]]
  /\ process_eraser press (process_eraser press t) = process_eraser press t
  /\ eventFilter (MouseButtonPress press) t = Ret (process_eraser press t).
Proof.
  intros t press.
  assert (Hat : item_at (mapToScene (view t) press) 0 (page_items t)
                = Some (0%nat, Sample.first_item t))
    by (vm_compute; reflexivity).
  assert (Hpt : local_point t (Sample.first_item t) (mapToScene (view t) press)
                = Ret (Sample.point 20 15))
    by (vm_compute; reflexivity).
  assert (Hp : page_obj t (page_num (Sample.first_item t))
               = Ret Sample.annotated_page)
    by reflexivity.
  destruct (erase_removes_first_hit t press 0 (Sample.first_item t)
              (Sample.point 20 15) Sample.annotated_page Hat Hpt Hp)
    as (Hhit & _ & Hev).
  destruct (Hhit 1%nat Sample.highlight eq_refl eq_refl eq_refl)
    as (Hdoc & Hitems & Hagain).
  split; [exact Hat|]. split; [exact Hpt|]. split; [exact Hp|].
  split; [rewrite Hdoc; reflexivity|].
  split; [|apply Hev; reflexivity].
  apply Hagain; vm_compute; reflexivity.
Defined.

(** ** C8: copying the selection *)




(** [py_strip] removes whitespace from both ends, and only whitespace:
    the result is the string without a prefix and a suffix of whitespace,
    and it neither starts nor ends with whitespace. *)
Lemma lstrip_decompose (s : string) :
  exists l, s = l +:+ lstrip s /\ all_spaces l = true.
Proof.
  induction s as [|c s (l & Hl & Hs)]; [exists ""; auto|].
  cbn [lstrip]. destruct (py_isspace c) eqn:E.
  - exists (String c l). cbn [all_spaces]. rewrite E, Hs. split; [|reflexivity].
    change (String c s = String c (l +:+ lstrip s)). rewrite <- Hl. reflexivity.
  - exists "". auto.
Qed.

Lemma rstrip_decompose (s : string) :
  exists r, s = rstrip s +:+ r /\ all_spaces r = true.
Proof.
  induction s as [|c s (r & Hr & Hs)]; [exists ""; auto|].
  cbn [rstrip]. destruct (rstrip s) as [|c' s'] eqn:E.
  - destruct (py_isspace c) eqn:Ec.
    + exists (String c s). split; [reflexivity|].
      cbn [all_spaces]. rewrite Ec. cbn in Hr. rewrite Hr. exact Hs.
    + exists r. split; [|exact Hs].
      change (String c s = String c ("" +:+ r)). rewrite <- Hr. reflexivity.
  - exists r. split; [|exact Hs].
    change (String c s = String c (String c' s' +:+ r)). rewrite <- Hr.
    reflexivity.
Qed.

Lemma lstrip_head (s : string) :
  match lstrip s with
  | String c _ => py_isspace c = false
  | EmptyString => True
  end.
Proof.
  induction s as [|c s IH]; cbn; [exact I|].
  destruct (py_isspace c) eqn:E; [exact IH|exact E].
Qed.

Lemma rstrip_keeps_head (c : ascii) (s : string) :
  py_isspace c = false -> exists s', rstrip (String c s) = String c s'.
Proof.
  intros E. cbn [rstrip]. destruct (rstrip s); [rewrite E|]; eauto.
Qed.

Lemma rstrip_last (s : string) :
  match last_char (rstrip s) with
  | Some c => py_isspace c = false
  | None => True
  end.
Proof.
  induction s as [|c s IH]; [exact I|].
  cbn [rstrip]. destruct (rstrip s) as [|c' s'] eqn:E.
  - destruct (py_isspace c) eqn:Ec; [exact I|exact Ec].
  - exact IH.
Qed.

Lemma py_strip_trims (s : string) :
  (exists l r, s = l +:+ (py_strip s +:+ r)
     /\ all_spaces l = true /\ all_spaces r = true)
  /\ match py_strip s with
     | String c _ => py_isspace c = false
     | EmptyString => True
     end
  /\ match last_char (py_strip s) with
     | Some c => py_isspace c = false
     | None => True
     end.
Proof.
  unfold py_strip. split; [|split].
  - destruct (lstrip_decompose s) as (l & Hl & Hls).
    destruct (rstrip_decompose (lstrip s)) as (r & Hr & Hrs).
    exists l, r. rewrite <- Hr. auto.
  - pose proof (lstrip_head s) as H.
    destruct (lstrip s) as [|c s']; [exact I|].
    destruct (rstrip_keeps_head c s' H) as [s'' ->]. exact H.
  - apply rstrip_last.
Qed.





(** Dragging over the two words of the sample page and copying gives
    "Hello world": the trailing blank is trimmed. *)
Example copy_two_words :
  let t := set_tool Select (Sample.tab 800 600 0 [Sample.text_page 100 100 []]) in
  (t' ← run_events [MouseButtonPress {| qp_x := 370; qp_y := 15 |};
                    MouseMove {| qp_x := 410; qp_y := 15 |}] t;
   mret (clipboard (copy_selection t')))
  = Ret "Hello world".
Proof. vm_compute. reflexivity. Qed.

(** ** C2: gestures that commit nothing *)

Section Gestures.

Context `{BE : !Backend}.

Lemma set_rubberband_geometry_same (t : PDFTab) :
  set_rubberband_geometry (rubberband_geometry t) t = t.
Proof. destruct t; reflexivity. Qed.


(** A normalized rectangle has no negative size: the rubber band stores
    it as it is. *)
Lemma setGeometry_normalized (r : QRect) :
  setGeometry (qrect_normalized r) = qrect_normalized r.
Proof.
  unfold setGeometry, qrect_normalized, qrect_width, qrect_height.
  destruct (qr_x2 r <? qr_x1 r) eqn:Ex, (qr_y2 r <? qr_y1 r) eqn:Ey; cbn;
    first [apply Z.ltb_lt in Ex | apply Z.ltb_ge in Ex];
    first [apply Z.ltb_lt in Ey | apply Z.ltb_ge in Ey];
    f_equal; lia.
Qed.

(** A move in the box sub-mode only reshapes the rubber band. *)
Lemma box_move (q : QPoint) (t : PDFTab) :
  use_linear_selection t = false ->
  handle_selection_move q t
  = Ret (set_rubberband_geometry (box_geometry t [q]) t).
Proof.
  intros Hlin. unfold handle_selection_move, box_geometry. rewrite Hlin.
  rewrite setGeometry_normalized.
  cbn [last andb].
  destruct (start_selection_page t) as [r|].
  - destruct (qpoint_isNull (origin_point t));
      [rewrite set_rubberband_geometry_same|]; reflexivity.
  - rewrite set_rubberband_geometry_same. reflexivity.
Qed.


(** What a press leaves behind when it does not start a linear
    selection: nothing selected and the document as it was; over a page, a
    fresh rubber band at the pressed point; over no page, the old
    reference to a page. *)
Lemma press_without_linear (p : QPoint) (t : PDFTab) :
  let t1 := handle_selection_press p t in
  tool_mode t1 = tool_mode t
  /\ doc t1 = doc t
  /\ origin_point t1 = p
  /\ selected_quads t1 = []
  /\ (use_linear_selection t1 = false ->
      match item_at (mapToScene (view t) p) 0 (page_items t) with
      | Some _ => rubberband_geometry t1 = setGeometry (qrect_of_point p)
      | None => start_selection_page t1 = start_selection_page t
      end).
Proof.
  unfold handle_selection_press.
  cbn [view set_use_linear_selection set_page_quads_cache set_selected_quads
       set_selection_overlay set_origin_point origin_point page_items].
  destruct (item_at (mapToScene (view t) p) 0 (page_items t)) as [[idx item]|].
  2:{ cbn. auto. }
  unfold press_on_item.
  match goal with
  | |- context [mbind ?k ?m] => destruct (mbind k m) as [quads|e] eqn:Eq
  end.
  2:{ cbn. auto 6. }
  destruct quads as [|q0 qs].
  { cbn. auto 6. }
  match goal with
  | |- context [mbind ?k ?m] => destruct (mbind k m) as [i|e] eqn:Ei
  end.
  - cbn. repeat split; auto. discriminate.
  - cbn. auto 6.
Qed.

Lemma run_events_app (evs1 evs2 : list Event) (t : PDFTab) :
  run_events (evs1 ++ evs2) t = t' ← run_events evs1 t; run_events evs2 t'.
Proof.
  revert t. induction evs1 as [|ev rest IH]; intros t; [reflexivity|].
  cbn [app run_events]. destruct (eventFilter ev t) as [t1|e]; [|reflexivity].
  apply IH.
Qed.



(** A release in Highlight mode with selected quads of a linear selection
    commits them: the page gets one more annotation, the engine's highlight
    of the quads in the tab's colour. *)
Lemma release_commits_selected_quads (choice : option MenuAction) (t : PDFTab)
    (r : ItemRef) (p : PageObj) (a : Annot) :
  tool_mode t = Highlight ->
  use_linear_selection t = true ->
  selected_quads t <> [] ->
  start_selection_page t = Some r ->
  page_obj t (ref_page_num r) = Ret p ->
  make_highlight (HQuads (selected_quads t)) = Ret a ->
  doc (handle_selection_release choice t)
  = (fun d : list PageObj =>
       <[ref_page_num r :=
           set_annots p
             (annots p ++ [{| annot_rect := annot_rect a;
                              annot_type := annot_type a;
                              annot_stroke := Some (highlight_color t) |}])]> d)
    <$> doc t.
Proof.
  intros Hmode Hlin Hsel Hr Hp Ha. unfold handle_selection_release.
  rewrite Hmode, Hlin, bool_decide_eq_true_2 by exact Hsel. cbn [andb].
  unfold highlight_selection. rewrite Hr.
  destruct (selected_quads t) as [|c rest] eqn:Hq; [contradiction|].
  rewrite Hp. unfold add_highlight_annot. cbn [mbind result_bind].
  rewrite Ha. cbn [mbind result_bind mret result_ret].
  cbn [doc set_start_selection_page set_origin_point set_rubberband_visible
       set_selected_quads set_selection_overlay].
  rewrite update_render_ref_doc. reflexivity.
Qed.



End Gestures.



(** ** C10: saving over the original file *)

Lemma save_as_new_never_saves_in_place (w : SaveWorld) (tab : option PDFTab) :
  doc_saveIncr ∉ snd (save_as_new w tab).
Proof.
  unfold save_as_new. destruct tab as [t|]; cbn; [|apply not_elem_of_nil].
  destruct (chosen_path w) as [|c path]; cbn.
  - intros H. apply list_elem_of_singleton in H. discriminate.
  - destruct (save_result w (String c path)) as [[]|e];
      [destruct (path_falsy (current_path t))|]; cbn;
      rewrite ?elem_of_cons, elem_of_nil; intros H;
      repeat destruct H as [H|H]; try discriminate; exact H.
Qed.

(** C10. Save on a tab whose path is unset (or empty), or does not name
    an existing regular file, does what Save Copy does and attempts no
    incremental save; an incremental save is attempted exactly when the
    path names an existing file, and then it is the first thing done. *)
Theorem save_overwrite_redirects (w : SaveWorld) (t : PDFTab) :
  (path_falsy (current_path t) = true
   \/ (exists p, current_path t = Some p /\ isfile w p = false) ->
   save_overwrite w (Some t) = save_as_new w (Some t)
   /\ doc_saveIncr ∉ snd (save_overwrite w (Some t)))
  /\ (doc_saveIncr ∈ snd (save_overwrite w (Some t))
      <-> exists p, current_path t = Some p /\ p <> "" /\ isfile w p = true)
  /\ (forall p, current_path t = Some p -> p <> "" -> isfile w p = true ->
      exists rest, snd (save_overwrite w (Some t)) = doc_saveIncr :: rest
        /\ fst (save_overwrite w (Some t)) = Some t).
Proof.
  assert (Hredirect :
            path_falsy (current_path t)
            || negb (isfile w (default EmptyString (current_path t))) = true ->
            save_overwrite w (Some t) = save_as_new w (Some t)).
  { intros H. unfold save_overwrite. rewrite H. reflexivity. }
  assert (Hinplace :
            forall p, current_path t = Some p -> p <> "" -> isfile w p = true ->
            exists rest, snd (save_overwrite w (Some t)) = doc_saveIncr :: rest
              /\ fst (save_overwrite w (Some t)) = Some t).
  { intros p Hp Hne Hfile. unfold save_overwrite. rewrite Hp. cbn.
    destruct p as [|c p]; [contradiction|]. cbn. rewrite Hfile. cbn.
    destruct (saveIncr_result w); eexists; split; reflexivity. }
  split; [|split; [|exact Hinplace]].
  - intros H.
    assert (Hc : path_falsy (current_path t)
                 || negb (isfile w (default EmptyString (current_path t)))
                 = true).
    { destruct H as [->|(p & -> & Hp)]; [reflexivity|].
      cbn. rewrite Hp. apply orb_true_r. }
    rewrite (Hredirect Hc).
    split; [reflexivity|apply save_as_new_never_saves_in_place].
  - split.
    + intros Hin.
      destruct (path_falsy (current_path t)
                || negb (isfile w (default EmptyString (current_path t))))
        eqn:Hc.
      * rewrite (Hredirect eq_refl) in Hin.
        exfalso. exact (save_as_new_never_saves_in_place _ _ Hin).
      * apply orb_false_elim in Hc as [Hf Hfile].
        apply negb_false_iff in Hfile.
        destruct (current_path t) as [[|c p]|]; try discriminate.
        exists (String c p). auto.
    + intros (p & Hp & Hne & Hfile).
      destruct (Hinplace p Hp Hne Hfile) as (rest & -> & _).
      apply elem_of_cons. left. reflexivity.
Qed.

(** A document opened from the web carries a label, not a file name: Save
    asks for a file like Save Copy does. *)
Example save_of_web_document :
  let w := {| isfile := fun p => String.eqb p "sample.pdf";
              basename := fun p => p;
              chosen_path := "copy.pdf";
              save_result := fun _ => Ret ();
              saveIncr_result := Ret () |} in
  snd (save_overwrite w
         (Some (set_current_path (Some "Web: https://example.org...")
                  Sample.annotated_tab)))
  = [getSaveFileName; doc_save "copy.pdf"; information "Saved" "Copy saved."]
  /\ snd (save_overwrite w (Some Sample.annotated_tab))
     = [doc_saveIncr; information "Saved" "Saved to original file."].
Proof. split; reflexivity. Qed.

(** * Further properties

    What the code shows beyond the claims of the specification:
    - X1, X15: the scale after [fit_width], and [fit_width] twice;
    - X2: the column of the single layout;
    - X3: the bounds of [jump_to_page];
    - X4: the page label of the main window;
    - X5, X6, X7: the indices of a linear selection, from the press on;
    - X9: the moves of the pointer that change nothing;
    - X10, X11, X16: what an erase press and a release do to the
      document, and that the one undoes the other;
    - X12: gestures at the scale zero;
    - X13: a new layout in the middle of a selection;
    - X14: saving a copy, and saving after it;
    - X17: the colour of the Highlight tool;
    - X18: copying a box selection. *)

(** ** The scale after [fit_width] and one zoom step *)

Lemma add_not_nan_finite (a b : float) :
  is_nan a = false -> is_finite b = true -> is_nan (add a b) = false.
Proof.
  destruct a as [[|]|[|]| |sa ma ea], b as [[|]|[|]| |sb mb eb];
    cbn; try discriminate; try reflexivity.
  intros _ _. apply binary_normalize_not_nan.
Qed.

Lemma div_eucl_nonneg (a : Z) (b : positive) :
  0 <= a -> 0 <= fst (Z.div_eucl a (Zpos b)).
Proof.
  intros H. pose proof (Z_div_mod a (Zpos b) eq_refl) as Hq.
  destruct (Z.div_eucl a (Zpos b)) as [q r]. cbn. nia.
Qed.

(** A finite number over a positive one is a number. *)
Lemma div_not_nan (a b : float) :
  is_finite a = true -> ltb zero b = true -> is_nan (div a b) = false.
Proof.
  intros Ha Hb.
  destruct a as [sa|sa| |sa ma ea]; try discriminate;
    destruct b as [sb|sb| |sb mb eb]; try discriminate; try reflexivity.
  unfold div, SFdiv, SFdiv_core_binary.
  match goal with
  | |- context [Z.div_eucl ?m _] => set (m' := m)
  end.
  assert (Hm : 0 <= m').
  { subst m'. destruct (_ - _ - _) as [|s|s]; [lia| |lia].
    apply Z.shiftl_nonneg. lia. }
  pose proof (div_eucl_nonneg m' mb Hm) as Hq.
  destruct (Z.div_eucl m' (Z.pos mb)) as [q r]. cbn in Hq.
  apply binary_round_aux_not_nan, Hq.
Qed.

Lemma fit_width_scale (t : PDFTab) :
  scale (fit_width t) = scale t
  \/ exists page0 rest,
       doc t = Some (page0 :: rest)
       /\ ltb (of_Z 0) (rect_width page0) = true
       /\ scale (fit_width t)
          = div (of_Z (view_width (view t) - 30)) (rect_width page0).
Proof.
  unfold fit_width. destruct (doc t) as [[|page0 rest]|]; auto.
  destruct (ltb (of_Z 0) (rect_width page0)) eqn:E; auto.
  right. exists page0, rest. rewrite render_pages_scale. auto.
Qed.

(** X1. One zoom step brings every scale that is a number, in or out of
    the range, back into [0.2, 5.0]. [fit_width] stores a number when the
    width of the view is a binary64 number, so that one zoom step after
    [fit_width] ends in the range again. *)
Theorem zoom_step_repairs_scale (z : ZoomStep) (t : PDFTab) :
  is_nan (scale t) = false ->
  in_range (scale (zoom_view (zoom_change z) t))
  /\ (is_finite (of_Z (view_width (view t) - 30)) = true ->
      is_nan (scale (fit_width t)) = false
      /\ in_range (scale (zoom_view (zoom_change z) (fit_width t)))).
Proof.
  intros Hn.
  assert (Hstep : forall u, is_nan (scale u) = false ->
                    in_range (scale (zoom_view (zoom_change z) u))).
  { intros u Hu. rewrite zoom_view_scale. apply zoom_scale_in_range.
    apply add_not_nan_finite; [exact Hu|apply zoom_change_finite]. }
  split; [apply Hstep, Hn|].
  intros Hw.
  assert (Hfit : is_nan (scale (fit_width t)) = false).
  { destruct (fit_width_scale t) as [->|(page0 & rest & _ & Hpos & ->)];
      [exact Hn|].
    apply div_not_nan; [exact Hw|exact Hpos]. }
  split; [exact Hfit|apply Hstep, Hfit].
Qed.

(** In a view 1230 pixels wide [fit_width] gives the scale 12.0 for a
    page 100 points wide; a zoom-out step from there ends at 5.0. *)
Lemma zoom_step_repairs_scale_witness :
  let t := Sample.tab 1230 600 0 [Sample.text_page 100 100 []] in
  is_nan (scale t) = false
  /\ is_finite (of_Z (view_width (view t) - 30)) = true
  /\ scale (fit_width t) = of_Z 12
  /\ in_range (scale (zoom_view (zoom_change ZoomOut) (fit_width t))).
Proof.
  intros t.
  destruct (zoom_step_repairs_scale ZoomOut t eq_refl) as [_ H].
  destruct (H eq_refl) as [_ Hr].
  split; [reflexivity|]. split; [reflexivity|].
  split; [vm_compute; reflexivity|exact Hr].
Defined.

(** ** The layout of the single view *)

Lemma render_step_single (vw : Z) (scale dpr : float) (i : nat)
    (page : PageObj) (st : RenderLoop) :
  let item := rendered scale dpr i page in
  let view_w := if 0 <? vw then vw else 800 in
  render_step Single vw scale dpr i page st
  = {| rl_items :=
         rl_items st
         ++ [setPos item
               (if ltb (item_w item) (of_Z view_w)
                then div (sub (of_Z view_w) (item_w item)) f2_0
                else of_Z 0)
               (rl_y_offset st)];
       rl_y_offset := add (rl_y_offset st) (add (item_h item) padding);
       rl_next_x := rl_next_x st;
       rl_out := rl_out st ++ printed scale dpr i page |}.
Proof.
  unfold render_step, rendered, printed.
  destruct (update_render page (PDFPageItem_init i) scale dpr) as [item out].
  reflexivity.
Qed.

Lemma render_loop_single_column (vw : Z) (scale dpr : float)
    (pages : list PageObj) :
  forall (i : nat) (st : RenderLoop),
    exists new,
      rl_items (render_loop Single vw scale dpr i pages st) = rl_items st ++ new
      /\ single_column (if 0 <? vw then vw else 800) (rl_y_offset st) new.
Proof.
  induction pages as [|page rest IH]; intros i st.
  - exists []. cbn. rewrite app_nil_r. split; [reflexivity|constructor].
  - cbn [render_loop]. rewrite render_step_single. cbv zeta.
    match goal with
    | |- context [render_loop Single vw scale dpr (S i) rest ?s] =>
        destruct (IH (S i) s) as (new & Hnew & Hcol)
    end.
    cbn [rl_items rl_y_offset] in Hnew, Hcol.
    eexists (_ :: new). rewrite Hnew, <- app_assoc.
    split; [reflexivity|].
    constructor; [reflexivity|exact Hcol].
Qed.

Lemma single_column_first_y (vw : Z) (y : float) (items : list PDFPageItem) :
  single_column vw y items ->
  forall a, items !! 0%nat = Some a -> qpf_y (pos a) = y.
Proof.
  destruct 1 as [y|y a rest Ha Hrest]; intros c Hc; [discriminate|].
  injection Hc as <-. rewrite Ha. reflexivity.
Qed.

Lemma single_column_next_y (vw : Z) (y : float) (items : list PDFPageItem) :
  single_column vw y items ->
  forall k a b, items !! k = Some a -> items !! S k = Some b ->
    qpf_y (pos b) = add (qpf_y (pos a)) (add (item_h a) padding).
Proof.
  induction 1 as [y|y a rest Ha Hrest IH]; intros k c d Hc Hd; [discriminate|].
  destruct k as [|k].
  - injection Hc as <-. cbn in Hd.
    rewrite (single_column_first_y _ _ _ Hrest d Hd), Ha. reflexivity.
  - apply (IH k c d Hc Hd).
Qed.

Lemma single_column_x (vw : Z) (y : float) (items : list PDFPageItem) :
  single_column vw y items ->
  forall k a, items !! k = Some a ->
    qpf_x (pos a) = if ltb (item_w a) (of_Z vw)
                    then div (sub (of_Z vw) (item_w a)) f2_0
                    else of_Z 0.
Proof.
  induction 1 as [y|y a rest Ha Hrest IH]; intros k c Hc; [discriminate|].
  destruct k as [|k].
  - injection Hc as <-. rewrite Ha. reflexivity.
  - apply (IH k c Hc).
Qed.

(** X2. The items that the loop of [render_pages] produces in single mode:
    one item per page, stacked in one column. The first is at y = 0 and
    each next one lower by the height of the one before it plus the
    padding of 20. An item that is not narrower than the view is at
    x = 0 (so is one whose width is not a number); a narrower one is
    centred, at half of what the view is wider. A view whose width is not
    positive counts as 800 wide. The items of a tab in single mode are
    these, and so are the items after the main window has switched the
    tab to the single view. *)
Theorem single_layout_column (vw : Z) (sc dpr : float) (pages : list PageObj) :
  let view_w := if 0 <? vw then vw else 800 in
  let items := rl_items (render_loop Single vw sc dpr 0 pages render_init) in
  length items = length pages
  /\ single_column view_w (of_Z 0) items
  /\ (forall a, items !! 0%nat = Some a -> qpf_y (pos a) = of_Z 0)
  /\ (forall k a b, items !! k = Some a -> items !! S k = Some b ->
        qpf_y (pos b) = add (qpf_y (pos a)) (add (item_h a) padding))
  /\ (forall k a, items !! k = Some a ->
        ltb (item_w a) (of_Z view_w) = false -> qpf_x (pos a) = of_Z 0)
  /\ (forall k a, items !! k = Some a ->
        ltb (item_w a) (of_Z view_w) = true ->
        qpf_x (pos a) = div (sub (of_Z view_w) (item_w a)) f2_0)
  /\ (forall t, view_mode t = Single -> view_width (view t) = vw ->
        scale t = sc -> devicePixelRatio (view t) = dpr ->
        doc t = Some pages -> pages <> [] ->
        page_items (render_pages t) = items)
  /\ (forall t, view_width (view t) = vw ->
        scale t = sc -> devicePixelRatio (view t) = dpr ->
        doc t = Some pages -> pages <> [] ->
        page_items <$> ProPDFViewer.set_view_mode Single (Some t)
        = Some items).
Proof.
  intros view_w items.
  destruct (render_loop_items Single vw sc dpr pages 0 render_init)
    as (new0 & Hnew0 & Hlen & _).
  destruct (render_loop_single_column vw sc dpr pages 0 render_init)
    as (new & Hnew & Hcol).
  fold items in Hnew0, Hnew. fold view_w in Hcol.
  cbn in Hnew0, Hnew, Hcol. subst new0. rewrite <- Hnew in *. clear Hnew.
  split; [exact Hlen|]. split; [exact Hcol|].
  split; [exact (single_column_first_y _ _ _ Hcol)|].
  split; [exact (single_column_next_y _ _ _ Hcol)|].
  split; [|split; [|split]].
  - intros k a Hk Hw. rewrite (single_column_x _ _ _ Hcol k a Hk), Hw.
    reflexivity.
  - intros k a Hk Hw. rewrite (single_column_x _ _ _ Hcol k a Hk), Hw.
    reflexivity.
  - intros t Hm Hw Hs Hd Hdoc Hne.
    rewrite (render_pages_items t pages Hdoc Hne), Hm, Hw, Hs, Hd.
    reflexivity.
  - intros t Hw Hs Hd Hdoc Hne.
    cbn [ProPDFViewer.set_view_mode fmap option_fmap option_map].
    rewrite (render_pages_items (set_view_mode Single t) pages Hdoc Hne).
    cbn [view_mode view scale set_view_mode]. rewrite Hw, Hs, Hd.
    reflexivity.
Qed.

(** Two pages, 100 and 900 pixels wide, in a view of 800: the first is
    centred at x = 350, the second is at x = 0 and at y = 100 + 20. *)
Example single_layout_two_pages :
  pos <$> page_items
            (Sample.tab 800 600 0
               [Sample.text_page 100 100 []; Sample.text_page 900 100 []])
  = [ {| qpf_x := of_Z 350; qpf_y := of_Z 0 |};
      {| qpf_x := of_Z 0; qpf_y := of_Z 120 |} ].
Proof. vm_compute. reflexivity. Qed.

(** ** Jumping to a page *)

(** The items of a rendered document: one per page, numbered in page
    order, all in the scene. *)
Lemma render_pages_numbering (t : PDFTab) (d : list PageObj) :
  doc t = Some d -> d <> [] ->
  length (page_items (render_pages t)) = length d
  /\ forall j item, page_items (render_pages t) !! j = Some item ->
       page_num item = j /\ in_scene item = true.
Proof.
  intros Hdoc Hne. rewrite (render_pages_items t d Hdoc Hne).
  destruct (render_loop_items (view_mode t) (view_width (view t)) (scale t)
              (devicePixelRatio (view t)) d 0 render_init)
    as (new & Hnew & Hlen & Hpix & _).
  rewrite Hnew. cbn. split; [exact Hlen|].
  intros j item Hj.
  assert (Hlt : (j < length d)%nat).
  { rewrite <- Hlen. eapply lookup_lt_Some, Hj. }
  destruct (lookup_lt_is_Some_2 d j Hlt) as [page Hpage].
  destruct (Hpix j page Hpage) as (it & H1 & H2 & H3 & _).
  rewrite Hj in H1. injection H1 as ->. auto.
Qed.

(** X3. [jump_to_page] centres the view on no item exactly when the
    number is below 1 or above the number of items: a number below 1 does
    not count from the end of the list. Otherwise the item is the one at
    the index [p - 1], and in a rendered document that is the item of the
    page numbered [p - 1]. *)
Theorem jump_to_page_in_bounds (t : PDFTab) (p : Z) :
  (jump_to_page p t = None
   <-> p < 1 \/ Z.of_nat (length (page_items t)) < p)
  /\ (forall item, jump_to_page p t = Some item ->
        page_items t !! Z.to_nat (p - 1) = Some item)
  /\ (forall d, doc t = Some d -> d <> [] ->
        1 <= p <= Z.of_nat (length d) ->
        exists item,
          jump_to_page p (render_pages t) = Some item
          /\ page_num item = Z.to_nat (p - 1)
          /\ in_scene item = true).
Proof.
  assert (Hin : forall u : PDFTab,
            1 <= p <= Z.of_nat (length (page_items u)) ->
            jump_to_page p u = page_items u !! Z.to_nat (p - 1)).
  { intros u Hp. unfold jump_to_page.
    destruct (page_items u) as [|i0 rest] eqn:E; [cbn in Hp; lia|].
    cbv zeta. rewrite (proj2 (Z.leb_le 0 (p - 1))) by lia.
    rewrite (proj2 (Z.ltb_lt (p - 1) _)) by lia. reflexivity. }
  assert (Hout : forall u : PDFTab,
            p < 1 \/ Z.of_nat (length (page_items u)) < p ->
            jump_to_page p u = None).
  { intros u Hp. unfold jump_to_page.
    destruct (page_items u) as [|i0 rest] eqn:E; [reflexivity|].
    cbv zeta. destruct Hp as [Hp|Hp].
    - rewrite (proj2 (Z.leb_gt 0 (p - 1))) by lia. reflexivity.
    - rewrite (proj2 (Z.ltb_ge (p - 1) _)) by lia. rewrite andb_false_r.
      reflexivity. }
  split; [|split].
  - split; [|apply Hout].
    intros Hnone.
    destruct (Z_lt_dec p 1) as [|H1]; [auto|].
    destruct (Z_lt_dec (Z.of_nat (length (page_items t))) p) as [|H2]; [auto|].
    rewrite Hin in Hnone by lia.
    apply lookup_ge_None in Hnone. lia.
  - intros item H.
    destruct (Z_lt_dec p 1) as [H1|H1];
      [rewrite Hout in H by auto; discriminate|].
    destruct (Z_lt_dec (Z.of_nat (length (page_items t))) p) as [H2|H2];
      [rewrite Hout in H by auto; discriminate|].
    rewrite Hin in H by lia. exact H.
  - intros d Hdoc Hne Hp.
    destruct (render_pages_numbering t d Hdoc Hne) as [Hlen Hnum].
    rewrite Hin by (rewrite Hlen; exact Hp).
    destruct (lookup_lt_is_Some_2 (page_items (render_pages t))
                (Z.to_nat (p - 1))) as [item Hitem]; [lia|].
    exists item. split; [exact Hitem|]. apply Hnum, Hitem.
Qed.

(** Page 2 of two pages, and the numbers 0 and 3. *)
Example jump_to_page_examples :
  let t := Sample.tab 800 600 0
             [Sample.text_page 100 100 []; Sample.text_page 100 100 []] in
  page_num <$> jump_to_page 2 t = Some 1%nat
  /\ jump_to_page 0 t = None
  /\ jump_to_page 3 t = None.
Proof. vm_compute. repeat split; reflexivity. Qed.

(** ** The page label of the main window *)

Lemma pretty_N_char_digit (x : N) : is_digit (pretty_N_char x) = true.
Proof. unfold pretty_N_char. repeat case_match; reflexivity. Qed.

Lemma pretty_N_go_digits (x : N) :
  forall s, all_digits s = true -> all_digits (pretty_N_go x s) = true.
Proof.
  induction (N.lt_wf_0 x) as [x _ IH]; intros s Hs.
  destruct (decide (x = 0)%N) as [->|Hx].
  - rewrite pretty_N_go_0. exact Hs.
  - rewrite pretty_N_go_step by lia. apply IH.
    + apply N.div_lt; lia.
    + cbn. rewrite pretty_N_char_digit. exact Hs.
Qed.

(** A number is printed in digits. *)
Lemma pretty_nat_digits (n : nat) : all_digits (pretty n) = true.
Proof.
  unfold pretty, pretty_nat, pretty, pretty_N.
  case_decide; [reflexivity|]. apply pretty_N_go_digits. reflexivity.
Qed.

Lemma digit_not_space (c : ascii) : is_digit c = true -> py_isspace c = false.
Proof.
  destruct c as [[] [] [] [] [] [] [] []]; intros H;
    first [reflexivity | discriminate H].
Qed.

Lemma digit_not_slash (c : ascii) :
  is_digit c = true -> Ascii.eqb c "/" = false.
Proof.
  destruct c as [[] [] [] [] [] [] [] []]; intros H;
    first [reflexivity | discriminate H].
Qed.

Lemma append_String (c : ascii) (a b : string) :
  String c a +:+ b = String c (a +:+ b).
Proof. reflexivity. Qed.

Lemma append_empty (b : string) : "" +:+ b = b.
Proof. reflexivity. Qed.

Lemma py_split_digits (s : string) :
  all_digits s = true -> ProPDFViewer.py_split "/" s = [s].
Proof.
  induction s as [|c rest IH]; intros H; [reflexivity|].
  cbn in H. apply andb_prop in H as [Hc Hrest].
  cbn [ProPDFViewer.py_split]. rewrite (digit_not_slash c Hc), (IH Hrest).
  reflexivity.
Qed.

(** The text "a / b" for two numbers has two parts. *)
Lemma py_split_label (a b : string) :
  all_digits a = true -> all_digits b = true ->
  ProPDFViewer.py_split "/" (a +:+ " / " +:+ b) = [a +:+ " "; " " +:+ b].
Proof.
  intros Ha Hb. induction a as [|c rest IH].
  - rewrite !append_empty.
    change (" / " +:+ b) with (String " " (String "/" (String " " b))).
    simpl. rewrite (py_split_digits b Hb). reflexivity.
  - cbn in Ha. apply andb_prop in Ha as [Hc Hrest].
    change (String c rest +:+ " / " +:+ b)
      with (String c (rest +:+ " / " +:+ b)).
    cbn [ProPDFViewer.py_split].
    rewrite (digit_not_slash c Hc), (IH Hrest). reflexivity.
Qed.

Lemma lstrip_digits (s : string) : all_digits s = true -> lstrip s = s.
Proof.
  destruct s as [|c rest]; intros H; [reflexivity|].
  cbn in H. apply andb_prop in H as [Hc _].
  cbn [lstrip]. rewrite (digit_not_space c Hc). reflexivity.
Qed.

Lemma rstrip_digits (s : string) : all_digits s = true -> rstrip s = s.
Proof.
  induction s as [|c rest IH]; intros H; [reflexivity|].
  cbn in H. apply andb_prop in H as [Hc Hrest].
  cbn [rstrip]. rewrite (IH Hrest), (digit_not_space c Hc).
  destruct rest; reflexivity.
Qed.

Lemma rstrip_digits_space (s : string) :
  all_digits s = true -> rstrip (s +:+ " ") = s.
Proof.
  induction s as [|c rest IH]; intros H; [reflexivity|].
  cbn in H. apply andb_prop in H as [Hc Hrest].
  rewrite append_String. cbn [rstrip].
  rewrite (IH Hrest), (digit_not_space c Hc).
  destruct rest; reflexivity.
Qed.

Lemma py_strip_digits_space (s : string) :
  all_digits s = true -> py_strip (s +:+ " ") = s.
Proof.
  intros H. unfold py_strip. destruct s as [|c rest]; [reflexivity|].
  rewrite append_String.
  assert (Hc : py_isspace c = false).
  { cbn in H. apply andb_prop in H as [Hc _]. apply digit_not_space, Hc. }
  cbn [lstrip]. rewrite Hc, <- append_String.
  apply rstrip_digits_space, H.
Qed.

Lemma py_strip_space_digits (s : string) :
  all_digits s = true -> py_strip (" " +:+ s) = s.
Proof.
  intros H. unfold py_strip.
  change (lstrip (" " +:+ s)) with (lstrip s).
  rewrite (lstrip_digits s H). apply rstrip_digits, H.
Qed.

(** X4. What [check_current_page] emits is shown as it was meant: the
    text "k / N" for two numbers splits at its one slash, the page input
    gets "k" (unless the user is typing in it) and the label of the total
    gets " / N". [check_current_page] emits no other text than the label
    of one of its items, and then exactly once. *)
Theorem page_label_is_displayed (k N : nat) (tb : ProPDFViewer.Toolbar) :
  let tb' := ProPDFViewer.update_page_label
               (pretty k +:+ " / " +:+ pretty N) tb in
  (ProPDFViewer.page_total_lbl tb' = " / " +:+ pretty N
   /\ ProPDFViewer.page_input tb'
      = (if ProPDFViewer.page_input_hasFocus tb
         then ProPDFViewer.page_input tb else pretty k)
   /\ ProPDFViewer.page_input_hasFocus tb'
      = ProPDFViewer.page_input_hasFocus tb)
  /\ (forall t : PDFTab,
        check_current_page t = t
        \/ exists item d,
             item ∈ page_items t /\ doc t = Some d
             /\ check_current_page t
                = set_signals
                    (signals t
                     ++ [page_changed (pretty (page_num item + 1)%nat
                                         +:+ " / " +:+ pretty (length d))]) t).
Proof.
  intros tb'. split.
  - subst tb'. unfold ProPDFViewer.update_page_label.
    rewrite (py_split_label _ _ (pretty_nat_digits k) (pretty_nat_digits N)).
    cbn [ProPDFViewer.page_total_lbl ProPDFViewer.page_input
         ProPDFViewer.page_input_hasFocus].
    rewrite (py_strip_space_digits _ (pretty_nat_digits N)).
    rewrite (py_strip_digits_space _ (pretty_nat_digits k)).
    auto.
  - intros t. unfold check_current_page.
    destruct (page_items t) as [|i0 rest] eqn:E; [left; reflexivity|].
    rewrite <- E.
    destruct (find_current (center_y t) (page_items t)) as [item|] eqn:Hf;
      [|left; reflexivity].
    destruct (doc t) as [d|] eqn:Hd; [|left; reflexivity].
    right. exists item, d. split; [|split; reflexivity].
    clear E. revert Hf. generalize (center_y t). intros c.
    induction (page_items t) as [|o l IH]; [discriminate|].
    rewrite find_current_step.
    destruct (straddles c o).
    + intros [= ->]. apply elem_of_cons. left. reflexivity.
    + intros H. apply elem_of_cons. right. apply IH, H.
Qed.

(** The second of two pages. *)
Example page_label_example :
  ProPDFViewer.update_page_label "2 / 2"
    {| ProPDFViewer.page_input := "1";
       ProPDFViewer.page_input_hasFocus := false;
       ProPDFViewer.page_total_lbl := " / 0" |}
  = {| ProPDFViewer.page_input := "2";
       ProPDFViewer.page_input_hasFocus := false;
       ProPDFViewer.page_total_lbl := " / 2" |}.
Proof. reflexivity. Qed.

(** ** The bounds of the selection *)

Section SelectionBounds.

Context `{BE : !Backend}.

Lemma py_pow2_raise (a : float) (e : exn) :
  py_pow2 a = Raise e -> e = OverflowError.
Proof.
  unfold py_pow2. destruct a; try discriminate.
  destruct (is_finite _ || is_nan _); [discriminate|].
  intros [= <-]. reflexivity.
Qed.

Lemma quad_dist_raise (q : Quad) (x y : float) (e : exn) :
  quad_dist q x y = Raise e -> e = OverflowError.
Proof.
  unfold quad_dist.
  destruct (py_pow2 (sub (div (add (pt_x (ul q)) (pt_x (lr q))) f2_0) x))
    as [dx2|e1] eqn:E1; cbn.
  - destruct (py_pow2 (sub (div (add (pt_y (ul q)) (pt_y (lr q))) f2_0) y))
      as [dy2|e2] eqn:E2; cbn; [discriminate|].
    intros [= <-]. apply (py_pow2_raise _ _ E2).
  - intros [= <-]. apply (py_pow2_raise _ _ E1).
Qed.

Lemma local_point_raise (t : PDFTab) (item : PDFPageItem) (scene_pos : QPointF)
    (e : exn) :
  local_point t item scene_pos = Raise e -> e = ZeroDivisionError.
Proof.
  unfold local_point, py_truediv.
  destruct (is_zero (scale t)); cbn; [|discriminate].
  intros [= <-]. reflexivity.
Qed.

(** The loop returns the index it was given, when no quad of the rest
    contains the point or is nearer than the given distance, or the index
    of one of the rest; it raises nothing but [OverflowError]. *)
Lemma closest_loop_result (x y : float) (rest : list Quad) :
  forall (i : Z) (best_dist : float) (best_idx : Z),
    match closest_loop x y i rest best_dist best_idx with
    | Ret idx =>
        (idx = best_idx
         /\ forall q, q ∈ rest ->
              quad_contains q x y = false
              /\ ltb (sq_dist q x y) best_dist = false)
        \/ i <= idx < i + Z.of_nat (length rest)
    | Raise e => e = OverflowError
    end.
Proof.
  induction rest as [|q rest IH]; intros i best_dist best_idx.
  - cbn. left. split; [reflexivity|]. intros q Hq. inversion Hq.
  - cbn [closest_loop].
    change (rect_contains (quad_rect q) {| pt_x := x; pt_y := y |})
      with (quad_contains q x y).
    destruct (quad_contains q x y) eqn:Hc.
    { cbn. right. cbn [length]. lia. }
    destruct (quad_dist q x y) as [dist|e] eqn:Hd; cbn [mbind result_bind].
    2:{ apply (quad_dist_raise _ _ _ _ Hd). }
    assert (Hsq : sq_dist q x y = dist)
      by (unfold sq_dist; rewrite Hd; reflexivity).
    destruct (ltb dist best_dist) eqn:Hlt.
    + specialize (IH (i + 1) dist i).
      destruct (closest_loop x y (i + 1) rest dist i) as [idx|e]; [|exact IH].
      right. cbn [length]. destruct IH as [[-> _]|IH]; lia.
    + specialize (IH (i + 1) best_dist best_idx).
      destruct (closest_loop x y (i + 1) rest best_dist best_idx) as [idx|e];
        [|exact IH].
      destruct IH as [[-> Hall]|IH]; [left|right; cbn [length]; lia].
      split; [reflexivity|].
      intros q' Hq'. apply elem_of_cons in Hq' as [->|Hq']; [|auto].
      rewrite Hsq. auto.
Qed.

Lemma find_closest_quad_index_result (quads : list Quad) (x y : float) :
  match find_closest_quad_index quads x y with
  | Ret idx =>
      -1 <= idx < Z.of_nat (length quads)
      /\ (idx = -1 ->
          forall q, q ∈ quads ->
            quad_contains q x y = false /\ ltb (sq_dist q x y) inf = false)
  | Raise e => e = OverflowError
  end.
Proof.
  unfold find_closest_quad_index. destruct quads as [|q0 rest] eqn:E.
  - cbn. split; [lia|]. intros _ q Hq. inversion Hq.
  - rewrite <- E. clear E q0 rest.
    pose proof (closest_loop_result x y quads 0 inf (-1)) as H.
    destruct (closest_loop x y 0 quads inf (-1)) as [idx|e]; [|exact H].
    destruct H as [[-> Hall]|H]; split; try lia; auto.
Qed.

(** X5. [find_closest_quad_index] never returns an index out of the
    list: its result is -1 or the index of a quad. When it is -1, no quad
    contains the point and no squared centre distance is below
    [float('inf')]. The only exception it raises is the [OverflowError]
    of a square. *)
Theorem closest_index_in_bounds (quads : list Quad) (x y : float) :
  match find_closest_quad_index quads x y with
  | Ret idx =>
      (idx = -1 \/ exists q, quads !! Z.to_nat idx = Some q /\ 0 <= idx)
      /\ (idx = -1 ->
          forall q, q ∈ quads ->
            quad_contains q x y = false /\ ltb (sq_dist q x y) inf = false)
  | Raise e => e = OverflowError
  end.
Proof.
  pose proof (find_closest_quad_index_result quads x y) as H.
  destruct (find_closest_quad_index quads x y) as [idx|e]; [|exact H].
  destruct H as [Hb Hall]. split; [|exact Hall].
  destruct (Z.eq_dec idx (-1)) as [|Hne]; [auto|right].
  destruct (lookup_lt_is_Some_2 quads (Z.to_nat idx)) as [q Hq]; [lia|].
  exists q. split; [exact Hq|lia].
Qed.

End SelectionBounds.

Section LinearSelection.

Context `{BE : !Backend}.

Lemma clip_polygons_quads (t : PDFTab) (item : PDFPageItem) (l : list Quad) :
  exists path,
    clip_polygons t item (AQuad <$> l) = Ret path /\ length path = length l.
Proof.
  induction l as [|q rest (path & Hpath & Hlen)].
  - exists []. split; reflexivity.
  - exists ([scaled t item (ul q); scaled t item (ur q);
             scaled t item (lr q); scaled t item (ll q)] :: path).
    change (AQuad <$> q :: rest) with (AQuad q :: (AQuad <$> rest)).
    cbn [clip_polygons clip_polygon mbind result_bind mret result_ret].
    rewrite Hpath. cbn. split; [reflexivity|congruence].
Qed.

Lemma draw_selection_visuals_fields (u : PDFTab) :
  selected_quads (draw_selection_visuals u) = selected_quads u
  /\ doc (draw_selection_visuals u) = doc u
  /\ page_quads_cache (draw_selection_visuals u) = page_quads_cache u
  /\ sel_start_index (draw_selection_visuals u) = sel_start_index u
  /\ sel_end_index (draw_selection_visuals u) = sel_end_index u.
Proof.
  unfold draw_selection_visuals.
  destruct (selected_quads u) as [|c cs] eqn:E; [cbn; auto|].
  destruct (start_selection_page u) as [r|]; [|auto].
  destruct (mbind _ _) as [path|e]; cbn; auto.
Qed.

(** The overlay gets one polygon for each selected quad. *)
Lemma draw_selection_visuals_quads (u : PDFTab) (r : ItemRef)
    (item : PDFPageItem) (l : list Quad) :
  start_selection_page u = Some r -> deref u r = Ret item ->
  selected_quads u = AQuad <$> l ->
  length (selection_overlay (draw_selection_visuals u)) = length l.
Proof.
  intros Hstart Hderef Hsel. unfold draw_selection_visuals.
  rewrite Hsel, Hstart, Hderef.
  destruct l as [|q rest]; [reflexivity|].
  change (AQuad <$> q :: rest) with (AQuad q :: (AQuad <$> rest)).
  cbn [mbind result_bind].
  change (AQuad q :: (AQuad <$> rest)) with (AQuad <$> q :: rest).
  destruct (clip_polygons_quads u item (q :: rest)) as (path & -> & Hlen).
  exact Hlen.
Qed.

(** X6. A move of the pointer during a linear selection over the page of
    the press, from a start index that is an index of the cached quads:
    the end index becomes -1 or an index of the cached quads; with -1
    the selection stays as it was; otherwise the selection is the run of
    cached quads from the smaller to the larger of the two indices, both
    included, whichever way the pointer went, and the overlay gets one
    polygon for each of them. The cache, the start index and the
    document do not change. The only exceptions that leave the handler
    are the [ZeroDivisionError] of a zero scale and the [OverflowError] of
    a square. *)
Theorem linear_move_selects_range (t : PDFTab) (r : ItemRef)
    (item : PDFPageItem) (p : QPoint) :
  start_selection_page t = Some r ->
  qpoint_isNull (origin_point t) = false ->
  use_linear_selection t = true ->
  deref t r = Ret item ->
  0 <= sel_start_index t < Z.of_nat (length (page_quads_cache t)) ->
  match handle_selection_move p t with
  | Ret t' =>
      let s := sel_start_index t in
      let e := sel_end_index t' in
      -1 <= e < Z.of_nat (length (page_quads_cache t))
      /\ page_quads_cache t' = page_quads_cache t
      /\ sel_start_index t' = s
      /\ doc t' = doc t
      /\ (e = -1 -> selected_quads t' = selected_quads t)
      /\ (0 <= e ->
          selected_quads t'
          = AQuad <$> py_slice (page_quads_cache t) (Z.min s e) (Z.max s e)
          /\ length (selected_quads t') = Z.to_nat (Z.abs (e - s) + 1)
          /\ length (selection_overlay t') = length (selected_quads t'))
  | Raise e => e = ZeroDivisionError \/ e = OverflowError
  end.
Proof.
  intros Hstart Horigin Hlin Hderef Hs.
  unfold handle_selection_move. rewrite Hstart, Horigin, Hlin.
  rewrite bool_decide_eq_true_2
    by (intros E; rewrite E in Hs; cbn in Hs; lia).
  cbn [andb]. rewrite Hderef.
  destruct (local_point t item (mapToScene (view t) p)) as [pt|e1] eqn:Hpt;
    cbn [mbind result_bind].
  2:{ left. apply (local_point_raise _ _ _ _ Hpt). }
  pose proof (find_closest_quad_index_result (page_quads_cache t)
                (pt_x pt) (pt_y pt)) as Hi.
  destruct (find_closest_quad_index (page_quads_cache t) (pt_x pt) (pt_y pt))
    as [i|e2]; cbn [mbind result_bind]; [|right; exact Hi].
  destruct Hi as [Hi _].
  cbn [sel_start_index sel_end_index set_sel_end_index page_quads_cache].
  destruct (Z.eqb_spec (sel_start_index t) (-1)) as [|_]; [lia|].
  destruct (Z.eqb_spec i (-1)) as [->|Hne]; cbn [negb andb].
  - cbn. repeat split; auto; lia.
  - set (l := py_slice (page_quads_cache t)
                (Z.min (sel_start_index t) i) (Z.max (sel_start_index t) i)).
    set (u := set_selected_quads (AQuad <$> l) (set_sel_end_index i t)).
    destruct (draw_selection_visuals_fields u) as (H1 & H2 & H3 & H4 & H5).
    unfold mret, result_ret. cbv zeta. rewrite H1, H2, H3, H4, H5.
    cbn [u selected_quads set_selected_quads sel_end_index set_sel_end_index
         doc page_quads_cache sel_start_index].
    split; [exact Hi|]. split; [reflexivity|]. split; [reflexivity|].
    split; [reflexivity|]. split; [intros; lia|]. intros _.
    assert (Hlen : length l = Z.to_nat (Z.abs (i - sel_start_index t) + 1)).
    { unfold l, py_slice. rewrite length_take, length_drop. lia. }
    split; [reflexivity|].
    rewrite length_fmap. split; [exact Hlen|].
    apply (draw_selection_visuals_quads u r item l);
      [exact Hstart|exact Hderef|reflexivity].
Qed.

End LinearSelection.

(** On the page of two words: the press is on the first word, the move
    goes to the second, and both words are selected. *)
Lemma linear_move_selects_range_witness :
  let t := handle_selection_press {| qp_x := 370; qp_y := 15 |}
             (set_tool Select
                (Sample.tab 800 600 0 [Sample.text_page 100 100 []])) in
  let r := {| ref_generation := 1; ref_index := 0; ref_page_num := 0 |} in
  start_selection_page t = Some r
  /\ sel_start_index t = 0
  /\ match handle_selection_move {| qp_x := 410; qp_y := 15 |} t with
     | Ret t' =>
         sel_end_index t' = 1
         /\ selected_quads t'
            = [AQuad (Sample.quad 10 10 40 20); AQuad (Sample.quad 50 10 80 20)]
         /\ length (selection_overlay t') = 2%nat
     | Raise _ => False
     end.
Proof.
  intros t r.
  assert (Hstart : start_selection_page t = Some r) by (vm_compute; reflexivity).
  assert (Hitem : deref t r = Ret (Sample.first_item t))
    by (vm_compute; reflexivity).
  assert (Hs : sel_start_index t = 0) by (vm_compute; reflexivity).
  assert (Hc : page_quads_cache t
               = [Sample.quad 10 10 40 20; Sample.quad 50 10 80 20])
    by (vm_compute; reflexivity).
  split; [exact Hstart|]. split; [exact Hs|].
  pose proof (linear_move_selects_range t r (Sample.first_item t)
                {| qp_x := 410; qp_y := 15 |} Hstart eq_refl eq_refl Hitem)
    as H.
  rewrite Hs, Hc in H. specialize (H ltac:(cbn; lia)).
  assert (He : match handle_selection_move {| qp_x := 410; qp_y := 15 |} t with
               | Ret t' => sel_end_index t' = 1
               | Raise _ => False
               end) by (vm_compute; reflexivity).
  destruct (handle_selection_move {| qp_x := 410; qp_y := 15 |} t) as [t'|e];
    [|exact He].
  cbv zeta in H. rewrite He in H.
  destruct H as (_ & _ & _ & _ & _ & H). destruct (H ltac:(lia)) as (Hq & Hl & Ho).
  split; [exact He|]. split; [exact Hq|]. rewrite Ho, Hl. reflexivity.
Defined.

(** ** What a press starts *)

Section Press.

Context `{BE : !Backend}.

Lemma deref_current (u t : PDFTab) (idx : nat) (item : PDFPageItem) :
  scene_generation u = scene_generation t ->
  page_items u = page_items t ->
  page_items t !! idx = Some item ->
  deref u (current_ref t idx item) = Ret item.
Proof.
  intros Hg Hitems Hi. unfold deref, current_ref. cbn.
  rewrite Hg, Nat.eqb_refl, Hitems, Hi. reflexivity.
Qed.

(** X7. A press with the Select or the Highlight tool drops the old
    selection and its overlay and remembers the pressed point; it changes
    neither the document nor the items. Over no page it does nothing
    else. Over a page it refers to the first item under the pointer, and
    either starts a linear selection, with the quads of that page cached,
    at least one of them, and a start index that is -1 or an index of the
    cache, or shows the rubber band at the pressed point, zero wide and
    zero high: the size [QSize()] that the handler asks for is not a
    valid one, and the rubber band takes it for no size. *)
Theorem press_starts_selection (p : QPoint) (t : PDFTab) :
  let t1 := handle_selection_press p t in
  let scene_pos := mapToScene (view t) p in
  (selected_quads t1 = [] /\ selection_overlay t1 = [] /\ origin_point t1 = p
   /\ doc t1 = doc t /\ page_items t1 = page_items t /\ scale t1 = scale t
   /\ tool_mode t1 = tool_mode t)
  /\ (item_at scene_pos 0 (page_items t) = None ->
      start_selection_page t1 = start_selection_page t
      /\ use_linear_selection t1 = false
      /\ rubberband_geometry t1 = rubberband_geometry t
      /\ rubberband_visible t1 = rubberband_visible t)
  /\ (forall idx item,
        item_at scene_pos 0 (page_items t) = Some (idx, item) ->
        start_selection_page t1 = Some (current_ref t idx item)
        /\ deref t1 (current_ref t idx item) = Ret item
        /\ (use_linear_selection t1 = false ->
            rubberband_visible t1 = true
            /\ rubberband_geometry t1
               = {| qr_x1 := qp_x p; qr_y1 := qp_y p;
                    qr_x2 := qp_x p - 1; qr_y2 := qp_y p - 1 |}
            /\ qrect_width (rubberband_geometry t1) = 0
            /\ qrect_height (rubberband_geometry t1) = 0)
        /\ (use_linear_selection t1 = true ->
            page_quads_cache t1 <> []
            /\ (pg ← page_obj t (page_num item); get_text_quads pg None)
               = Ret (page_quads_cache t1)
            /\ -1 <= sel_start_index t1
               < Z.of_nat (length (page_quads_cache t1)))).
Proof.
  intros t1 scene_pos. subst t1 scene_pos. unfold handle_selection_press.
  cbn [view set_use_linear_selection set_page_quads_cache set_selected_quads
       set_selection_overlay set_origin_point origin_point page_items].
  destruct (item_at (mapToScene (view t) p) 0 (page_items t))
    as [[idx item]|] eqn:Hat.
  2:{ split; [cbn; auto 10|]. split; [cbn; auto|]. intros ? ? [=]. }
  destruct (item_at_inv _ _ _ _ _ Hat) as (_ & Hi & _ & _).
  rewrite Nat.sub_0_r in Hi.
  assert (Hg : setGeometry (qrect_of_point p)
               = {| qr_x1 := qp_x p; qr_y1 := qp_y p;
                    qr_x2 := qp_x p - 1; qr_y2 := qp_y p - 1 |}
               /\ qrect_width (setGeometry (qrect_of_point p)) = 0
               /\ qrect_height (setGeometry (qrect_of_point p)) = 0).
  { unfold setGeometry, qrect_width, qrect_height, qrect_of_point. cbn.
    split; [f_equal; lia|lia]. }
  unfold press_on_item.
  match goal with
  | |- context [mbind ?k ?m] => destruct (mbind k m) as [quads|e] eqn:Eq
  end.
  2:{ split; [cbn; auto 10|]. split; [intros [=]|].
      intros idx' item' [= <- <-].
      split; [reflexivity|]. split; [apply deref_current; auto|].
      split; [intros _; cbn -[setGeometry qrect_of_point]; tauto|].
      cbn. intros [=]. }
  destruct quads as [|q0 qs].
  { split; [cbn; auto 10|]. split; [intros [=]|].
    intros idx' item' [= <- <-].
    split; [reflexivity|]. split; [apply deref_current; auto|].
    split; [intros _; cbn -[setGeometry qrect_of_point]; tauto|].
    cbn. intros [=]. }
  cbn [page_quads_cache set_use_linear_selection set_page_quads_cache].
  match goal with
  | |- context [local_point ?u item ?sp] =>
      destruct (local_point u item sp) as [pt|e] eqn:Ept
  end; cbn [mbind result_bind].
  2:{ split; [cbn; auto 10|]. split; [intros [=]|].
      intros idx' item' [= <- <-].
      split; [reflexivity|]. split; [apply deref_current; auto|].
      split; [intros _; cbn -[setGeometry qrect_of_point]; tauto|].
      cbn. intros [=]. }
  pose proof (find_closest_quad_index_result (q0 :: qs) (pt_x pt) (pt_y pt))
    as Hidx.
  destruct (find_closest_quad_index (q0 :: qs) (pt_x pt) (pt_y pt)) as [i|e].
  2:{ split; [cbn; auto 10|]. split; [intros [=]|].
      intros idx' item' [= <- <-].
      split; [reflexivity|]. split; [apply deref_current; auto|].
      split; [intros _; cbn -[setGeometry qrect_of_point]; tauto|].
      cbn. intros [=]. }
  destruct Hidx as [Hidx _].
  split; [cbn; auto 10|]. split; [intros [=]|].
  intros idx' item' [= <- <-].
  split; [reflexivity|]. split; [apply deref_current; auto|].
  split; [cbn; intros [=]|]. intros _.
  cbn [page_quads_cache set_sel_start_index set_use_linear_selection
       set_page_quads_cache sel_start_index].
  split; [discriminate|]. split; [exact Eq|exact Hidx].
Qed.

End Press.

(** A press on the first word of a page of text starts a linear
    selection at the quad 0; a press on a scanned page shows the rubber
    band. *)
Example press_examples :
  let t := set_tool Select
             (Sample.tab 800 600 0
                [Sample.text_page 100 100 []; Sample.scanned_page 100 100]) in
  let t1 := handle_selection_press {| qp_x := 370; qp_y := 15 |} t in
  let t2 := handle_selection_press {| qp_x := 370; qp_y := 135 |} t in
  (use_linear_selection t1 = true /\ sel_start_index t1 = 0
   /\ length (page_quads_cache t1) = 2%nat)
  /\ (use_linear_selection t2 = false /\ rubberband_visible t2 = true
      /\ rubberband_geometry t2
         = {| qr_x1 := 370; qr_y1 := 135; qr_x2 := 369; qr_y2 := 134 |}).
Proof. vm_compute. repeat split; reflexivity. Qed.

(** ** Moves that change nothing *)

Section IdleEvents.

Context `{BE : !Backend}.

(** With the Browse tool or without a document the tab's handlers are
    not called. *)
Lemma eventFilter_idle (ev : Event) (t : PDFTab) :
  tool_mode t = Browse \/ doc_falsy (doc t) = true -> eventFilter ev t = Ret t.
Proof.
  intros [H|H]; unfold eventFilter; [rewrite H; reflexivity|].
  rewrite H. destruct (tool_mode t); reflexivity.
Qed.

Lemma run_events_idle (evs : list Event) (t : PDFTab) :
  tool_mode t = Browse \/ doc_falsy (doc t) = true -> run_events evs t = Ret t.
Proof.
  intros H. induction evs as [|ev rest IH]; [reflexivity|].
  cbn [run_events]. rewrite (eventFilter_idle ev t H). exact IH.
Qed.

Lemma move_without_page (p : QPoint) (t : PDFTab) :
  start_selection_page t = None \/ qpoint_isNull (origin_point t) = true ->
  eventFilter (MouseMove p) t = Ret t.
Proof.
  intros H.
  assert (Hmove : handle_selection_move p t = Ret t).
  { unfold handle_selection_move.
    destruct (start_selection_page t) as [r|]; [|reflexivity].
    destruct H as [H|H]; [discriminate|]. rewrite H. reflexivity. }
  unfold eventFilter.
  destruct (tool_mode t), (doc_falsy (doc t)); try reflexivity; exact Hmove.
Qed.

Lemma moves_without_page (moves : list QPoint) (t : PDFTab) :
  start_selection_page t = None \/ qpoint_isNull (origin_point t) = true ->
  run_events (MouseMove <$> moves) t = Ret t.
Proof.
  intros H. induction moves as [|q rest IH]; [reflexivity|].
  cbn [fmap list_fmap run_events]. rewrite (move_without_page q t H).
  exact IH.
Qed.

(** X9. Moves of the pointer change nothing unless a press came before
    them: not in a tab that has just loaded its document, not after a
    release, whatever the release did, and not after a press at the point
    (0, 0) of the viewport, which is the null point that the handler takes
    for no press at all. *)
Theorem moves_without_press_do_nothing (moves : list QPoint) :
  (forall d path v rb,
     let t := load_document d path (PDFTab_init v rb) in
     run_events (MouseMove <$> moves) t = Ret t)
  /\ (forall choice t,
        let t' := handle_selection_release choice t in
        run_events (MouseMove <$> moves) t' = Ret t')
  /\ (forall t,
        let t' := handle_selection_press qpoint_null t in
        run_events (MouseMove <$> moves) t' = Ret t').
Proof.
  split; [|split].
  - intros d path v rb t. apply moves_without_page. left.
    subst t. unfold load_document, check_current_page.
    set (u := render_pages _).
    assert (Hu : start_selection_page u = None).
    { subst u. unfold render_pages. destruct (doc_falsy _); reflexivity. }
    destruct (page_items u); [exact Hu|].
    destruct (find_current _ _); [|exact Hu].
    destruct (doc u); exact Hu.
  - intros choice t t'. apply moves_without_page. left. reflexivity.
  - intros t t'. apply moves_without_page. right.
    destruct (press_without_linear qpoint_null t) as (_ & _ & Ho & _).
    fold t' in Ho. rewrite Ho. reflexivity.
Qed.

End IdleEvents.

(** ** What the handlers do to the document *)

Section DocumentEffects.

Context `{BE : !Backend}.

Lemma first_erasable_inv (point : Point) (l : list Annot) :
  forall n k : nat,
    first_erasable point n l = Some k ->
    (n <= k)%nat
    /\ exists a, l !! (k - n)%nat = Some a /\ erasable point a = true.
Proof.
  induction l as [|b rest IH]; intros n k H; [discriminate|].
  cbn [first_erasable] in H.
  change (rect_contains (annot_rect b) point && (annot_type b =? HIGHLIGHT))
    with (erasable point b) in H.
  destruct (erasable point b) eqn:Hb.
  - injection H as <-. split; [lia|]. exists b. rewrite Nat.sub_diag. auto.
  - apply IH in H as (Hle & a & Ha & He). split; [lia|]. exists a.
    replace (k - n)%nat with (S (k - S n)) by lia. auto.
Qed.

(** The loop of the eraser changes the document at one place at most. *)
Lemma eraser_loop_doc (scene_pos : QPointF) (t : PDFTab)
    (items : list PDFPageItem) :
  forall i : nat,
    doc (eraser_loop scene_pos i items t) = doc t
    \/ exists pn k a,
         annot_type a = HIGHLIGHT
         /\ without_annot (doc t) pn k a (doc (eraser_loop scene_pos i items t)).
Proof.
  induction items as [|item rest IH]; intros i; [left; reflexivity|].
  cbn [eraser_loop].
  destruct (in_scene item && qrectf_contains (sceneBoundingRect item) scene_pos);
    [|apply IH].
  destruct (local_point t item scene_pos) as [point|e];
    cbn [mbind result_bind]; [|apply IH].
  destruct (page_obj t (page_num item)) as [p|e] eqn:Hp;
    cbn [mbind result_bind mret result_ret]; [|apply IH].
  destruct (first_erasable point 0 (annots p)) as [k|] eqn:Hk;
    [|left; reflexivity].
  right. apply first_erasable_inv in Hk as (_ & a & Ha & He).
  rewrite Nat.sub_0_r in Ha.
  apply page_obj_inv in Hp as (d & Hd & Hl).
  exists (page_num item), k, a. split.
  - unfold erasable in He. apply andb_prop in He as [_ He].
    apply Z.eqb_eq, He.
  - exists d, p. rewrite update_render_ref_doc. unfold set_page. cbn.
    rewrite Hd. auto.
Qed.

(** X10. An erase press takes at most one annotation out of the document,
    and only a highlight: either the document is as it was, or one page
    has lost one annotation of the highlight type and nothing else
    differs. No annotation of another type is ever removed, and none is
    added. *)
Theorem erase_removes_at_most_one (screen_pos : QPoint) (t : PDFTab) :
  let t' := process_eraser screen_pos t in
  doc t' = doc t
  \/ exists pn k a,
       annot_type a = HIGHLIGHT /\ without_annot (doc t) pn k a (doc t').
Proof. apply eraser_loop_doc. Qed.

Lemma highlight_selection_doc (c : Color) (t : PDFTab) :
  doc (highlight_selection c t) = doc t
  \/ exists pn a,
       annot_stroke a = Some c
       /\ with_new_annot (doc t) pn a (doc (highlight_selection c t)).
Proof.
  unfold highlight_selection.
  destruct (selected_quads t) as [|q qs]; [auto|].
  destruct (start_selection_page t) as [r|]; [|auto].
  destruct (page_obj t (ref_page_num r)) as [p|e] eqn:Hp;
    cbn [mbind result_bind]; [|auto].
  unfold add_highlight_annot.
  destruct (make_highlight _) as [a|e];
    cbn [mbind result_bind mret result_ret]; [|auto].
  right. apply page_obj_inv in Hp as (d & Hd & Hl).
  exists (ref_page_num r),
    {| annot_rect := annot_rect a; annot_type := annot_type a;
       annot_stroke := Some c |}.
  split; [|exists d, p].
  - reflexivity.
  - cbn [doc set_selected_quads set_selection_overlay].
    rewrite update_render_ref_doc. unfold set_page. cbn. rewrite Hd. auto.
Qed.

Lemma process_box_highlight_doc (rect_screen : QRect) (t : PDFTab) :
  doc (process_box_highlight rect_screen t) = doc t
  \/ exists pn a,
       annot_stroke a = Some (highlight_color t)
       /\ with_new_annot (doc t) pn a (doc (process_box_highlight rect_screen t)).
Proof.
  unfold process_box_highlight.
  destruct (start_selection_page t) as [r|]; [|auto].
  destruct (box_pdf_rect rect_screen r t) as [pdf_rect|e];
    cbn [mbind result_bind]; [|auto].
  destruct (page_obj t (ref_page_num r)) as [p|e] eqn:Hp;
    cbn [mbind result_bind]; [|auto].
  unfold add_highlight_annot.
  destruct (make_highlight _) as [a|e];
    cbn [mbind result_bind mret result_ret]; [|auto].
  right. apply page_obj_inv in Hp as (d & Hd & Hl).
  exists (ref_page_num r),
    {| annot_rect := annot_rect a; annot_type := annot_type a;
       annot_stroke := Some (highlight_color t) |}.
  split; [|exists d, p].
  - reflexivity.
  - rewrite update_render_ref_doc. unfold set_page. cbn. rewrite Hd. auto.
Qed.

Lemma copy_selection_doc (t : PDFTab) : doc (copy_selection t) = doc t.
Proof.
  unfold copy_selection.
  destruct (selected_quads t) as [|c rest]; [reflexivity|].
  destruct (start_selection_page t) as [r|]; [|reflexivity].
  destruct c as [q|rect].
  - reflexivity.
  - destruct (mbind _ _) as [s|e]; reflexivity.
Qed.

Lemma show_context_menu_doc (choice : option MenuAction) (t : PDFTab) :
  doc (show_context_menu choice t) = doc t
  \/ exists pn a c,
       choice = Some (HighlightWith c) /\ annot_stroke a = Some c
       /\ with_new_annot (doc t) pn a (doc (show_context_menu choice t)).
Proof.
  destruct choice as [[|c]|]; cbn [show_context_menu].
  - left. apply copy_selection_doc.
  - destruct (highlight_selection_doc c t) as [H|(pn & a & Ha & H)]; [auto|].
    right. exists pn, a, c. auto.
  - auto.
Qed.

Lemma process_box_menu_doc (rect_screen : QRect) (choice : option MenuAction)
    (t : PDFTab) :
  doc (process_box_menu rect_screen choice t) = doc t
  \/ exists pn a c,
       choice = Some (HighlightWith c) /\ annot_stroke a = Some c
       /\ with_new_annot (doc t) pn a
            (doc (process_box_menu rect_screen choice t)).
Proof.
  unfold process_box_menu.
  destruct (start_selection_page t) as [r|]; [|auto].
  destruct (box_pdf_rect rect_screen r t) as [pdf_rect|e]; [|auto].
  cbv zeta.
  match goal with
  | |- context [show_context_menu choice ?u] =>
      assert (Hu : doc u = doc t);
      [|destruct (show_context_menu_doc choice u) as [H|H];
        rewrite Hu in H; auto]
  end.
  destruct (mbind _ _) as [[|q qs]|e]; reflexivity.
Qed.

(** X11. A release adds at most one annotation to the document and
    removes none: either the document is as it was, or one page has got
    one more annotation at its end and nothing else differs. The new
    annotation carries the colour of the tab with the Highlight tool, and
    with the Select tool the colour of the menu entry that was picked:
    with Copy Text, or with the menu dismissed, the document stays as it
    was. Whatever it did, the release ends the gesture: no page is
    referred to, the pressed point is null and the rubber band is
    hidden. *)
Theorem release_adds_at_most_one (choice : option MenuAction) (t : PDFTab) :
  let t' := handle_selection_release choice t in
  (doc t' = doc t
   \/ exists pn a c,
        annot_stroke a = Some c
        /\ with_new_annot (doc t) pn a (doc t')
        /\ (tool_mode t = Highlight -> c = highlight_color t)
        /\ (tool_mode t <> Highlight -> choice = Some (HighlightWith c)))
  /\ start_selection_page t' = None
  /\ origin_point t' = qpoint_null
  /\ rubberband_visible t' = false.
Proof.
  intros t'. split; [|repeat split].
  subst t'. unfold handle_selection_release.
  cbn [doc set_start_selection_page set_origin_point set_rubberband_visible].
  assert (Hh : forall c u,
            tool_mode t = Highlight ->
            c = highlight_color t ->
            doc u = doc t
            \/ (exists pn a, annot_stroke a = Some c
                             /\ with_new_annot (doc t) pn a (doc u)) ->
            doc u = doc t
            \/ exists pn a c,
                 annot_stroke a = Some c
                 /\ with_new_annot (doc t) pn a (doc u)
                 /\ (tool_mode t = Highlight -> c = highlight_color t)
                 /\ (tool_mode t <> Highlight ->
                     choice = Some (HighlightWith c))).
  { intros c u Hm Hc [H|(pn & a & Ha & H)]; [auto|].
    right. exists pn, a, c. repeat split; auto. intros Hn. contradiction. }
  assert (Hs : forall u,
            tool_mode t <> Highlight ->
            doc u = doc t
            \/ (exists pn a c, choice = Some (HighlightWith c)
                               /\ annot_stroke a = Some c
                               /\ with_new_annot (doc t) pn a (doc u)) ->
            doc u = doc t
            \/ exists pn a c,
                 annot_stroke a = Some c
                 /\ with_new_annot (doc t) pn a (doc u)
                 /\ (tool_mode t = Highlight -> c = highlight_color t)
                 /\ (tool_mode t <> Highlight ->
                     choice = Some (HighlightWith c))).
  { intros u Hm [H|(pn & a & c & Hc & Ha & H)]; [auto|].
    right. exists pn, a, c. repeat split; auto. intros Hn. contradiction. }
  destruct (tool_mode t) eqn:Hmode;
    destruct (use_linear_selection t && bool_decide (selected_quads t <> []));
    try destruct (5 <? qrect_width (rubberband_geometry t));
    try (left; reflexivity);
    first
      [ apply Hs; [discriminate|apply show_context_menu_doc]
      | apply Hs; [discriminate|apply process_box_menu_doc]
      | apply (Hh (highlight_color t)); [reflexivity|reflexivity|];
        apply highlight_selection_doc
      | apply (Hh (highlight_color t)); [reflexivity|reflexivity|];
        apply process_box_highlight_doc ].
Qed.

End DocumentEffects.

(** ** A scale of zero *)

Section ZeroScale.

Context `{BE : !Backend}.

Lemma local_point_zero (t : PDFTab) (item : PDFPageItem) (scene_pos : QPointF) :
  is_zero (scale t) = true ->
  local_point t item scene_pos = Raise ZeroDivisionError.
Proof.
  intros Hz. unfold local_point, py_truediv. rewrite Hz. reflexivity.
Qed.

Lemma box_pdf_rect_zero (rect_screen : QRect) (r : ItemRef) (t : PDFTab) :
  is_zero (scale t) = true ->
  exists e, box_pdf_rect rect_screen r t = Raise e.
Proof.
  intros Hz. unfold box_pdf_rect.
  destruct (deref t r) as [item|e]; cbn [mbind result_bind]; [|eauto].
  unfold py_truediv. rewrite Hz. cbn. eauto.
Qed.

Lemma eraser_loop_zero (scene_pos : QPointF) (t : PDFTab)
    (items : list PDFPageItem) :
  is_zero (scale t) = true ->
  forall i : nat, eraser_loop scene_pos i items t = t.
Proof.
  intros Hz. induction items as [|item rest IH]; intros i; [reflexivity|].
  cbn [eraser_loop].
  destruct (in_scene item && qrectf_contains (sceneBoundingRect item) scene_pos);
    [|apply IH].
  rewrite (local_point_zero t item scene_pos Hz). cbn. apply IH.
Qed.

Lemma press_zero (p : QPoint) (t : PDFTab) :
  is_zero (scale t) = true ->
  use_linear_selection (handle_selection_press p t) = false
  /\ scale (handle_selection_press p t) = scale t.
Proof.
  intros Hz. unfold handle_selection_press.
  cbn [view set_use_linear_selection set_page_quads_cache set_selected_quads
       set_selection_overlay set_origin_point origin_point page_items].
  destruct (item_at (mapToScene (view t) p) 0 (page_items t))
    as [[idx item]|]; [|split; reflexivity].
  unfold press_on_item.
  match goal with
  | |- context [mbind ?k ?m] => destruct (mbind k m) as [quads|e]
  end; [|split; reflexivity].
  destruct quads as [|q0 qs]; [split; reflexivity|].
  match goal with
  | |- context [local_point ?u item ?sp] =>
      rewrite (local_point_zero u item sp Hz)
  end.
  split; reflexivity.
Qed.

Lemma release_zero (choice : option MenuAction) (t : PDFTab) :
  is_zero (scale t) = true -> use_linear_selection t = false ->
  handle_selection_release choice t
  = set_start_selection_page None
      (set_origin_point qpoint_null (set_rubberband_visible false t)).
Proof.
  intros Hz Hlin. unfold handle_selection_release. rewrite Hlin. cbn [andb].
  assert (Hh : forall rect, process_box_highlight rect t = t).
  { intros rect. unfold process_box_highlight.
    destruct (start_selection_page t) as [r|]; [|reflexivity].
    destruct (box_pdf_rect_zero rect r t Hz) as [e ->]. reflexivity. }
  assert (Hm : forall rect, process_box_menu rect choice t = t).
  { intros rect. unfold process_box_menu.
    destruct (start_selection_page t) as [r|]; [|reflexivity].
    destruct (box_pdf_rect_zero rect r t Hz) as [e ->]. reflexivity. }
  destruct (tool_mode t), (5 <? qrect_width (rubberband_geometry t));
    rewrite ?Hh, ?Hm; reflexivity.
Qed.

(** Once the scale is zero and no linear selection is under way, no event
    changes the document or the scale, and none raises. *)
Lemma zero_scale_run (evs : list Event) :
  forall u : PDFTab,
    is_zero (scale u) = true ->
    (tool_mode u = Select \/ tool_mode u = Highlight ->
     use_linear_selection u = false) ->
    exists t', run_events evs u = Ret t'
      /\ doc t' = doc u /\ scale t' = scale u.
Proof.
  induction evs as [|ev rest IH]; intros u Hz Hlin; [exists u; auto|].
  cbn [run_events].
  assert (Hstep : exists u1,
            eventFilter ev u = Ret u1
            /\ doc u1 = doc u /\ scale u1 = scale u
            /\ (tool_mode u1 = Select \/ tool_mode u1 = Highlight ->
                use_linear_selection u1 = false)).
  { unfold eventFilter. destruct (tool_mode u) eqn:Hmode.
    - exists u. rewrite Hmode. auto.
    - destruct (doc_falsy (doc u)); [exists u; rewrite Hmode; auto|].
      specialize (Hlin (or_introl eq_refl)).
      destruct ev as [p|p|choice].
      + exists (handle_selection_press p u).
        destruct (press_without_linear p u) as (_ & Hd & _).
        destruct (press_zero p u Hz) as [Hl Hs]. auto.
      + rewrite (box_move p u Hlin). eexists. split; [reflexivity|].
        cbn. auto.
      + rewrite (release_zero choice u Hz Hlin). eexists.
        split; [reflexivity|]. cbn. auto.
    - destruct (doc_falsy (doc u)); [exists u; rewrite Hmode; auto|].
      specialize (Hlin (or_intror eq_refl)).
      destruct ev as [p|p|choice].
      + exists (handle_selection_press p u).
        destruct (press_without_linear p u) as (_ & Hd & _).
        destruct (press_zero p u Hz) as [Hl Hs]. auto.
      + rewrite (box_move p u Hlin). eexists. split; [reflexivity|].
        cbn. auto.
      + rewrite (release_zero choice u Hz Hlin). eexists.
        split; [reflexivity|]. cbn. auto.
    - destruct (doc_falsy (doc u)); [exists u; rewrite Hmode; auto|].
      assert (Hn : tool_mode u = Select \/ tool_mode u = Highlight ->
                   use_linear_selection u = false)
        by (rewrite Hmode; intros [|]; discriminate).
      destruct ev as [p|p|choice]; [|exists u; auto..].
      exists (process_eraser p u). unfold process_eraser.
      rewrite (eraser_loop_zero _ u _ Hz). auto. }
  destruct Hstep as (u1 & -> & Hd & Hs & Hl1). cbn [mbind result_bind].
  destruct (IH u1) as (t' & Hrun & Hd' & Hs'); [congruence|exact Hl1|].
  exists t'. split; [exact Hrun|]. split; congruence.
Qed.

(** X12. At the scale zero, which [fit_width] stores in a view 30 pixels
    wide, no gesture changes the document: a press starts no linear
    selection, because the division of the pointer's position by the
    scale raises and the handler falls back to the rubber band; an erase
    press changes nothing at all; and every sequence of events that
    starts with a press ends without an exception, with the document and
    the scale as they were. *)
Theorem zero_scale_commits_nothing (t : PDFTab) :
  is_zero (scale t) = true ->
  (forall p, use_linear_selection (handle_selection_press p t) = false)
  /\ (forall p, process_eraser p t = t)
  /\ (forall press rest,
        exists t', run_events (MouseButtonPress press :: rest) t = Ret t'
          /\ doc t' = doc t /\ scale t' = scale t).
Proof.
  intros Hz. split; [|split].
  - intros p. apply (press_zero p t Hz).
  - intros p. apply eraser_loop_zero, Hz.
  - intros press rest.
    destruct (doc_falsy (doc t)) eqn:Hdoc.
    { exists t. rewrite run_events_idle by auto. auto. }
    assert (Hpress : tool_mode t = Select \/ tool_mode t = Highlight ->
              exists t', run_events (MouseButtonPress press :: rest) t = Ret t'
                /\ doc t' = doc t /\ scale t' = scale t).
    { intros Hmode.
      assert (Hev : eventFilter (MouseButtonPress press) t
                    = Ret (handle_selection_press press t)).
      { unfold eventFilter. rewrite Hdoc.
        destruct Hmode as [->| ->]; reflexivity. }
      cbn [run_events]. rewrite Hev. cbn [mbind result_bind].
      destruct (press_without_linear press t) as (_ & Hd & _).
      destruct (press_zero press t Hz) as [Hl Hs].
      destruct (zero_scale_run rest (handle_selection_press press t))
        as (t' & Hrun & Hd' & Hs'); [congruence|auto|].
      exists t'. split; [exact Hrun|]. split; congruence. }
    destruct (tool_mode t) eqn:Hmode; auto.
    + exists t. rewrite run_events_idle by auto. auto.
    + apply zero_scale_run; [exact Hz|].
      rewrite Hmode. intros [|]; discriminate.
Qed.

End ZeroScale.

(** In a view 30 pixels wide [fit_width] stores the scale zero; a drag
    over the first word with the Highlight tool then marks nothing. *)
Lemma zero_scale_commits_nothing_witness :
  let t := set_tool Highlight
             (fit_width (Sample.tab 30 600 0 [Sample.text_page 100 100 []])) in
  is_zero (scale t) = true
  /\ exists t',
       run_events (gesture {| qp_x := 10; qp_y := 15 |}
                     [{| qp_x := 40; qp_y := 15 |}] None) t = Ret t'
       /\ doc t' = doc t.
Proof.
  intros t.
  assert (Hz : is_zero (scale t) = true) by (vm_compute; reflexivity).
  split; [exact Hz|].
  destruct (zero_scale_commits_nothing t Hz) as (_ & _ & H).
  destruct (H {| qp_x := 10; qp_y := 15 |}
              ((MouseMove <$> [{| qp_x := 40; qp_y := 15 |}])
                 ++ [MouseButtonRelease None])) as (t' & Hrun & Hd & _).
  exists t'. split; [exact Hrun|exact Hd].
Defined.

(** ** A drag across a new layout *)

Section StaleReference.

Context `{BE : !Backend}.

Lemma render_pages_selection (u : PDFTab) :
  doc_falsy (doc u) = false ->
  scene_generation (render_pages u) = S (scene_generation u)
  /\ start_selection_page (render_pages u) = start_selection_page u
  /\ origin_point (render_pages u) = origin_point u
  /\ use_linear_selection (render_pages u) = use_linear_selection u
  /\ page_quads_cache (render_pages u) = page_quads_cache u
  /\ selected_quads (render_pages u) = selected_quads u.
Proof.
  intros H. unfold render_pages. rewrite H. cbn. auto 10.
Qed.

Lemma deref_stale (u : PDFTab) (r : ItemRef) :
  (ref_generation r < scene_generation u)%nat -> deref u r = Raise RuntimeError.
Proof.
  intros H. unfold deref.
  rewrite (proj2 (Nat.eqb_neq _ _)) by lia. reflexivity.
Qed.

Lemma move_after_render (u : PDFTab) (r : ItemRef) (p : QPoint) :
  start_selection_page u = Some r ->
  (ref_generation r <= scene_generation u)%nat ->
  doc_falsy (doc u) = false ->
  qpoint_isNull (origin_point u) = false ->
  use_linear_selection u = true ->
  page_quads_cache u <> [] ->
  handle_selection_move p (render_pages u)
  = Ret (set_start_selection_page None (render_pages u)).
Proof.
  intros Hstart Hgen Hdoc Horigin Hlin Hcache.
  destruct (render_pages_selection u Hdoc) as (Hg & H1 & H2 & H3 & H4 & _).
  unfold handle_selection_move. rewrite H1, Hstart, H2, Horigin, H3, Hlin, H4.
  rewrite bool_decide_eq_true_2 by exact Hcache. cbn [andb].
  rewrite deref_stale by (rewrite Hg; lia). reflexivity.
Qed.

Lemma release_without_page (choice : option MenuAction) (t : PDFTab) :
  start_selection_page t = None ->
  doc (handle_selection_release choice t) = doc t.
Proof.
  intros H. unfold handle_selection_release.
  cbn [doc set_start_selection_page set_origin_point set_rubberband_visible].
  assert (Hh : forall c, highlight_selection c t = t).
  { intros c. unfold highlight_selection. rewrite H.
    destruct (selected_quads t); reflexivity. }
  assert (Hc : copy_selection t = t).
  { unfold copy_selection. rewrite H. destruct (selected_quads t); reflexivity. }
  assert (Hm : show_context_menu choice t = t).
  { destruct choice as [[|c]|]; cbn [show_context_menu]; auto. }
  assert (Hb : forall rect, process_box_highlight rect t = t).
  { intros rect. unfold process_box_highlight. rewrite H. reflexivity. }
  assert (Hn : forall rect, process_box_menu rect choice t = t).
  { intros rect. unfold process_box_menu. rewrite H. reflexivity. }
  destruct (tool_mode t),
    (use_linear_selection t && bool_decide (selected_quads t <> [])),
    (5 <? qrect_width (rubberband_geometry t));
    rewrite ?Hh, ?Hm, ?Hb, ?Hn; reflexivity.
Qed.

(** X13. A new layout in the middle of a linear selection ends it. After
    a zoom step or a change of the view mode the item of the press is
    gone from the scene; the next move of the pointer meets the deleted
    item, raises nothing, selects nothing and forgets the page of the
    press, so that the moves after it change nothing and a release with
    the Highlight tool leaves the document as it was. *)
Theorem new_layout_ends_linear_selection (t : PDFTab) (r : ItemRef) :
  start_selection_page t = Some r ->
  (ref_generation r <= scene_generation t)%nat ->
  doc_falsy (doc t) = false ->
  qpoint_isNull (origin_point t) = false ->
  use_linear_selection t = true ->
  page_quads_cache t <> [] ->
  (forall change p,
     handle_selection_move p (zoom_view change t)
     = Ret (set_start_selection_page None (zoom_view change t)))
  /\ (forall mode p u,
        ProPDFViewer.set_view_mode mode (Some t) = Some u ->
        handle_selection_move p u = Ret (set_start_selection_page None u))
  /\ (forall change p moves choice,
        tool_mode t = Highlight ->
        exists t',
          run_events (MouseMove p :: (MouseMove <$> moves)
                        ++ [MouseButtonRelease choice])
            (zoom_view change t) = Ret t'
          /\ doc t' = doc t).
Proof.
  intros Hstart Hgen Hdoc Horigin Hlin Hcache.
  assert (Hzoom : forall change p,
            handle_selection_move p (zoom_view change t)
            = Ret (set_start_selection_page None (zoom_view change t))).
  { intros change p. unfold zoom_view. apply (move_after_render _ r); auto. }
  split; [exact Hzoom|]. split.
  - intros mode p u [= <-]. apply (move_after_render _ r); auto.
  - intros change p moves choice Hmode.
    pose proof (Hzoom change p) as Hmove.
    set (u := zoom_view change t) in *.
    assert (Hu : doc u = doc t /\ tool_mode u = tool_mode t).
    { subst u. unfold zoom_view, render_pages. cbn [doc set_scale].
      rewrite Hdoc. cbn. auto. }
    destruct Hu as [Hud Hum].
    cbn [run_events]. unfold eventFilter at 1.
    rewrite Hum, Hmode, Hud, Hdoc, Hmove. cbn [mbind result_bind].
    rewrite run_events_app.
    rewrite moves_without_page by (left; reflexivity).
    cbn [mbind result_bind run_events]. unfold eventFilter.
    cbn [tool_mode set_start_selection_page doc].
    rewrite Hum, Hmode, Hud, Hdoc. cbn [mbind result_bind mret result_ret].
    eexists. split; [reflexivity|].
    rewrite (release_without_page choice
               (set_start_selection_page None u) eq_refl).
    exact Hud.
Qed.

End StaleReference.


(** A press on the first word with the Highlight tool, a zoom-in step by
    the keyboard, and the rest of the drag. *)
Lemma new_layout_ends_linear_selection_witness :
  let t := handle_selection_press {| qp_x := 370; qp_y := 15 |}
             (set_tool Highlight
                (Sample.tab 800 600 0 [Sample.text_page 100 100 []])) in
  let r := {| ref_generation := 1; ref_index := 0; ref_page_num := 0 |} in
  let q := {| qp_x := 410; qp_y := 15 |} in
  start_selection_page t = Some r
  /\ use_linear_selection t = true
  /\ handle_selection_move q (zoom_view f0_2 t)
     = Ret (set_start_selection_page None (zoom_view f0_2 t))
  /\ exists t',
       run_events (MouseMove q :: (MouseMove <$> [q])
                     ++ [MouseButtonRelease None]) (zoom_view f0_2 t) = Ret t'
       /\ doc t' = doc t.
Proof.
  intros t r q.
  assert (Hstart : start_selection_page t = Some r) by (vm_compute; reflexivity).
  assert (Hlin : use_linear_selection t = true) by (vm_compute; reflexivity).
  assert (Hgen : (ref_generation r <= scene_generation t)%nat)
    by (vm_compute; lia).
  assert (Hcache : page_quads_cache t <> []).
  { assert (Hc : page_quads_cache t
                 = [Sample.quad 10 10 40 20; Sample.quad 50 10 80 20])
      by (vm_compute; reflexivity).
    rewrite Hc. discriminate. }
  destruct (new_layout_ends_linear_selection t r Hstart Hgen eq_refl eq_refl
              Hlin Hcache) as (Hzoom & _ & Hrun).
  split; [exact Hstart|]. split; [exact Hlin|].
  split; [apply Hzoom|]. apply Hrun. reflexivity.
Defined.

(** ** Saving a copy, and saving after it *)

(** X14. Save Copy changes nothing of the tab but its path, and the path
    only when the tab had none and the copy was written. So a document
    opened from the web, whose path names no file, is sent to Save Copy by
    every later Save, however many copies were written; and a tab without
    a path takes the path of its first copy, after which Save writes in
    place as soon as that file exists. A cancelled dialog does nothing,
    and a failure of the engine is reported and changes nothing. *)
Theorem save_copy_then_save (w w' : SaveWorld) (t : PDFTab) :
  (exists t1, fst (save_as_new w (Some t)) = Some t1
     /\ doc t1 = doc t /\ scale t1 = scale t
     /\ (path_falsy (current_path t) = false -> t1 = t)
     /\ (forall p, current_path t = Some p -> p <> "" -> isfile w' p = false ->
           save_overwrite w' (Some t1) = save_as_new w' (Some t)
           /\ doc_saveIncr ∉ snd (save_overwrite w' (Some t1)))
     /\ (path_falsy (current_path t) = true -> chosen_path w <> "" ->
         save_result w (chosen_path w) = Ret () ->
         current_path t1 = Some (chosen_path w)
         /\ (isfile w' (chosen_path w) = true ->
             exists rest,
               snd (save_overwrite w' (Some t1)) = doc_saveIncr :: rest)))
  /\ (chosen_path w = "" -> save_as_new w (Some t) = (Some t, [getSaveFileName]))
  /\ (forall e, chosen_path w <> "" ->
        save_result w (chosen_path w) = Raise e ->
        save_as_new w (Some t)
        = (Some t, [getSaveFileName; doc_save (chosen_path w);
                    critical "Error" (exn_str e)])).
Proof.
  assert (Hredir : forall p,
            current_path t = Some p -> p <> "" -> isfile w' p = false ->
            save_overwrite w' (Some t) = save_as_new w' (Some t)
            /\ doc_saveIncr ∉ snd (save_overwrite w' (Some t))).
  { intros p Hp Hne Hfile.
    assert (Hr : save_overwrite w' (Some t) = save_as_new w' (Some t)).
    { unfold save_overwrite. rewrite Hp.
      destruct p as [|c p]; [contradiction|]. cbn. rewrite Hfile.
      reflexivity. }
    split; [exact Hr|]. rewrite Hr. apply save_as_new_never_saves_in_place. }
  assert (Hsame : (path_falsy (current_path t) = true -> chosen_path w <> "" ->
                   save_result w (chosen_path w) = Ret () -> False) ->
            exists t1, Some t = Some t1
              /\ doc t1 = doc t /\ scale t1 = scale t
              /\ (path_falsy (current_path t) = false -> t1 = t)
              /\ (forall p, current_path t = Some p -> p <> "" ->
                    isfile w' p = false ->
                    save_overwrite w' (Some t1) = save_as_new w' (Some t)
                    /\ doc_saveIncr ∉ snd (save_overwrite w' (Some t1)))
              /\ (path_falsy (current_path t) = true -> chosen_path w <> "" ->
                  save_result w (chosen_path w) = Ret () ->
                  current_path t1 = Some (chosen_path w)
                  /\ (isfile w' (chosen_path w) = true ->
                      exists rest,
                        snd (save_overwrite w' (Some t1))
                        = doc_saveIncr :: rest))).
  { intros Hno. exists t. split; [reflexivity|]. split; [reflexivity|].
    split; [reflexivity|]. split; [reflexivity|]. split; [exact Hredir|].
    intros H1 H2 H3. destruct (Hno H1 H2 H3). }
  assert (Hfst :
            (fst (save_as_new w (Some t)) = Some t
             /\ (path_falsy (current_path t) = true -> chosen_path w <> "" ->
                 save_result w (chosen_path w) = Ret () -> False))
            \/ (path_falsy (current_path t) = true /\ chosen_path w <> ""
                /\ fst (save_as_new w (Some t))
                   = Some (set_current_path (Some (chosen_path w)) t))).
  { unfold save_as_new.
    destruct (chosen_path w) as [|c path].
    { left. split; [reflexivity|]. intros _ Hne. contradiction. }
    destruct (save_result w (String c path)) as [[]|e].
    - destruct (path_falsy (current_path t)).
      + right. split; [reflexivity|]. split; [discriminate|reflexivity].
      + left. split; [reflexivity|discriminate].
    - left. split; [reflexivity|]. intros _ _. discriminate. }
  split; [|split].
  - destruct Hfst as [[-> Hno]|(Hf & Hne & ->)]; [apply Hsame, Hno|].
    eexists. split; [reflexivity|].
    split; [reflexivity|]. split; [reflexivity|].
    split; [rewrite Hf; discriminate|]. split.
    { intros p Hp Hnp. rewrite Hp in Hf.
      destruct p; [contradiction|discriminate]. }
    intros _ _ _. split; [reflexivity|].
    intros Hfile. unfold save_overwrite.
    cbn [current_path set_current_path default]. revert Hfile.
    destruct (chosen_path w) as [|c path]; [contradiction|]. intros Hfile.
    cbn. rewrite Hfile. cbn.
    destruct (saveIncr_result w'); eexists; reflexivity.
  - intros Hpath. unfold save_as_new. rewrite Hpath. reflexivity.
  - intros e Hne Hsave. unfold save_as_new.
    destruct (chosen_path w) as [|c path]; [contradiction|].
    rewrite Hsave. reflexivity.
Qed.

(** A tab without a path: the copy gives it the path, and the next Save
    writes in place. A tab opened from the web keeps its label. *)
Example save_copy_examples :
  let w := {| isfile := fun p => String.eqb p "copy.pdf";
              basename := fun p => p;
              chosen_path := "copy.pdf";
              save_result := fun _ => Ret ();
              saveIncr_result := Ret () |} in
  let untitled := set_current_path None Sample.annotated_tab in
  let web := set_current_path (Some "Web: https://example.org...")
               Sample.annotated_tab in
  (current_path <$> fst (save_as_new w (Some untitled))
   = Some (Some "copy.pdf")
   /\ snd (save_overwrite w (fst (save_as_new w (Some untitled))))
      = [doc_saveIncr; information "Saved" "Saved to original file."])
  /\ (current_path <$> fst (save_as_new w (Some web))
      = Some (Some "Web: https://example.org...")
      /\ snd (save_overwrite w (fst (save_as_new w (Some web))))
         = [getSaveFileName; doc_save "copy.pdf";
            information "Saved" "Copy saved."]).
Proof. repeat split; reflexivity. Qed.

(** ** Fitting the width twice *)

Lemma render_pages_doc (t : PDFTab) :
  doc (render_pages t) = doc t /\ view (render_pages t) = view t
  /\ view_mode (render_pages t) = view_mode t.
Proof. unfold render_pages. destruct (doc_falsy (doc t)); cbn; auto. Qed.

(** X15. [fit_width] is idempotent on the layout: it never changes the
    document, and a second call stores the scale of the first call again
    and lays the same items out at the same places. It changes nothing at
    all when the first page's width is not above zero. *)
Theorem fit_width_twice (t : PDFTab) :
  doc (fit_width t) = doc t
  /\ scale (fit_width (fit_width t)) = scale (fit_width t)
  /\ page_items (fit_width (fit_width t)) = page_items (fit_width t)
  /\ (forall page0 rest, doc t = Some (page0 :: rest) ->
        ltb (of_Z 0) (rect_width page0) = false -> fit_width t = t).
Proof.
  assert (Hnoop : forall page0 rest, doc t = Some (page0 :: rest) ->
            ltb (of_Z 0) (rect_width page0) = false -> fit_width t = t).
  { intros page0 rest Hd Hw. unfold fit_width. rewrite Hd, Hw. reflexivity. }
  destruct (doc t) as [[|page0 rest]|] eqn:Hd.
  1,3: (assert (E : fit_width t = t) by (unfold fit_width; rewrite Hd; reflexivity);
        rewrite !E; repeat split; auto; intros ? ? [=]).
  destruct (ltb (of_Z 0) (rect_width page0)) eqn:Hw.
  2:{ rewrite !(Hnoop page0 rest eq_refl Hw), Hd. repeat split; auto. }
  assert (E : fit_width t
              = render_pages
                  (set_scale (div (of_Z (view_width (view t) - 30))
                                (rect_width page0)) t)).
  { unfold fit_width. rewrite Hd, Hw. reflexivity. }
  set (s := div (of_Z (view_width (view t) - 30)) (rect_width page0)) in *.
  set (u := render_pages (set_scale s t)) in *.
  destruct (render_pages_doc (set_scale s t)) as (Hud & Huv & Hum).
  fold u in Hud, Huv, Hum. cbn [doc view view_mode set_scale] in Hud, Huv, Hum.
  assert (Hus : scale u = s) by (subst u; rewrite render_pages_scale; reflexivity).
  assert (E2 : fit_width u = render_pages (set_scale s u)).
  { unfold fit_width. rewrite Hud, Hd, Hw, Huv. reflexivity. }
  rewrite E, E2.
  split; [rewrite Hud; exact Hd|].
  split; [rewrite render_pages_scale, Hus; reflexivity|].
  split; [|intros p0 r0 [= <- <-]; congruence].
  assert (Hne : page0 :: rest <> []) by discriminate.
  assert (Hdu : doc (set_scale s u) = Some (page0 :: rest))
    by (cbn [doc set_scale]; rewrite Hud; exact Hd).
  assert (Hdt : doc (set_scale s t) = Some (page0 :: rest)) by exact Hd.
  rewrite (render_pages_items _ _ Hdu Hne). subst u.
  rewrite (render_pages_items _ _ Hdt Hne).
  cbn [view_mode view scale set_scale]. rewrite Hum, Huv. reflexivity.
Qed.

(** ** Marking and erasing *)

Section MarkAndErase.

Context `{BE : !Backend}.

Lemma set_annots_same (p : PageObj) : set_annots p (annots p) = p.
Proof. destruct p; reflexivity. Qed.

(** X16. Erasing undoes marking. After a release with the Highlight tool
    has committed the selected quads of a linear selection as the
    annotation [a], an erase press on a point of the same page that lies
    inside [a], and inside no highlight the page had before, removes [a]
    again: the document is what it was before the release. *)
Theorem erase_undoes_highlight (t : PDFTab) (choice : option MenuAction)
    (r : ItemRef) (p : PageObj) (a : Annot) (screen_pos : QPoint) (i : nat)
    (item : PDFPageItem) (point : Point) :
  tool_mode t = Highlight ->
  use_linear_selection t = true ->
  selected_quads t <> [] ->
  start_selection_page t = Some r ->
  page_obj t (ref_page_num r) = Ret p ->
  make_highlight (HQuads (selected_quads t)) = Ret a ->
  annot_type a = HIGHLIGHT ->
  let t1 := handle_selection_release choice t in
  let scene_pos := mapToScene (view t1) screen_pos in
  item_at scene_pos 0 (page_items t1) = Some (i, item) ->
  page_num item = ref_page_num r ->
  local_point t1 item scene_pos = Ret point ->
  rect_contains (annot_rect a) point = true ->
  forallb (fun b => negb (erasable point b)) (annots p) = true ->
  length <$> doc_annots (doc t1) = length <$> doc_annots (doc t)
  /\ doc t1 <> doc t
  /\ doc (process_eraser screen_pos t1) = doc t.
Proof.
  intros Hmode Hlin Hsel Hstart Hp Ha Htype t1 scene_pos Hat Hnum Hpt Hin Hnone.
  set (a' := {| annot_rect := annot_rect a; annot_type := annot_type a;
                annot_stroke := Some (highlight_color t) |}).
  set (p1 := set_annots p (annots p ++ [a'])).
  destruct (page_obj_inv _ _ _ Hp) as (d & Hd & Hl).
  assert (Hd1 : doc t1 = Some (<[ref_page_num r := p1]> d)).
  { unfold t1.
    rewrite (release_commits_selected_quads choice t r p a
               Hmode Hlin Hsel Hstart Hp Ha), Hd.
    reflexivity. }
  assert (Hlt : (ref_page_num r < length d)%nat) by (eapply lookup_lt_Some, Hl).
  assert (Hp1 : page_obj t1 (page_num item) = Ret p1).
  { unfold page_obj. rewrite Hd1, Hnum, list_lookup_insert_eq by exact Hlt.
    reflexivity. }
  split; [|split].
  - rewrite Hd1, Hd. unfold doc_annots. cbn. rewrite !length_fmap.
    rewrite length_insert. reflexivity.
  - rewrite Hd1, Hd. intros [= E].
    assert (El : <[ref_page_num r := p1]> d !! ref_page_num r = Some p)
      by (rewrite E; exact Hl).
    rewrite list_lookup_insert_eq in El by exact Hlt.
    injection El as El. apply (f_equal (fun x => length (annots x))) in El.
    subst p1. cbn in El. rewrite length_app in El. cbn in El. lia.
  - unfold process_eraser. fold scene_pos.
    rewrite (eraser_loop_at scene_pos t1 _ 0 i item Hat point p1 Hpt Hp1).
    assert (Hk : first_erasable point 0 (annots p1)
                 = Some (0 + length (annots p))%nat).
    { apply (first_erasable_first point _ 0 (length (annots p)) a').
      - subst p1. cbn. rewrite lookup_app_r, Nat.sub_diag by lia. reflexivity.
      - unfold erasable. subst a'. cbn. rewrite Hin, Htype. reflexivity.
      - subst p1. cbn. rewrite take_app_length. exact Hnone. }
    rewrite Hk. cbn [Nat.add].
    rewrite update_render_ref_doc. unfold set_page. cbn [doc set_doc].
    rewrite Hd1, Hnum. cbn.
    rewrite list_insert_insert_eq. unfold delete_annot. subst p1.
    cbn [annots set_annots].
    rewrite (delete_middle (annots p) [] a'), app_nil_r.
    change (set_annots (set_annots p (annots p ++ [a'])) (annots p))
      with (set_annots p (annots p)).
    rewrite set_annots_same, list_insert_id by exact Hl. symmetry. exact Hd.
Qed.

End MarkAndErase.


(** The first word of a page is marked by a short drag and erased by a
    press on it. *)
Lemma erase_undoes_highlight_witness :
  let t0 := set_tool Highlight
              (Sample.tab 800 600 0 [Sample.text_page 100 100 []]) in
  let press := {| qp_x := 370; qp_y := 15 |} in
  let t := match run_events [MouseButtonPress press;
                             MouseMove {| qp_x := 371; qp_y := 15 |}] t0 with
           | Ret u => u
           | Raise _ => t0
           end in
  let t1 := handle_selection_release None t in
  tool_mode t = Highlight
  /\ selected_quads t = [AQuad (Sample.quad 10 10 40 20)]
  /\ doc_annots (doc t) = Some [[]]
  /\ doc_annots (doc t1) = Some [[Sample.highlight]]
  /\ doc (process_eraser press t1) = doc t.
Proof.
  intros t0 press t t1.
  set (r := {| ref_generation := 1; ref_index := 0; ref_page_num := 0 |}).
  set (a := {| annot_rect := Sample.rect 10 10 40 20; annot_type := HIGHLIGHT;
               annot_stroke := None |}).
  assert (Hmode : tool_mode t = Highlight) by (vm_compute; reflexivity).
  assert (Hlin : use_linear_selection t = true) by (vm_compute; reflexivity).
  assert (Hsel : selected_quads t = [AQuad (Sample.quad 10 10 40 20)])
    by (vm_compute; reflexivity).
  assert (Hstart : start_selection_page t = Some r) by (vm_compute; reflexivity).
  assert (Hp : page_obj t (ref_page_num r) = Ret (Sample.text_page 100 100 []))
    by reflexivity.
  assert (Ha : make_highlight (HQuads (selected_quads t)) = Ret a)
    by (rewrite Hsel; vm_compute; reflexivity).
  assert (Hat : item_at (mapToScene (view t1) press) 0 (page_items t1)
                = Some (0%nat, Sample.first_item t1))
    by (vm_compute; reflexivity).
  assert (Hnum : page_num (Sample.first_item t1) = ref_page_num r)
    by (vm_compute; reflexivity).
  assert (Hpt : local_point t1 (Sample.first_item t1)
                  (mapToScene (view t1) press)
                = Ret (Sample.point 20 15))
    by (vm_compute; reflexivity).
  assert (Hne : selected_quads t <> []) by (rewrite Hsel; discriminate).
  destruct (erase_undoes_highlight t None r (Sample.text_page 100 100 []) a
              press 0 (Sample.first_item t1) (Sample.point 20 15)
              Hmode Hlin Hne Hstart Hp Ha eq_refl Hat Hnum Hpt eq_refl eq_refl)
    as (_ & _ & H).
  split; [exact Hmode|]. split; [exact Hsel|].
  split; [reflexivity|]. split; [vm_compute; reflexivity|exact H].
Defined.

(** ** The colour of the Highlight tool *)

Lemma literal_colours :
  div (of_Z 1) (of_Z 2) = ProPDFViewer.f0_5
  /\ div (of_Z 2) (of_Z 5) = ProPDFViewer.f0_4
  /\ div (of_Z 7) (of_Z 10) = ProPDFViewer.f0_7.
Proof. repeat split; reflexivity. Qed.

Lemma dict_get_missing (key : string) (dflt : Color) :
  (forall kv, kv ∈ ProPDFViewer.color_map -> fst kv <> key) ->
  ProPDFViewer.dict_get ProPDFViewer.color_map key dflt = dflt.
Proof.
  intros H. unfold ProPDFViewer.dict_get.
  assert (Hf : forall m : list (string * Color),
            (forall kv, kv ∈ m -> fst kv <> key) ->
            find (fun kv => String.eqb (fst kv) key) m = None).
  { induction m as [|kv rest IH]; intros Hm; [reflexivity|].
    cbn [find]. destruct (String.eqb_spec (fst kv) key) as [E|_].
    - destruct (Hm kv); [apply elem_of_cons; auto|exact E].
    - apply IH. intros kv' Hin. apply Hm, elem_of_cons. auto. }
  rewrite (Hf _ H). reflexivity.
Qed.

Section Colour.

Context `{BE : !Backend}.

(** X17. The colour picked in the colour box is the colour of the next
    mark. [update_color_wrapper] stores the colour of the name, yellow for
    a name that is not in its table, and changes nothing else of the tab:
    not the tool, the document or the selection. A release with the
    Highlight tool that commits the selected quads of a linear selection
    then gives the new annotation that colour. *)
Theorem picked_colour_is_committed (name : string) (t : PDFTab) :
  exists t1,
    ProPDFViewer.update_color_wrapper name (Some t) = Some t1
    /\ highlight_color t1
       = ProPDFViewer.dict_get ProPDFViewer.color_map name ProPDFViewer.yellow
    /\ ((forall kv, kv ∈ ProPDFViewer.color_map -> fst kv <> name) ->
        highlight_color t1 = ProPDFViewer.yellow)
    /\ (tool_mode t1 = tool_mode t /\ doc t1 = doc t
        /\ selected_quads t1 = selected_quads t
        /\ start_selection_page t1 = start_selection_page t
        /\ use_linear_selection t1 = use_linear_selection t
        /\ scale t1 = scale t)
    /\ (forall choice r p a,
          tool_mode t = Highlight ->
          use_linear_selection t = true ->
          selected_quads t <> [] ->
          start_selection_page t = Some r ->
          page_obj t (ref_page_num r) = Ret p ->
          make_highlight (HQuads (selected_quads t)) = Ret a ->
          doc (handle_selection_release choice t1)
          = (fun d : list PageObj =>
               <[ref_page_num r :=
                   set_annots p
                     (annots p
                        ++ [{| annot_rect := annot_rect a;
                               annot_type := annot_type a;
                               annot_stroke :=
                                 Some (ProPDFViewer.dict_get
                                         ProPDFViewer.color_map name
                                         ProPDFViewer.yellow) |}])]> d)
            <$> doc t).
Proof.
  unfold ProPDFViewer.update_color_wrapper. cbv zeta.
  set (rgb := ProPDFViewer.dict_get ProPDFViewer.color_map name
                ProPDFViewer.yellow).
  eexists. split; [reflexivity|].
  cbn [tool_mode ProPDFViewer.set_highlight_color].
  assert (Hfields :
            forall u,
              u = match tool_mode t with
                  | Highlight =>
                      set_tool Highlight (ProPDFViewer.set_highlight_color rgb t)
                  | _ => ProPDFViewer.set_highlight_color rgb t
                  end ->
              highlight_color u = rgb
              /\ tool_mode u = tool_mode t /\ doc u = doc t
              /\ selected_quads u = selected_quads t
              /\ start_selection_page u = start_selection_page t
              /\ use_linear_selection u = use_linear_selection t
              /\ scale u = scale t
              /\ page_obj u = page_obj t).
  { intros u ->. destruct (tool_mode t) eqn:Hm; cbn; rewrite ?Hm; auto 10. }
  match goal with
  | |- highlight_color ?u = _ /\ _ =>
      destruct (Hfields u eq_refl) as (Hc & Hm & Hd & Hs & Hr & Hl & Hsc & Hp);
      generalize dependent u
  end.
  intros u _ Hc Hm Hd Hs Hr Hl Hsc Hp.
  split; [exact Hc|].
  split; [intros Hmiss; rewrite Hc; apply dict_get_missing, Hmiss|].
  split; [auto 10|].
  intros choice r p a Hmode Hlin Hsel Hstart Hpage Ha.
  rewrite <- Hd, <- Hc.
  apply release_commits_selected_quads; try congruence.
Qed.

End Colour.

(** The colour Pink, and a name that is not in the table. *)
Example picked_colour_examples :
  let t := Sample.tab 800 600 0 [Sample.text_page 100 100 []] in
  highlight_color <$> ProPDFViewer.update_color_wrapper "Pink" (Some t)
  = Some (f1_0, ProPDFViewer.f0_4, ProPDFViewer.f0_7)
  /\ highlight_color <$> ProPDFViewer.update_color_wrapper "Teal" (Some t)
     = Some (f1_0, f1_0, zero)
  /\ tool_mode <$> ProPDFViewer.set_tool_wrapper Highlight "Red" (Some t)
     = Some Highlight
  /\ highlight_color <$> ProPDFViewer.set_tool_wrapper Highlight "Red" (Some t)
     = Some (f1_0, zero, zero).
Proof. repeat split; reflexivity. Qed.

(** ** Copying a box selection *)

Section BoxCopy.

Context `{BE : !Backend}.


End BoxCopy.

